(** * The user/auth service: models, services and routes

    A shallow embedding of [user_service/src]: the SQLAlchemy models of
    [models/auth.py], the pydantic schema [RoleCreateSchema] of
    [schemas/auth.py], the services of [services/auth_service.py] and the
    role-admin routes of [routes/auth.py].

    Conventions of the embedding.
    - A table is the list of its rows in insertion order; [Query.first()]
      is [find] on that list and [Query.get(pk)] is [find] on the key. No
      query of the code has an ORDER BY. Where rows of several kinds can
      match, the OR-query of [register_user], the rows come as the
      configured SQLite gives them: it answers each term of the OR from that
      column's unique index, the email term first.
    - A [datetime] is the number of microseconds since the epoch, a [Z].
    - A Python [str] is a [string]; the character predicates and
      [str.lower] are the ASCII ones. A [str] with a lone surrogate, the
      one kind [encode()] refuses, is told by [utf8_encodable].
    - What the code takes from outside (bcrypt, the JWT library, SHA-256,
      the clock, [uuid4]) is gathered in [Lib] and [Env] and passed in.
    - A raised exception is [inl e] in the error monad [Exc]; every
      service catches it, rolls the session back and answers a failure. *)

From Stdlib Require Import String Ascii List ZArith Bool Arith Lia Permutation.
Import ListNotations.
Set Warnings "-register-all".
Open Scope list_scope.
Open Scope string_scope.

(** ** Python values *)

Module Py.

Definition is_upper (c : ascii) : bool :=
  let n := nat_of_ascii c in (65 <=? n)%nat && (n <=? 90)%nat.

Definition is_lower (c : ascii) : bool :=
  let n := nat_of_ascii c in (97 <=? n)%nat && (n <=? 122)%nat.

Definition is_digit (c : ascii) : bool :=
  let n := nat_of_ascii c in (48 <=? n)%nat && (n <=? 57)%nat.

Definition is_alnum (c : ascii) : bool :=
  is_upper c || is_lower c || is_digit c.

Definition lower_char (c : ascii) : ascii :=
  if is_upper c then ascii_of_nat (nat_of_ascii c + 32) else c.

(** [s.lower()] *)
Fixpoint lower (s : string) : string :=
  match s with
  | EmptyString => EmptyString
  | String c s' => String (lower_char c) (lower s')
  end.

(** [s.replace(c, '')] for a one-character [c] *)
Fixpoint remove_char (c : ascii) (s : string) : string :=
  match s with
  | EmptyString => EmptyString
  | String d s' =>
      if Ascii.eqb d c then remove_char c s' else String d (remove_char c s')
  end.

Fixpoint all_chars (p : ascii -> bool) (s : string) : bool :=
  match s with
  | EmptyString => true
  | String c s' => p c && all_chars p s'
  end.

(** [s.isalnum()]: false on the empty string *)
Definition isalnum (s : string) : bool :=
  match s with
  | EmptyString => false
  | _ => all_chars is_alnum s
  end.

(** [x in xs] for a list of strings *)
Definition str_in (x : string) (xs : list string) : bool :=
  existsb (String.eqb x) xs.

End Py.

(** A JSON value, as [request.get_json()] and a [db.JSON] column hold it.
    [JNull] is Python's [None]; a [JDict] is a [dict] with string keys. *)
Inductive json : Type :=
| JNull
| JBool (b : bool)
| JNum (n : Z)
| JStr (s : string)
| JList (l : list json)
| JDict (kv : list (string * json)).

(** [Dict[str, Any]] *)
Definition dict : Type := list (string * json).

(** [key in d] on a [dict]: membership among the keys. *)
Definition dict_contains (key : string) (d : dict) : bool :=
  existsb (fun kv => String.eqb key (fst kv)) d.

(** [d.get(key)] *)
Definition dict_get (key : string) (d : dict) : option json :=
  option_map snd (find (fun kv => String.eqb key (fst kv)) d).

(** Truth value of a JSON payload, as [if not data] reads it. *)
Definition truthy (j : json) : bool :=
  match j with
  | JNull => false
  | JBool b => b
  | JNum n => negb (n =? 0)%Z
  | JStr s => negb (String.eqb s "")
  | JList l => match l with [] => false | _ => true end
  | JDict kv => match kv with [] => false | _ => true end
  end.

(** ** Exceptions *)

(** An exception, with the text [str(e)] gives. *)
Inductive exn : Type := Exception (message : string).

Definition str (e : exn) : string := let 'Exception m := e in m.

Definition Exc (A : Type) : Type := (exn + A)%type.

Definition ret {A} (a : A) : Exc A := inr a.
Definition raise {A} (e : exn) : Exc A := inl e.
Definition bind {A B} (c : Exc A) (k : A -> Exc B) : Exc B :=
  match c with
  | inl e => inl e
  | inr a => k a
  end.

Declare Scope exc_scope.
Delimit Scope exc_scope with exc.
Notation "x <- c ;; k" := (bind c (fun x => k))
  (at level 61, c at next level, right associativity) : exc_scope.
Open Scope exc_scope.

(** The dictionary a service returns: [{"success": True, ...}] with its
    payload, or [{"success": False, "error": ...}]. *)
Inductive Result (A : Type) : Type :=
| Success (payload : A)
| Failure (error : string).
Arguments Success {A} payload.
Arguments Failure {A} error.

Definition is_success {A} (r : Result A) : bool :=
  match r with Success _ => true | Failure _ => false end.

(** ** Models ([models/auth.py]) *)

Definition datetime : Type := Z.
Bind Scope Z_scope with datetime.

(** [timedelta(days=7)] in microseconds *)
Definition seven_days : Z := 7 * 86400 * 1000000.

Module User.
Record t : Type := Build {
  id : string;
  email : string;
  username : string;
  password_hash : string;
  first_name : option string;
  last_name : option string;
  is_active : bool;
  is_verified : bool;
  created_at : datetime;
  updated_at : datetime
}.

Definition with_password_hash (h : string) (u : t) : t :=
  Build (id u) (email u) (username u) h (first_name u) (last_name u)
        (is_active u) (is_verified u) (created_at u) (updated_at u).

Definition with_updated_at (d : datetime) (u : t) : t :=
  Build (id u) (email u) (username u) (password_hash u) (first_name u)
        (last_name u) (is_active u) (is_verified u) (created_at u) d.
End User.

Module Role.
Record t : Type := Build {
  id : string;
  name : string;
  description : option string;
  permissions : dict;
  created_at : datetime
}.

(** [Role.to_dict] keeps every column. *)
Definition to_dict (r : t) : t := r.
End Role.

Module UserRole.
Record t : Type := Build {
  user_id : string;
  role_id : string;
  assigned_at : datetime
}.
End UserRole.

Module RefreshToken.
Record t : Type := Build {
  id : string;
  user_id : string;
  token_hash : string;
  expires_at : datetime;
  is_revoked : bool;
  created_at : datetime
}.

(** [datetime.now(timezone.utc) > self.expires_at.replace(tzinfo=timezone.utc)] *)
Definition is_expired (now : datetime) (self : t) : bool :=
  (now >? expires_at self)%Z.

(** [not self.is_revoked and not self.is_expired()] *)
Definition is_valid (now : datetime) (self : t) : bool :=
  negb (is_revoked self) && negb (is_expired now self).

(** [self.is_revoked = True] *)
Definition revoke (self : t) : t :=
  Build (id self) (user_id self) (token_hash self) (expires_at self) true
        (created_at self).
End RefreshToken.

(** ** The store: the four tables *)

Record DB : Type := mkDB {
  users : list User.t;
  roles : list Role.t;
  user_roles : list UserRole.t;
  refresh_tokens : list RefreshToken.t
}.

Definition set_users (us : list User.t) (db : DB) : DB :=
  mkDB us (roles db) (user_roles db) (refresh_tokens db).
Definition set_roles (rs : list Role.t) (db : DB) : DB :=
  mkDB (users db) rs (user_roles db) (refresh_tokens db).
Definition set_user_roles (urs : list UserRole.t) (db : DB) : DB :=
  mkDB (users db) (roles db) urs (refresh_tokens db).
Definition set_refresh_tokens (ts : list RefreshToken.t) (db : DB) : DB :=
  mkDB (users db) (roles db) (user_roles db) ts.

(** Replace the first row that satisfies [p]: the write-back of an object
    the session loaded with [first()] or [get()] and then changed. *)
Fixpoint update_first {A} (p : A -> bool) (f : A -> A) (l : list A) : list A :=
  match l with
  | [] => []
  | x :: l' => if p x then f x :: l' else x :: update_first p f l'
  end.

(** Remove the first row that satisfies [p]: [db.session.delete(obj)]. *)
Fixpoint delete_first {A} (p : A -> bool) (l : list A) : list A :=
  match l with
  | [] => []
  | x :: l' => if p x then l' else x :: delete_first p l'
  end.

(** ** Strings that do not encode *)

(** A [str] outside ASCII is held as the bytes of its UTF-8 form. A lone
    surrogate (U+D800 to U+DFFF, which [request.get_json()] yields from the
    escape of one) has no UTF-8 form: it is held as the three bytes 0xED,
    0xA0 to 0xBF, 0x80 to 0xBF of its code point, and [s.encode()] raises
    on it. *)
Fixpoint has_surrogate (s : string) : bool :=
  match s with
  | EmptyString => false
  | String c s' =>
      match s' with
      | String d _ =>
          (nat_of_ascii c =? 237)%nat
          && (160 <=? nat_of_ascii d)%nat && (nat_of_ascii d <=? 191)%nat
      | EmptyString => false
      end
      || has_surrogate s'
  end.

(** [s.encode()] returns. *)
Definition utf8_encodable (s : string) : bool := negb (has_surrogate s).

(** The lone surrogate U+D800 as a one-character [str]. *)
Definition lone_surrogate : string :=
  String (ascii_of_nat 237) (String (ascii_of_nat 160) (String (ascii_of_nat 128) "")).

(** [s.encode()] *)
Definition encode (s : string) : Exc string :=
  if utf8_encodable s then ret s
  else raise (Exception
                "'utf-8' codec can't encode character: surrogates not allowed").

(** ** What the code takes from outside *)

(** [additional_claims] of an access token *)
Inductive AdditionalClaims : Type :=
  Claims (email username : string) (roles : list string).

(** A decoded token: the service reads its ['sub'] only. *)
Record DecodedToken : Type := { sub : string }.

(** The libraries: [hashlib], [bcrypt] and [flask_jwt_extended]. The token
    functions take the clock reading and the [jti] they draw. *)
Record Lib : Type := {
  sha256_hexdigest : string -> string;
  bcrypt_hashpw : string -> string -> Exc string;
  bcrypt_checkpw : string -> string -> Exc bool;
  create_access_token : datetime -> string -> string -> AdditionalClaims -> string;
  create_refresh_token : datetime -> string -> string -> string;
  jwt_decode : datetime -> string -> Exc DecodedToken
}.

(** [flask_jwt_extended.decode_token]: PyJWT encodes the token before it
    reads it, so a token that does not encode raises there; [jwt_decode]
    is what the library makes of a token that does. *)
Definition decode_token (L : Lib) (t : datetime) (encoded_token : string)
  : Exc DecodedToken :=
  if utf8_encodable encoded_token then jwt_decode L t encoded_token
  else raise (Exception
                "'utf-8' codec can't encode character: surrogates not allowed").

(** One request's readings: the clock, the values [uuid4()] returns in the
    order they are drawn, and the salt of [bcrypt.gensalt()]. *)
Record Env : Type := {
  now : datetime;
  uuid4 : nat -> string;
  gensalt : string
}.

(** ** Inserts, under the tables' primary keys and unique columns *)

Definition IntegrityError (column : string) : exn :=
  Exception ("UNIQUE constraint failed: " ++ column).

Definition AttributeError (detail : string) : exn :=
  Exception ("'NoneType' object has no attribute '" ++ detail ++ "'").

Definition insert_user (u : User.t) (db : DB) : Exc DB :=
  if existsb (fun x => User.id x =? User.id u) (users db)
  then raise (IntegrityError "users.id")
  else if existsb (fun x => User.email x =? User.email u) (users db)
  then raise (IntegrityError "users.email")
  else if existsb (fun x => User.username x =? User.username u) (users db)
  then raise (IntegrityError "users.username")
  else ret (set_users (users db ++ [u]) db).

Definition insert_role (r : Role.t) (db : DB) : Exc DB :=
  if existsb (fun x => Role.id x =? Role.id r) (roles db)
  then raise (IntegrityError "roles.id")
  else if existsb (fun x => Role.name x =? Role.name r) (roles db)
  then raise (IntegrityError "roles.name")
  else ret (set_roles (roles db ++ [r]) db).

Definition same_assignment (user_id role_id : string) (ur : UserRole.t) : bool :=
  (UserRole.user_id ur =? user_id) && (UserRole.role_id ur =? role_id).

Definition insert_user_role (ur : UserRole.t) (db : DB) : Exc DB :=
  if existsb (same_assignment (UserRole.user_id ur) (UserRole.role_id ur))
             (user_roles db)
  then raise (IntegrityError "user_roles.user_id, user_roles.role_id")
  else ret (set_user_roles (user_roles db ++ [ur]) db).

Definition insert_refresh_token (t : RefreshToken.t) (db : DB) : Exc DB :=
  if existsb (fun x => RefreshToken.id x =? RefreshToken.id t) (refresh_tokens db)
  then raise (IntegrityError "refresh_tokens.id")
  else if existsb (fun x => RefreshToken.token_hash x =? RefreshToken.token_hash t)
                  (refresh_tokens db)
  then raise (IntegrityError "refresh_tokens.token_hash")
  else ret (set_refresh_tokens (refresh_tokens db ++ [t]) db).

(** ** Queries *)

(** [User.query.get(user_id)] *)
Definition get_user (user_id : string) (db : DB) : option User.t :=
  find (fun u => User.id u =? user_id) (users db).

(** [Role.query.get(role_id)] *)
Definition get_role (role_id : string) (db : DB) : option Role.t :=
  find (fun r => Role.id r =? role_id) (roles db).

(** [Role.query.filter_by(name=name).first()] *)
Definition role_by_name (name : string) (db : DB) : option Role.t :=
  find (fun r => Role.name r =? name) (roles db).

(** [User.query.filter_by(email=email).first()] *)
Definition user_by_email (email : string) (db : DB) : option User.t :=
  find (fun u => User.email u =? email) (users db).

(** ** Methods of [User] that follow the relationships *)

(** [User.set_password] *)
Definition set_password (L : Lib) (env : Env) (password : string) (u : User.t)
  : Exc User.t :=
  h <- bcrypt_hashpw L password (gensalt env) ;;
  ret (User.with_password_hash h u).

(** [User.check_password] *)
Definition check_password (L : Lib) (u : User.t) (password : string) : Exc bool :=
  bcrypt_checkpw L password (User.password_hash u).

(** [User.get_roles]: [[ur.role for ur in self.user_roles]]; [ur.role] is
    [None] when no role has the id. The relationship has no [order_by]:
    the list is in table order here and in the database's order in the
    program, and the properties below speak of its members only. *)
Definition get_roles (db : DB) (u : User.t) : list (option Role.t) :=
  map (fun ur => get_role (UserRole.role_id ur) db)
      (filter (fun ur => UserRole.user_id ur =? User.id u) (user_roles db)).

(** [[role.name for role in user.get_roles()]] *)
Fixpoint role_names (rs : list (option Role.t)) : Exc (list string) :=
  match rs with
  | [] => ret []
  | None :: _ => raise (AttributeError "name")
  | Some r :: rs' => ns <- role_names rs' ;; ret (Role.name r :: ns)
  end.

(** [any(role.name == role_name for role in ...)], left to right *)
Fixpoint any_role_named (role_name : string) (rs : list (option Role.t)) : Exc bool :=
  match rs with
  | [] => ret false
  | None :: _ => raise (AttributeError "name")
  | Some r :: rs' =>
      if Role.name r =? role_name then ret true else any_role_named role_name rs'
  end.

(** [User.has_role] *)
Definition has_role (db : DB) (u : User.t) (role_name : string) : Exc bool :=
  any_role_named role_name (get_roles db u).

(** The loop of [User.has_permission]: [permission in role.permissions]
    on each role in turn, returning at the first hit. *)
Fixpoint has_permission_loop (permission : string) (rs : list (option Role.t))
  : Exc bool :=
  match rs with
  | [] => ret false
  | None :: _ => raise (AttributeError "permissions")
  | Some role :: rs' =>
      if dict_contains permission (Role.permissions role) then ret true
      else has_permission_loop permission rs'
  end.

(** [User.has_permission] *)
Definition has_permission (db : DB) (u : User.t) (permission : string) : Exc bool :=
  has_permission_loop permission (get_roles db u).

(** [User.to_dict]'s result *)
Record UserDict : Type := {
  d_id : string;
  d_email : string;
  d_username : string;
  d_first_name : option string;
  d_last_name : option string;
  d_is_active : bool;
  d_is_verified : bool;
  d_created_at : datetime;
  d_updated_at : datetime;
  d_roles : list string
}.

(** [User.to_dict(include_roles=True)] *)
Definition to_dict (db : DB) (u : User.t) : Exc UserDict :=
  ns <- role_names (get_roles db u) ;;
  ret {| d_id := User.id u; d_email := User.email u;
         d_username := User.username u; d_first_name := User.first_name u;
         d_last_name := User.last_name u; d_is_active := User.is_active u;
         d_is_verified := User.is_verified u; d_created_at := User.created_at u;
         d_updated_at := User.updated_at u; d_roles := ns |}.

(** ** Schemas ([schemas/auth.py]) *)

Module UserCreateSchema.
Record t : Type := Build {
  email : string;
  username : string;
  password : string;
  first_name : option string;
  last_name : option string
}.
End UserCreateSchema.

Module LoginRequestSchema.
Record t : Type := Build {
  email : string;
  password : string
}.
End LoginRequestSchema.

Module RoleCreateSchema.
Record t : Type := Build {
  name : string;
  description : option string;
  permissions : dict
}.

(** The [name] validator: the name without ['_'] and ['-'] must be
    alphanumeric, and the field becomes [v.lower()]. [None] stands for
    the [ValueError]. *)
Definition validate_name (v : string) : option string :=
  if negb (Py.isalnum (Py.remove_char "-" (Py.remove_char "_" v)))
  then None
  else Some (Py.lower v).

(** [description: Optional[str] = None] *)
Definition field_description (data : dict) : option (option string) :=
  match dict_get "description" data with
  | None => Some None
  | Some JNull => Some None
  | Some (JStr s) => Some (Some s)
  | Some _ => None
  end.

(** [permissions: Dict[str, Any] = Field(default_factory=dict)] *)
Definition field_permissions (data : dict) : option dict :=
  match dict_get "permissions" data with
  | None => Some []
  | Some (JDict d) => Some d
  | Some _ => None
  end.

(** [name: str = Field(..., min_length=1, max_length=100)], then the
    validator. *)
Definition field_name (data : dict) : option string :=
  match dict_get "name" data with
  | Some (JStr v) =>
      if (1 <=? String.length v)%nat && (String.length v <=? 100)%nat
      then validate_name v
      else None
  | _ => None
  end.

(** The constructor call on the unpacked [data]: [None] stands for the
    [ValidationError]. *)
Definition validate (data : dict) : option t :=
  match field_name data, field_description data, field_permissions data with
  | Some n, Some d, Some p => Some (Build n d p)
  | _, _, _ => None
  end.

(** Whether the [ValidationError] holds the [ValueError] of the [name]
    validator: the validator runs on a string of an allowed length only.
    pydantic keeps the exception itself in [e.errors()]. *)
Definition value_error (data : dict) : bool :=
  match dict_get "name" data with
  | Some (JStr v) =>
      (1 <=? String.length v)%nat && (String.length v <=? 100)%nat
      && match validate_name v with
         | None => true
         | Some _ => false
         end
  | _ => false
  end.
End RoleCreateSchema.

(** ** Services ([services/auth_service.py]) *)

(** Payloads of the successful results. *)
Inductive Registered : Type :=
  RegisteredUser (user : UserDict) (message : string).

Inductive LoggedIn : Type :=
  LoginTokens (access_token refresh_token token_type : string)
              (expires_in : Z) (user : UserDict).

Inductive Refreshed : Type :=
  RefreshTokens (access_token refresh_token token_type : string)
                (expires_in : Z).

Inductive RoleCreated : Type :=
  CreatedRole (role : Role.t) (message : string).

(** [try: ... except Exception as e: db.session.rollback(); return
    {"success": False, "error": f"<prefix>{str(e)}"}] around a session that
    ends in its commit: the exception leaves the store as it was. *)
Definition try_session {A} (prefix : string) (db : DB)
           (session : Exc (Result A * DB)) : Result A * DB :=
  match session with
  | inl e => (Failure (prefix ++ str e), db)
  | inr out => out
  end.

Module AuthService.

(** The row predicate of the OR-query of [register_user]. *)
Definition email_or_username (user_data : UserCreateSchema.t) (u : User.t) : bool :=
  (User.email u =? UserCreateSchema.email user_data)
  || (User.username u =? UserCreateSchema.username user_data).

(** [.first()] of the OR-query. SQLite looks the email up in the unique
    index of that column, then the username in the index of the other: the
    holder of the email, when there is one, is the row returned. *)
Definition first_email_or_username (user_data : UserCreateSchema.t)
           (us : list User.t) : option User.t :=
  match find (fun u => User.email u =? UserCreateSchema.email user_data) us with
  | Some u => Some u
  | None => find (fun u => User.username u =? UserCreateSchema.username user_data) us
  end.

(** The session of [register_user] up to and including its commit. The
    new user is flushed, and so gets its id, when the default role is
    queried. *)
Definition register_session (L : Lib) (env : Env)
           (user_data : UserCreateSchema.t) (db : DB) : Exc (User.t * DB) :=
  user <- set_password L env (UserCreateSchema.password user_data)
            (User.Build (uuid4 env 0)
                        (UserCreateSchema.email user_data)
                        (UserCreateSchema.username user_data)
                        ""
                        (UserCreateSchema.first_name user_data)
                        (UserCreateSchema.last_name user_data)
                        true false (now env) (now env)) ;;
  db1 <- insert_user user db ;;
  db2 <- match role_by_name "user" db1 with
         | Some default_role =>
             insert_user_role
               (UserRole.Build (User.id user) (Role.id default_role) (now env))
               db1
         | None => ret db1
         end ;;
  ret (user, db2).

Definition register_user (L : Lib) (env : Env)
           (user_data : UserCreateSchema.t) (db : DB) : Result Registered * DB :=
  match first_email_or_username user_data (users db) with
  | Some existing_user =>
      if User.email existing_user =? UserCreateSchema.email user_data
      then (Failure "Email already registered", db)
      else (Failure "Username already taken", db)
  | None =>
      match register_session L env user_data db with
      | inl e => (Failure ("Registration failed: " ++ str e), db)
      | inr (user, db2) =>
          (* after the commit: an exception no longer undoes it *)
          match to_dict db2 user with
          | inl e => (Failure ("Registration failed: " ++ str e), db2)
          | inr d => (Success (RegisteredUser d "User registered successfully"), db2)
          end
      end
  end.

Definition authenticate_user (L : Lib) (env : Env)
           (login_data : LoginRequestSchema.t) (db : DB) : Result LoggedIn * DB :=
  try_session "Authentication failed: " db
    match user_by_email (LoginRequestSchema.email login_data) db with
    | None => ret (Failure "Invalid email or password", db)
    | Some user =>
        ok <- check_password L user (LoginRequestSchema.password login_data) ;;
        if negb ok then ret (Failure "Invalid email or password", db)
        else if negb (User.is_active user)
        then ret (Failure "Account is deactivated", db)
        else
          names <- role_names (get_roles db user) ;;
          let access_token :=
            create_access_token L (now env) (uuid4 env 0) (User.id user)
              (Claims (User.email user) (User.username user) names) in
          let refresh_token :=
            create_refresh_token L (now env) (uuid4 env 1) (User.id user) in
          let refresh_token_hash := sha256_hexdigest L refresh_token in
          db1 <- insert_refresh_token
                   (RefreshToken.Build (uuid4 env 2) (User.id user)
                      refresh_token_hash (now env + seven_days)%Z false (now env))
                   db ;;
          (* after the commit: an exception no longer undoes it *)
          ret match to_dict db1 user with
              | inl e => (Failure ("Authentication failed: " ++ str e), db1)
              | inr d =>
                  (Success (LoginTokens access_token refresh_token "bearer" 1800 d),
                   db1)
              end
    end.

(** The row predicate of [filter_by(user_id=..., token_hash=...)]. *)
Definition token_row (user_id token_hash : string) (t : RefreshToken.t) : bool :=
  (RefreshToken.user_id t =? user_id) && (RefreshToken.token_hash t =? token_hash).

Definition refresh_access_token (L : Lib) (env : Env)
           (refresh_token : string) (db : DB) : Result Refreshed * DB :=
  try_session "Token refresh failed: " db
    (decoded_token <- decode_token L (now env) refresh_token ;;
     let user_id := sub decoded_token in
     (* [refresh_token.encode()] returns: [decode_token] encoded it before *)
     let refresh_token_hash := sha256_hexdigest L refresh_token in
     match find (token_row user_id refresh_token_hash) (refresh_tokens db) with
     | None => ret (Failure "Invalid or expired refresh token", db)
     | Some stored_token =>
         if negb (RefreshToken.is_valid (now env) stored_token)
         then ret (Failure "Invalid or expired refresh token", db)
         else
           match get_user user_id db with
           | None => ret (Failure "User not found or inactive", db)
           | Some user =>
               if negb (User.is_active user)
               then ret (Failure "User not found or inactive", db)
               else
                 names <- role_names (get_roles db user) ;;
                 let access_token :=
                   create_access_token L (now env) (uuid4 env 0) (User.id user)
                     (Claims (User.email user) (User.username user) names) in
                 let new_refresh_token :=
                   create_refresh_token L (now env) (uuid4 env 1) (User.id user) in
                 let db1 :=
                   set_refresh_tokens
                     (update_first (token_row user_id refresh_token_hash)
                                   RefreshToken.revoke (refresh_tokens db)) db in
                 let new_refresh_token_hash := sha256_hexdigest L new_refresh_token in
                 db2 <- insert_refresh_token
                          (RefreshToken.Build (uuid4 env 2) (User.id user)
                             new_refresh_token_hash (now env + seven_days)%Z false
                             (now env))
                          db1 ;;
                 ret (Success (RefreshTokens access_token new_refresh_token
                                             "bearer" 1800), db2)
           end
     end).

(** [logout_user]: [refresh_token.encode()] raises inside the [try] on a
    token that UTF-8 does not encode. *)
Definition logout_user (L : Lib) (refresh_token : string) (db : DB)
  : Result string * DB :=
  try_session "Logout failed: " db
    (_ <- encode refresh_token ;;
     let refresh_token_hash := sha256_hexdigest L refresh_token in
     let by_hash := fun t => RefreshToken.token_hash t =? refresh_token_hash in
     match find by_hash (refresh_tokens db) with
     | Some _ =>
         ret (Success "Logged out successfully",
              set_refresh_tokens
                (update_first by_hash RefreshToken.revoke (refresh_tokens db)) db)
     | None => ret (Success "Logged out successfully", db)
     end).

Definition get_user_by_id (user_id : string) (db : DB) : option User.t :=
  get_user user_id db.

Definition update_user_password (L : Lib) (env : Env)
           (user_id current_password new_password : string) (db : DB)
  : Result string * DB :=
  try_session "Password update failed: " db
    match get_user user_id db with
    | None => ret (Failure "User not found", db)
    | Some user =>
        ok <- check_password L user current_password ;;
        if negb ok then ret (Failure "Current password is incorrect", db)
        else
          user' <- set_password L env new_password user ;;
          let user'' := User.with_updated_at (now env) user' in
          ret (Success "Password updated successfully",
               set_users
                 (update_first (fun u => User.id u =? user_id)
                               (fun _ => user'') (users db)) db)
    end.

(** The [default_roles] list: name, description, permissions. *)
Definition default_roles : list (string * string * dict) :=
  [("admin", "Administrator with full system access",
    [("users", JList [JStr "create"; JStr "read"; JStr "update"; JStr "delete"]);
     ("roles", JList [JStr "create"; JStr "read"; JStr "update"; JStr "delete"]);
     ("system", JList [JStr "manage"; JStr "configure"])]);
   ("user", "Standard user with basic access",
    [("profile", JList [JStr "read"; JStr "update"]);
     ("llm", JList [JStr "use"]);
     ("analytics", JList [JStr "view"])]);
   ("analyst", "Data analyst with analytics access",
    [("profile", JList [JStr "read"; JStr "update"]);
     ("analytics", JList [JStr "create"; JStr "read"; JStr "update"; JStr "delete"]);
     ("reports", JList [JStr "create"; JStr "read"; JStr "update"; JStr "delete"])])].

(** [for role_data in default_roles: ...]; [k] counts the ids drawn. *)
Fixpoint seed_roles (env : Env) (k : nat) (specs : list (string * string * dict))
         (db : DB) : Exc DB :=
  match specs with
  | [] => ret db
  | (name, description, permissions) :: rest =>
      match role_by_name name db with
      | Some _ => seed_roles env k rest db
      | None =>
          db' <- insert_role
                   (Role.Build (uuid4 env k) name (Some description) permissions
                               (now env))
                   db ;;
          seed_roles env (S k) rest db'
      end
  end.

Definition create_default_roles (env : Env) (db : DB) : Result string * DB :=
  match seed_roles env 0 default_roles db with
  | inl e => (Failure ("Failed to create default roles: " ++ str e), db)
  | inr db' => (Success "Default roles created successfully", db')
  end.

End AuthService.

Module RoleService.

(** [permissions or {}] *)
Definition or_empty (permissions : option dict) : dict :=
  match permissions with
  | Some d => d
  | None => []
  end.

Definition create_role (env : Env) (name : string) (description : option string)
           (permissions : option dict) (db : DB) : Result RoleCreated * DB :=
  match role_by_name name db with
  | Some _ => (Failure "Role already exists", db)
  | None =>
      let role :=
        Role.Build (uuid4 env 0) name description (or_empty permissions) (now env) in
      match insert_role role db with
      | inl e => (Failure ("Role creation failed: " ++ str e), db)
      | inr db' =>
          (Success (CreatedRole (Role.to_dict role) "Role created successfully"), db')
      end
  end.

Definition get_all_roles (db : DB) : list Role.t :=
  map Role.to_dict (roles db).

Definition get_role_by_id (role_id : string) (db : DB) : option Role.t :=
  get_role role_id db.

Definition assign_role_to_user (env : Env) (user_id role_id : string) (db : DB)
  : Result string * DB :=
  match get_user user_id db, get_role role_id db with
  | None, _ => (Failure "User not found", db)
  | Some _, None => (Failure "Role not found", db)
  | Some _, Some _ =>
      match find (same_assignment user_id role_id) (user_roles db) with
      | Some _ => (Failure "User already has this role", db)
      | None =>
          match insert_user_role (UserRole.Build user_id role_id (now env)) db with
          | inl e => (Failure ("Role assignment failed: " ++ str e), db)
          | inr db' => (Success "Role assigned successfully", db')
          end
      end
  end.

Definition remove_role_from_user (user_id role_id : string) (db : DB)
  : Result string * DB :=
  match find (same_assignment user_id role_id) (user_roles db) with
  | None => (Failure "User does not have this role", db)
  | Some _ =>
      (Success "Role removed successfully",
       set_user_roles
         (delete_first (same_assignment user_id role_id) (user_roles db)) db)
  end.

End RoleService.

(** ** Routes ([routes/auth.py]): the role-management endpoints *)

Module Routes.

(** The JSON body of a response. *)
Inductive Body : Type :=
| ErrorBody (error : string)
| ValidationBody
| MessageBody (message : string)
| RoleBody (message : string) (role : Role.t)
| RolesBody (roles : list Role.t).

(** [jsonify(body), status] *)
Definition Response : Type := (Body * Z)%type.

Definition is_str (s : string) (j : json) : bool :=
  match j with
  | JStr s' => String.eqb s s'
  | _ => false
  end.

(** [s in x] for a string [s] and a JSON value [x]: an element of a list,
    a substring of a string, a key of a dict, and a [TypeError] on
    anything else. *)
Definition str_in_json (s : string) (x : json) : Exc bool :=
  match x with
  | JList l => ret (existsb (is_str s) l)
  | JStr t => ret (match index 0 s t with Some _ => true | None => false end)
  | JDict d => ret (dict_contains s d)
  | _ => raise (Exception "argument is not iterable")
  end.

(** [claims.get('roles', [])] *)
Definition claimed_roles (claims : dict) : json :=
  match dict_get "roles" claims with
  | Some j => j
  | None => JList []
  end.

(** The gate every role endpoint opens with: [Some] the 403 response
    when ['admin' not in user_roles]. *)
Definition admin_gate (claims : dict) : Exc (option Response) :=
  is_admin <- str_in_json "admin" (claimed_roles claims) ;;
  if negb is_admin
  then ret (Some (ErrorBody "Insufficient permissions", 403%Z))
  else ret None.

(** [except Exception as e: return jsonify({"error": f"<prefix>{str(e)}"}), 500] *)
Definition or_500 (prefix : string) (db : DB) (c : Exc (Response * DB))
  : Response * DB :=
  match c with
  | inl e => ((ErrorBody (prefix ++ str e), 500%Z), db)
  | inr out => out
  end.

(** [validate_json_data(RoleCreateSchema, data)]: unpacking a payload
    that is not a mapping raises, a [ValidationError] is the error
    answer. *)
Definition validate_json_data (data : json) : Exc (option RoleCreateSchema.t) :=
  match data with
  | JDict d => ret (RoleCreateSchema.validate d)
  | _ => raise (Exception "argument after ** must be a mapping")
  end.

(** [GET /roles] *)
Definition get_roles (claims : dict) (db : DB) : Response * DB :=
  or_500 "Failed to get roles: " db
    (gate <- admin_gate claims ;;
     match gate with
     | Some forbidden => ret (forbidden, db)
     | None => ret ((RolesBody (RoleService.get_all_roles db), 200%Z), db)
     end).

(** [POST /roles] *)
Definition create_role (env : Env) (claims : dict) (data : json) (db : DB)
  : Response * DB :=
  or_500 "Role creation failed: " db
    (gate <- admin_gate claims ;;
     match gate with
     | Some forbidden => ret (forbidden, db)
     | None =>
         if negb (truthy data)
         then ret ((ErrorBody "No data provided", 400%Z), db)
         else
           validated <- validate_json_data data ;;
           match validated with
           | None =>
               (* [jsonify(error)] cannot serialise a [ValueError] among
                  the details: the handler of the route answers *)
               if match data with
                  | JDict d => RoleCreateSchema.value_error d
                  | _ => false
                  end
               then raise (Exception
                             "Object of type ValueError is not JSON serializable")
               else ret ((ValidationBody, 400%Z), db)
           | Some role_data =>
               match RoleService.create_role env
                       (RoleCreateSchema.name role_data)
                       (RoleCreateSchema.description role_data)
                       (Some (RoleCreateSchema.permissions role_data)) db with
               | (Success (CreatedRole role message), db') =>
                   ret ((RoleBody message role, 201%Z), db')
               | (Failure error, db') => ret ((ErrorBody error, 400%Z), db')
               end
           end
     end).

(** [POST /users/<user_id>/roles/<role_id>] *)
Definition assign_role_to_user (env : Env) (claims : dict)
           (user_id role_id : string) (db : DB) : Response * DB :=
  or_500 "Role assignment failed: " db
    (gate <- admin_gate claims ;;
     match gate with
     | Some forbidden => ret (forbidden, db)
     | None =>
         match RoleService.assign_role_to_user env user_id role_id db with
         | (Success message, db') => ret ((MessageBody message, 200%Z), db')
         | (Failure error, db') => ret ((ErrorBody error, 400%Z), db')
         end
     end).

(** [DELETE /users/<user_id>/roles/<role_id>] *)
Definition remove_role_from_user (claims : dict) (user_id role_id : string)
           (db : DB) : Response * DB :=
  or_500 "Role removal failed: " db
    (gate <- admin_gate claims ;;
     match gate with
     | Some forbidden => ret (forbidden, db)
     | None =>
         match RoleService.remove_role_from_user user_id role_id db with
         | (Success message, db') => ret ((MessageBody message, 200%Z), db')
         | (Failure error, db') => ret ((ErrorBody error, 400%Z), db')
         end
     end).

(** A request to one of the three role-admin endpoints, behind
    [@jwt_required()]: the claims of its access token and its input. *)
Inductive RoleAdminRequest : Type :=
| PostRoles (data : json)
| PostUserRole (user_id role_id : string)
| DeleteUserRole (user_id role_id : string).

Definition handle (env : Env) (claims : dict) (req : RoleAdminRequest) (db : DB)
  : Response * DB :=
  match req with
  | PostRoles data => create_role env claims data db
  | PostUserRole user_id role_id => assign_role_to_user env claims user_id role_id db
  | DeleteUserRole user_id role_id => remove_role_from_user claims user_id role_id db
  end.

(** The service handling a sequence of requests, one after the other. *)
Fixpoint serve (reqs : list (Env * dict * RoleAdminRequest)) (db : DB)
  : list Response * DB :=
  match reqs with
  | [] => ([], db)
  | (env, claims, req) :: rest =>
      let '(resp, db1) := handle env claims req db in
      let '(resps, db2) := serve rest db1 in
      (resp :: resps, db2)
  end.

End Routes.

(** ** What the schema promises of a stored state *)

(** The foreign keys of [user_roles]: each row names a stored user and a
    stored role. *)
Definition user_roles_resolve (db : DB) : bool :=
  forallb (fun ur =>
             existsb (fun u => User.id u =? UserRole.user_id ur) (users db)
             && existsb (fun r => Role.id r =? UserRole.role_id ur) (roles db))
          (user_roles db).

(** The roles of a user all resolve: no [None] among [get_roles]. *)
Definition roles_resolve (rs : list (option Role.t)) : Prop :=
  Forall (fun r => exists role, r = Some role) rs.

(** [token_hash] is a unique column of [refresh_tokens]. *)
Definition unique_token_hashes (db : DB) : Prop :=
  NoDup (map RefreshToken.token_hash (refresh_tokens db)).

(** [name] is a unique column of [roles]. *)
Definition unique_role_names (db : DB) : Prop :=
  NoDup (map Role.name (roles db)).

(** The names of the three default roles, and the rows that carry one. *)
Definition default_role_names : list string :=
  map (fun spec => fst (fst spec)) AuthService.default_roles.

Definition is_default_role (r : Role.t) : bool :=
  Py.str_in (Role.name r) default_role_names.

(** The same roles under the same names, whatever else was edited. *)
Definition same_role_names (db db' : DB) : Prop :=
  map Role.name (roles db') = map Role.name (roles db).

(** ** Reading the permission map as the specification words it *)

(** One of the user's roles has a category whose action list holds [p]. *)
Definition grants_action (db : DB) (u : User.t) (p : string) : Prop :=
  exists role category actions,
    In (Some role) (get_roles db u)
    /\ In (category, JList actions) (Role.permissions role)
    /\ In (JStr p) actions.

(** One of the user's roles has [p] as a key of its permission map. *)
Definition grants_category (db : DB) (u : User.t) (p : string) : Prop :=
  exists role v,
    In (Some role) (get_roles db u) /\ In (p, v) (Role.permissions role).

(** Two names that differ in letter case only. *)
Definition same_up_to_case (a b : string) : Prop := Py.lower a = Py.lower b.

(** Every stored role name is in lower case, as the schema of [POST
    /roles] and the seed write them. *)
Definition lowercase_role_names (db : DB) : Prop :=
  Forall (fun r => Py.lower (Role.name r) = Role.name r) (roles db).

(** The claims of a token lack the admin role: no ['roles'] claim, or a
    list without ['admin']. *)
Definition lacks_admin (claims : dict) : Prop :=
  match dict_get "roles" claims with
  | None => True
  | Some (JList l) => ~ In (JStr "admin") l
  | Some _ => False
  end.

(** ** A sample installation, for running the model *)

Module Sample.

(** The part of a string before its first ['|']; [None] without one. *)
Fixpoint before_bar (s : string) : option string :=
  match s with
  | EmptyString => None
  | String c s' =>
      if Ascii.eqb c "|" then Some EmptyString
      else option_map (String c) (before_bar s')
  end.

(** Stand-ins for the libraries: a token is its subject, a bar and its
    [jti]; a hash is the text behind a tag. *)
Definition lib : Lib := {|
  sha256_hexdigest := fun s => "sha256:" ++ s;
  bcrypt_hashpw := fun password salt => ret ("$2b$" ++ password);
  bcrypt_checkpw := fun password hashed => ret (hashed =? "$2b$" ++ password);
  create_access_token := fun _ jti identity _ => identity ++ "|access|" ++ jti;
  create_refresh_token := fun _ jti identity => identity ++ "|refresh|" ++ jti;
  jwt_decode := fun _ token =>
    match before_bar token with
    | Some s => ret {| sub := s |}
    | None => raise (Exception "Not enough segments")
    end
|}.

Definition ids (prefix : string) (k : nat) : string :=
  prefix ++ match k with
            | O => "0"
            | 1%nat => "1"
            | 2%nat => "2"
            | _ => "n"
            end.

Definition env (t : datetime) (prefix : string) : Env :=
  {| now := t; uuid4 := ids prefix; gensalt := "salt" |}.

Definition admin_role : Role.t :=
  Role.Build "r-admin" "admin" (Some "Administrator with full system access")
    [("users", JList [JStr "create"; JStr "read"; JStr "update"; JStr "delete"]);
     ("roles", JList [JStr "create"; JStr "read"; JStr "update"; JStr "delete"]);
     ("system", JList [JStr "manage"; JStr "configure"])]
    0.

Definition user_role : Role.t :=
  Role.Build "r-user" "user" (Some "Standard user with basic access")
    [("profile", JList [JStr "read"; JStr "update"]);
     ("llm", JList [JStr "use"]);
     ("analytics", JList [JStr "view"])]
    0.

Definition alice : User.t :=
  User.Build "u-alice" "alice@example.com" "alice" "$2b$Passw0rd"
             None None true false 10 10.

Definition bob : User.t :=
  User.Build "u-bob" "bob@example.com" "bob" "$2b$Secr3tPass"
             (Some "Bob") None true false 20 20.

(** Alice's refresh token, issued at time 100. *)
Definition alice_token : string := "u-alice|refresh|j1".

Definition alice_row : RefreshToken.t :=
  RefreshToken.Build "t-1" "u-alice" "sha256:u-alice|refresh|j1"
                     (100 + seven_days) false 100.

Definition db : DB := {|
  users := [alice; bob];
  roles := [admin_role; user_role];
  user_roles := [UserRole.Build "u-alice" "r-admin" 10;
                 UserRole.Build "u-bob" "r-user" 20];
  refresh_tokens := [alice_row]
|}.

(** A row that expires at the very instant 1000. *)
Definition boundary_row : RefreshToken.t :=
  RefreshToken.Build "t-2" "u-bob" "sha256:u-bob|refresh|j2" 1000 false 0.


Definition bob_name_alice_email : UserCreateSchema.t :=
  UserCreateSchema.Build "alice@example.com" "bob" "Passw0rd" None None.

Definition carol : UserCreateSchema.t :=
  UserCreateSchema.Build "carol@example.com" "carol" "Passw0rd" (Some "Carol") None.

(** A store whose only refresh-token row carries the hash of Alice's
    token under Bob's user id. *)
Definition crossed_db : DB := {|
  users := [alice; bob];
  roles := [admin_role; user_role];
  user_roles := [];
  refresh_tokens :=
    [RefreshToken.Build "t-9" "u-bob" "sha256:u-alice|refresh|j1"
                        (100 + seven_days) false 100]
|}.

(** The claims of Bob's access token: the role [user] only. *)
Definition bob_claims : dict :=
  [("sub", JStr "u-bob"); ("email", JStr "bob@example.com");
   ("username", JStr "bob"); ("roles", JList [JStr "user"])].

(** Bob tries each role-admin endpoint in turn. *)
Definition bob_requests : list (Env * dict * Routes.RoleAdminRequest) :=
  [(env 600 "x", bob_claims,
    Routes.PostRoles (JDict [("name", JStr "Auditor")]));
   (env 601 "y", bob_claims, Routes.PostUserRole "u-bob" "r-admin");
   (env 602 "z", bob_claims, Routes.DeleteUserRole "u-alice" "r-admin")].

Definition empty_db : DB := {|
  users := []; roles := []; user_roles := []; refresh_tokens := []
|}.

(** The seeded store with the permissions of [user] cut down by hand. *)
Definition edited_seed : DB := {|
  users := [];
  roles := [Role.Build "s0" "admin" (Some "Administrator with full system access")
              [("users", JList [JStr "create"; JStr "read"; JStr "update"; JStr "delete"]);
               ("roles", JList [JStr "create"; JStr "read"; JStr "update"; JStr "delete"]);
               ("system", JList [JStr "manage"; JStr "configure"])] 1;
            Role.Build "s1" "user" (Some "Standard user with basic access")
              [("profile", JList [JStr "read"])] 1;
            Role.Build "s2" "analyst" (Some "Data analyst with analytics access")
              [("profile", JList [JStr "read"; JStr "update"]);
               ("analytics", JList [JStr "create"; JStr "read"; JStr "update"; JStr "delete"]);
               ("reports", JList [JStr "create"; JStr "read"; JStr "update"; JStr "delete"])] 1];
  user_roles := [];
  refresh_tokens := []
|}.

(** The claims of Alice's access token: she is an admin. *)
Definition alice_claims : dict :=
  [("sub", JStr "u-alice"); ("email", JStr "alice@example.com");
   ("username", JStr "alice"); ("roles", JList [JStr "admin"])].

(** A library whose [bcrypt] refuses a password of more than 72 bytes, as
    bcrypt 5 does, and is [lib] otherwise. *)
Definition bcrypt5 : Lib := {|
  sha256_hexdigest := sha256_hexdigest lib;
  bcrypt_hashpw := fun password salt =>
    if (72 <? String.length password)%nat
    then raise (Exception
                  "password cannot be longer than 72 bytes, truncate manually if necessary (e.g. my_password[:72])")
    else bcrypt_hashpw lib password salt;
  bcrypt_checkpw := fun password hashed =>
    if (72 <? String.length password)%nat
    then raise (Exception
                  "password cannot be longer than 72 bytes, truncate manually if necessary (e.g. my_password[:72])")
    else bcrypt_checkpw lib password hashed;
  create_access_token := create_access_token lib;
  create_refresh_token := create_refresh_token lib;
  jwt_decode := jwt_decode lib
|}.

(** A password of 73 characters. *)
Definition long_password : string :=
  "Passw0rdxxxxxxxxxxxxxxxxxxxxxxxxxxxxxxxxxxxxxxxxxxxxxxxxxxxxxxxxxxxxxxxxx".

End Sample.

(** ** More of [schemas/auth.py]: the username validator *)

Module UserCreateValidators.
(** [c in v] for a one-character [c] *)
Fixpoint contains_char (c : ascii) (v : string) : bool :=
  match v with
  | EmptyString => false
  | String d v' => Ascii.eqb d c || contains_char c v'
  end.

(** The [username] validator of [UserCreateSchema]: refused only when the
    name is not alphanumeric and has no underscore either. [None] stands
    for the [ValueError]. *)
Definition validate_username (v : string) : option string :=
  if negb (Py.isalnum v) && negb (contains_char "_" v) then None else Some v.
End UserCreateValidators.

(** ** More of [schemas/auth.py]: the token and password payloads *)

Module TokenRefreshSchema.
(** [refresh_token: str]; [None] stands for the [ValidationError]. A value
    that is not a string is refused, not converted (the schemas are
    pydantic 2 models, as their [from_attributes] configuration shows). *)
Definition validate (data : dict) : option string :=
  match dict_get "refresh_token" data with
  | Some (JStr s) => Some s
  | _ => None
  end.
End TokenRefreshSchema.

Module PasswordChangeSchema.
Record t : Type := Build {
  current_password : string;
  new_password : string
}.

(** [any(p(c) for c in v)] *)
Fixpoint any_char (p : ascii -> bool) (v : string) : bool :=
  match v with
  | EmptyString => false
  | String c v' => p c || any_char p v'
  end.

(** The [new_password] validator: an uppercase letter, a lowercase letter
    and a digit, asked for in that order. [inl] carries the message of the
    [ValueError]. *)
Definition validate_new_password (v : string) : string + string :=
  if negb (any_char Py.is_upper v)
  then inl "Password must contain at least one uppercase letter"
  else if negb (any_char Py.is_lower v)
  then inl "Password must contain at least one lowercase letter"
  else if negb (any_char Py.is_digit v)
  then inl "Password must contain at least one digit"
  else inr v.

(** [current_password: str] *)
Definition field_current_password (data : dict) : option string :=
  match dict_get "current_password" data with
  | Some (JStr s) => Some s
  | _ => None
  end.

(** [new_password: str = Field(..., min_length=8, max_length=128)], then
    the validator. *)
Definition field_new_password (data : dict) : option string :=
  match dict_get "new_password" data with
  | Some (JStr v) =>
      if (8 <=? String.length v)%nat && (String.length v <=? 128)%nat
      then match validate_new_password v with
           | inr v' => Some v'
           | inl _ => None
           end
      else None
  | _ => None
  end.

(** The constructor call on the unpacked [data]: [None] stands for the
    [ValidationError]. *)
Definition validate (data : dict) : option t :=
  match field_current_password data, field_new_password data with
  | Some c, Some n => Some (Build c n)
  | _, _ => None
  end.

(** Whether the [ValidationError] holds the [ValueError] of the
    [new_password] validator: the validator runs on a string of an allowed
    length only. pydantic keeps the exception itself in [e.errors()]. *)
Definition value_error (data : dict) : bool :=
  match dict_get "new_password" data with
  | Some (JStr v) =>
      (8 <=? String.length v)%nat && (String.length v <=? 128)%nat
      && match validate_new_password v with
         | inl _ => true
         | inr _ => false
         end
  | _ => false
  end.
End PasswordChangeSchema.

(** ** More of [routes/auth.py]: refresh, logout, change of password *)

Module SessionRoutes.

(** The JSON body of a response. *)
Inductive Body : Type :=
| ErrorBody (error : string)
| ValidationBody
| MessageBody (message : string)
| TokenBody (access_token refresh_token token_type : string) (expires_in : Z).

Definition Response : Type := (Body * Z)%type.

(** [except Exception as e: return jsonify({"error": f"<prefix>{str(e)}"}), 500] *)
Definition or_500 (prefix : string) (db : DB) (c : Exc (Response * DB))
  : Response * DB :=
  match c with
  | inl e => ((ErrorBody (prefix ++ str e), 500%Z), db)
  | inr out => out
  end.

(** [not data or 'refresh_token' not in data]; the membership test is
    reached for a true [data] only. *)
Definition lacks_refresh_token (data : json) : Exc bool :=
  if negb (truthy data) then ret true
  else present <- Routes.str_in_json "refresh_token" data ;; ret (negb present).

(** Unpacking a payload into a schema: a payload that is not a mapping
    raises. *)
Definition unpack (data : json) : Exc dict :=
  match data with
  | JDict d => ret d
  | _ => raise (Exception "argument after ** must be a mapping")
  end.

(** [data['refresh_token']]: a key of a dict; [None] when the key is
    missing, an exception on a list or a string. *)
Definition getitem_refresh_token (data : json) : Exc json :=
  match data with
  | JDict d =>
      match dict_get "refresh_token" d with
      | Some v => ret v
      | None => raise (Exception "'refresh_token'")
      end
  | _ => raise (Exception "indices must be integers")
  end.

(** [type(v).__name__] *)
Definition type_name (v : json) : string :=
  match v with
  | JNull => "NoneType"
  | JBool _ => "bool"
  | JNum _ => "int"
  | JStr _ => "str"
  | JList _ => "list"
  | JDict _ => "dict"
  end.

(** [AuthService.logout_user] on whatever the body holds: on a value that
    is not a string [refresh_token.encode()] raises inside the service,
    which answers its failure. *)
Definition logout_user_value (L : Lib) (v : json) (db : DB) : Result string * DB :=
  match v with
  | JStr refresh_token => AuthService.logout_user L refresh_token db
  | _ => (Failure ("Logout failed: '" ++ type_name v
                   ++ "' object has no attribute 'encode'"), db)
  end.

(** [POST /auth/refresh] *)
Definition refresh (L : Lib) (env : Env) (data : json) (db : DB) : Response * DB :=
  or_500 "Token refresh failed: " db
    (missing <- lacks_refresh_token data ;;
     if missing then ret ((ErrorBody "Refresh token required", 400%Z), db)
     else
       d <- unpack data ;;
       match TokenRefreshSchema.validate d with
       | None => ret ((ValidationBody, 400%Z), db)
       | Some refresh_token =>
           match AuthService.refresh_access_token L env refresh_token db with
           | (Success (RefreshTokens a r t e), db') =>
               ret ((TokenBody a r t e, 200%Z), db')
           | (Failure error, db') => ret ((ErrorBody error, 401%Z), db')
           end
       end).

(** [POST /auth/logout], behind [@jwt_required()] *)
Definition logout (L : Lib) (data : json) (db : DB) : Response * DB :=
  or_500 "Logout failed: " db
    (missing <- lacks_refresh_token data ;;
     if missing then ret ((ErrorBody "Refresh token required", 400%Z), db)
     else
       v <- getitem_refresh_token data ;;
       match logout_user_value L v db with
       | (Success message, db') => ret ((MessageBody message, 200%Z), db')
       | (Failure error, db') => ret ((ErrorBody error, 400%Z), db')
       end).

(** [POST /auth/change-password], behind [@jwt_required()]; [user_id] is
    [get_jwt_identity()]. *)
Definition change_password (L : Lib) (env : Env) (user_id : string) (data : json)
           (db : DB) : Response * DB :=
  or_500 "Password change failed: " db
    (if negb (truthy data) then ret ((ErrorBody "No data provided", 400%Z), db)
     else
       d <- unpack data ;;
       match PasswordChangeSchema.validate d with
       | None =>
           (* [jsonify(error)] cannot serialise a [ValueError] among the
              details: the handler of the route answers *)
           if PasswordChangeSchema.value_error d
           then raise (Exception
                         "Object of type ValueError is not JSON serializable")
           else ret ((ValidationBody, 400%Z), db)
       | Some password_data =>
           match AuthService.update_user_password L env user_id
                   (PasswordChangeSchema.current_password password_data)
                   (PasswordChangeSchema.new_password password_data) db with
           | (Success message, db') => ret ((MessageBody message, 200%Z), db')
           | (Failure error, db') => ret ((ErrorBody error, 400%Z), db')
           end
       end).

End SessionRoutes.

(** ** The schema as a whole, and the services as steps *)

(** The composite primary key of [user_roles]. *)
Definition assignment_key (ur : UserRole.t) : string * string :=
  (UserRole.user_id ur, UserRole.role_id ur).

(** The foreign key of [refresh_tokens]: each row names a stored user. *)
Definition tokens_resolve (db : DB) : bool :=
  forallb (fun t =>
             existsb (fun u => User.id u =? RefreshToken.user_id t) (users db))
          (refresh_tokens db).

(** The primary keys, the unique columns and the foreign keys of the four
    tables. *)
Record schema_ok (db : DB) : Prop := {
  ok_user_ids : NoDup (map User.id (users db));
  ok_emails : NoDup (map User.email (users db));
  ok_usernames : NoDup (map User.username (users db));
  ok_role_ids : NoDup (map Role.id (roles db));
  ok_role_names : unique_role_names db;
  ok_assignments : NoDup (map assignment_key (user_roles db));
  ok_token_ids : NoDup (map RefreshToken.id (refresh_tokens db));
  ok_token_hashes : unique_token_hashes db;
  ok_user_roles : user_roles_resolve db = true;
  ok_tokens : tokens_resolve db = true
}.

(** A call of one of the services that write. *)
Inductive Call : Type :=
| CallRegister (user_data : UserCreateSchema.t)
| CallLogin (login_data : LoginRequestSchema.t)
| CallRefresh (refresh_token : string)
| CallLogout (refresh_token : string)
| CallUpdatePassword (user_id current_password new_password : string)
| CallSeed
| CallCreateRole (name : string) (description : option string)
                 (permissions : option dict)
| CallAssign (user_id role_id : string)
| CallRemove (user_id role_id : string).

(** The store a call leaves. *)
Definition perform (L : Lib) (env : Env) (call : Call) (db : DB) : DB :=
  match call with
  | CallRegister user_data => snd (AuthService.register_user L env user_data db)
  | CallLogin login_data => snd (AuthService.authenticate_user L env login_data db)
  | CallRefresh tok => snd (AuthService.refresh_access_token L env tok db)
  | CallLogout tok => snd (AuthService.logout_user L tok db)
  | CallUpdatePassword user_id current new =>
      snd (AuthService.update_user_password L env user_id current new db)
  | CallSeed => snd (AuthService.create_default_roles env db)
  | CallCreateRole name description permissions =>
      snd (RoleService.create_role env name description permissions db)
  | CallAssign user_id role_id =>
      snd (RoleService.assign_role_to_user env user_id role_id db)
  | CallRemove user_id role_id =>
      snd (RoleService.remove_role_from_user user_id role_id db)
  end.

(** The store a sequence of calls leaves, each with its own readings. *)
Fixpoint perform_all (L : Lib) (calls : list (Env * Call)) (db : DB) : DB :=
  match calls with
  | [] => db
  | (env, call) :: rest => perform_all L rest (perform L env call db)
  end.

(** A day of calls on the sample store: Carol registers and logs in, Alice
    refreshes and logs out, Bob changes his password, the seed runs, a role
    is created, given to Carol and taken from Alice. *)
Definition sample_calls : list (Env * Call) :=
  [(Sample.env 700 "n", CallRegister Sample.carol);
   (Sample.env 800 "m",
    CallLogin (LoginRequestSchema.Build "carol@example.com" "Passw0rd"));
   (Sample.env 810 "a", CallRefresh Sample.alice_token);
   (Sample.env 820 "b", CallLogout "u-alice|refresh|a1");
   (Sample.env 830 "c", CallUpdatePassword "u-bob" "Secr3tPass" "N3wSecret");
   (Sample.env 840 "s", CallSeed);
   (Sample.env 850 "r", CallCreateRole "auditor" None None);
   (Sample.env 860 "x", CallAssign "n0" "r0");
   (Sample.env 870 "y", CallRemove "u-alice" "r-admin")].

(** A row the seed may add: a listed default under an id drawn in this
    run, stamped with the run's clock reading. *)
Definition seeded_from (env : Env) (specs : list (string * string * dict))
           (r : Role.t) : Prop :=
  exists k name description permissions,
    In (name, description, permissions) specs
    /\ r = Role.Build (uuid4 env k) name (Some description) permissions (now env).

(** A text of ASCII characters only, where the character tests of the
    embedding are Python's. *)
Definition ascii_text (s : string) : bool :=
  Py.all_chars (fun c => (nat_of_ascii c <? 128)%nat) s.

(** The characters [RoleCreateSchema] lets a role name hold: ASCII letters
    and digits, the underscore and the hyphen. *)
Definition name_char (c : ascii) : bool :=
  Py.is_alnum c || Ascii.eqb c "_" || Ascii.eqb c "-".

(** A name of such characters with a letter or digit among them. *)
Definition well_formed_name (v : string) : bool :=
  Py.all_chars name_char v && PasswordChangeSchema.any_char Py.is_alnum v.

(** The length [PasswordChangeSchema] allows a new password. *)
Definition allowed_length (v : string) : bool :=
  (8 <=? String.length v)%nat && (String.length v <=? 128)%nat.

(** The password rule of [PasswordChangeSchema]: 8 to 128 characters with
    an uppercase letter, a lowercase letter and a digit. *)
Definition strong_password (v : string) : bool :=
  (8 <=? String.length v)%nat && (String.length v <=? 128)%nat
  && PasswordChangeSchema.any_char Py.is_upper v
  && PasswordChangeSchema.any_char Py.is_lower v
  && PasswordChangeSchema.any_char Py.is_digit v.

(** * Properties *)

(** ** Validity of a stored refresh token *)

Lemma is_expired_spec (now : datetime) (t : RefreshToken.t) :
  RefreshToken.is_expired now t = true <-> (now > RefreshToken.expires_at t)%Z.
Proof.
  unfold RefreshToken.is_expired. rewrite Z.gtb_ltb, Z.ltb_lt. lia.
Qed.

Lemma revoke_is_revoked (t : RefreshToken.t) :
  RefreshToken.is_revoked (RefreshToken.revoke t) = true.
Proof. reflexivity. Qed.

Lemma revoked_not_valid (now : datetime) (t : RefreshToken.t) :
  RefreshToken.is_revoked t = true -> RefreshToken.is_valid now t = false.
Proof. unfold RefreshToken.is_valid. intros ->. reflexivity. Qed.

(** C2, as the specification states it, fails at the boundary: at the very
    instant [expires_at] an unrevoked row is still valid. *)
Lemma valid_at_expiry_instant :
  RefreshToken.expires_at Sample.boundary_row = 1000%Z
  /\ RefreshToken.is_revoked Sample.boundary_row = false
  /\ RefreshToken.is_valid 1000 Sample.boundary_row = true.
Proof. repeat split. Qed.

(** C2, amended: a stored refresh token is valid iff it is not revoked and
    the current time is not after [expires_at]. A revoked row is invalid
    whatever its expiry, a row is invalid once the time is past
    [expires_at], and at the instant [expires_at] itself an unrevoked row
    is still valid. *)
Theorem is_valid_iff_unrevoked_and_not_past_expiry :
  forall (now : datetime) (t : RefreshToken.t),
    (RefreshToken.is_valid now t = true
     <-> RefreshToken.is_revoked t = false /\ (now <= RefreshToken.expires_at t)%Z)
    /\ (RefreshToken.is_revoked t = true -> RefreshToken.is_valid now t = false)
    /\ ((now > RefreshToken.expires_at t)%Z -> RefreshToken.is_valid now t = false)
    /\ (now = RefreshToken.expires_at t -> RefreshToken.is_revoked t = false ->
        RefreshToken.is_valid now t = true).
Proof.
  intros now t.
  assert (E : RefreshToken.is_valid now t = true
              <-> RefreshToken.is_revoked t = false
                  /\ (now <= RefreshToken.expires_at t)%Z).
  { unfold RefreshToken.is_valid.
    rewrite andb_true_iff, !negb_true_iff.
    pose proof (is_expired_spec now t) as S.
    destruct (RefreshToken.is_expired now t).
    - split; intros [R X]; [discriminate | ].
      assert (now > RefreshToken.expires_at t)%Z by (apply S; reflexivity). lia.
    - split; intros [R X]; split; auto.
      destruct (Z_le_gt_dec now (RefreshToken.expires_at t)) as [|G]; auto.
      apply S in G. discriminate. }
  split; [exact E | ].
  split; [apply revoked_not_valid | ].
  split.
  - intros G. apply not_true_is_false. intros V. apply E in V. lia.
  - intros -> R. apply E. split; [exact R | lia].
Qed.

(** The amended C2 at the boundary row: valid at 1000, invalid at 1001. *)
Lemma is_valid_boundary_witness :
  RefreshToken.is_valid 1000 Sample.boundary_row = true
  /\ RefreshToken.is_valid 1001 Sample.boundary_row = false.
Proof.
  pose proof (is_valid_iff_unrevoked_and_not_past_expiry 1000 Sample.boundary_row)
    as (_ & _ & _ & At).
  pose proof (is_valid_iff_unrevoked_and_not_past_expiry 1001 Sample.boundary_row)
    as (_ & _ & Past & _).
  split.
  - apply At; reflexivity.
  - apply Past. simpl. lia.
Defined.

(** ** The permission check *)

Lemma dict_contains_spec (key : string) (d : dict) :
  dict_contains key d = true <-> exists v, In (key, v) d.
Proof.
  unfold dict_contains. rewrite existsb_exists. split.
  - intros [[k v] [I E]]. simpl in E. apply String.eqb_eq in E. subst k.
    exists v. exact I.
  - intros [v I]. exists (key, v). split; [exact I | apply String.eqb_refl].
Qed.

Lemma has_permission_loop_true (p : string) (rs : list (option Role.t)) :
  has_permission_loop p rs = inr true ->
  exists role, In (Some role) rs /\ dict_contains p (Role.permissions role) = true.
Proof.
  induction rs as [|[role|] rs IH]; simpl; intros H; try discriminate.
  destruct (dict_contains p (Role.permissions role)) eqn:C.
  - exists role. auto.
  - destruct (IH H) as [r [I D]]. exists r. auto.
Qed.

Lemma has_permission_loop_resolved (p : string) (rs : list (option Role.t)) :
  roles_resolve rs ->
  has_permission_loop p rs
  = inr (existsb (fun r => match r with
                           | Some role => dict_contains p (Role.permissions role)
                           | None => false
                           end) rs).
Proof.
  induction 1 as [|r rs [role ->] _ IH]; simpl; [reflexivity | ].
  destruct (dict_contains p (Role.permissions role)); [reflexivity | exact IH].
Qed.

(** C7, as the specification states it, fails: Alice holds the admin role,
    whose category ["users"] lists the action ["create"], and yet
    [has_permission] answers [False] for ["create"]; it answers [True] for
    the category name ["users"]. *)
Lemma has_permission_ignores_actions :
  grants_action Sample.db Sample.alice "create"
  /\ has_permission Sample.db Sample.alice "create" = inr false
  /\ has_permission Sample.db Sample.alice "users" = inr true.
Proof.
  split; [ | split; reflexivity].
  exists Sample.admin_role, "users",
    [JStr "create"; JStr "read"; JStr "update"; JStr "delete"].
  simpl. auto.
Qed.

(** C7, amended: for a user whose role assignments all resolve to stored
    roles, [has_permission p] returns a boolean, and it returns true iff
    one of the user's roles has [p] among the keys (the categories) of its
    permission map; the action lists are not consulted. *)
Theorem has_permission_iff_category_key :
  forall (db : DB) (u : User.t) (p : string),
    roles_resolve (get_roles db u) ->
    (exists b, has_permission db u p = inr b)
    /\ (has_permission db u p = inr true <-> grants_category db u p).
Proof.
  intros db u p R. unfold has_permission, grants_category.
  split.
  - rewrite (has_permission_loop_resolved p _ R). eauto.
  - split.
    + intros H. apply has_permission_loop_true in H.
      destruct H as [role [I D]]. apply dict_contains_spec in D.
      destruct D as [v D]. exists role, v. auto.
    + intros [role [v [I D]]].
      rewrite (has_permission_loop_resolved p _ R). f_equal.
      apply existsb_exists. exists (Some role). split; [exact I | ].
      apply dict_contains_spec. eauto.
Qed.

(** The amended C7 on the sample store. *)
Lemma has_permission_witness :
  roles_resolve (get_roles Sample.db Sample.alice)
  /\ (has_permission Sample.db Sample.alice "users" = inr true
      <-> grants_category Sample.db Sample.alice "users").
Proof.
  assert (R : roles_resolve (get_roles Sample.db Sample.alice)).
  { repeat constructor. exists Sample.admin_role. reflexivity. }
  split; [exact R | ].
  exact (proj2 (has_permission_iff_category_key Sample.db Sample.alice "users" R)).
Defined.

(** ** Refresh: the stored row is bound to the token's subject *)

Lemma find_none_iff {A} (p : A -> bool) (l : list A) :
  find p l = None <-> forall x, In x l -> p x = false.
Proof.
  split; [apply find_none | ].
  induction l as [|a l IH]; simpl; intros H; [reflexivity | ].
  rewrite (H a (or_introl eq_refl)). apply IH. intros x I. apply H. right. exact I.
Qed.

Lemma token_row_spec (user_id token_hash : string) (t : RefreshToken.t) :
  AuthService.token_row user_id token_hash t = true
  <-> RefreshToken.user_id t = user_id /\ RefreshToken.token_hash t = token_hash.
Proof.
  unfold AuthService.token_row. rewrite andb_true_iff, !String.eqb_eq. tauto.
Qed.

(** Rows of one hash, in a table where the hash is unique, are one row. *)
Lemma unique_hash_same_row (ts : list RefreshToken.t) (a b : RefreshToken.t) :
  NoDup (map RefreshToken.token_hash ts) ->
  In a ts -> In b ts ->
  RefreshToken.token_hash a = RefreshToken.token_hash b -> a = b.
Proof.
  induction ts as [|t ts IH]; simpl; intros N Ia Ib E; [contradiction | ].
  inversion N as [|? ? Nt N']; subst.
  destruct Ia as [->|Ia], Ib as [->|Ib]; auto.
  - exfalso. apply Nt. rewrite E. apply in_map. exact Ib.
  - exfalso. apply Nt. rewrite <- E. apply in_map. exact Ia.
Qed.

(** No row matches both the subject and the hash: the refresh is refused
    and nothing is written. *)
Lemma refresh_without_matching_row (L : Lib) (env : Env) (tok : string)
      (db : DB) (d : DecodedToken) :
  decode_token L (now env) tok = inr d ->
  find (AuthService.token_row (sub d) (sha256_hexdigest L tok)) (refresh_tokens db)
  = None ->
  AuthService.refresh_access_token L env tok db
  = (Failure "Invalid or expired refresh token", db).
Proof.
  intros D F. unfold AuthService.refresh_access_token.
  rewrite D. simpl. rewrite F. reflexivity.
Qed.

(** C10: the stored row is looked up by the decoded subject and the hash
    together. When the row that carries the presented token's hash (the
    only one, the hash being a unique column) belongs to a user other than
    the token's subject, the refresh answers the invalid-token error and
    leaves the store as it was: no token is issued, no row is revoked. *)
Theorem refresh_rejects_row_of_other_user :
  forall (L : Lib) (env : Env) (tok : string) (db : DB) (d : DecodedToken)
         (row : RefreshToken.t),
    unique_token_hashes db ->
    decode_token L (now env) tok = inr d ->
    In row (refresh_tokens db) ->
    RefreshToken.token_hash row = sha256_hexdigest L tok ->
    RefreshToken.user_id row <> sub d ->
    AuthService.refresh_access_token L env tok db
    = (Failure "Invalid or expired refresh token", db).
Proof.
  intros L env tok db d row U D I H Other.
  apply (refresh_without_matching_row L env tok db d D).
  apply find_none_iff. intros t It.
  destruct (AuthService.token_row (sub d) (sha256_hexdigest L tok) t) eqn:M; auto.
  apply token_row_spec in M. destruct M as [Mu Mh].
  exfalso. apply Other.
  rewrite (unique_hash_same_row _ row t U I It) by congruence. exact Mu.
Qed.

(** A concrete list of distinct strings has no duplicate. *)
Ltac distinct_strings :=
  repeat constructor; simpl; intuition discriminate.

(** C10 on a store where Bob's row carries the hash of Alice's token. *)
Lemma refresh_rejects_row_of_other_user_witness :
  unique_token_hashes Sample.crossed_db
  /\ AuthService.refresh_access_token Sample.lib (Sample.env 200 "a")
       Sample.alice_token Sample.crossed_db
     = (Failure "Invalid or expired refresh token", Sample.crossed_db).
Proof.
  assert (U : unique_token_hashes Sample.crossed_db).
  { unfold unique_token_hashes. simpl. distinct_strings. }
  split; [exact U | ].
  apply (refresh_rejects_row_of_other_user Sample.lib (Sample.env 200 "a")
           Sample.alice_token Sample.crossed_db {| sub := "u-alice" |}
           (RefreshToken.Build "t-9" "u-bob" "sha256:u-alice|refresh|j1"
                               (100 + seven_days) false 100)).
  - exact U.
  - reflexivity.
  - simpl. auto.
  - reflexivity.
  - simpl. discriminate.
Defined.

(** ** Login: one answer for an unknown email and for a wrong password *)

(** An attempt with an email that matches no user and an attempt with a
    stored user's email and a password on which [check_password] returns
    [False] get the same result, the failure ["Invalid email or password"]
    with no token in it, and each leaves its store as it was; this holds
    whether or not the stored user is active. *)
Lemma login_refusals_agree :
  forall (L : Lib) (env1 env2 : Env) (db1 db2 : DB)
         (unknown wrong : LoginRequestSchema.t) (user : User.t),
    user_by_email (LoginRequestSchema.email unknown) db1 = None ->
    user_by_email (LoginRequestSchema.email wrong) db2 = Some user ->
    check_password L user (LoginRequestSchema.password wrong) = inr false ->
    AuthService.authenticate_user L env1 unknown db1
    = (Failure "Invalid email or password", db1)
    /\ AuthService.authenticate_user L env2 wrong db2
       = (Failure "Invalid email or password", db2)
    /\ fst (AuthService.authenticate_user L env1 unknown db1)
       = fst (AuthService.authenticate_user L env2 wrong db2).
Proof.
  intros L env1 env2 db1 db2 unknown wrong user N S W.
  assert (A : AuthService.authenticate_user L env1 unknown db1
              = (Failure "Invalid email or password", db1)).
  { unfold AuthService.authenticate_user. rewrite N. reflexivity. }
  assert (B : AuthService.authenticate_user L env2 wrong db2
              = (Failure "Invalid email or password", db2)).
  { unfold AuthService.authenticate_user. rewrite S. simpl. rewrite W. reflexivity. }
  rewrite A, B. auto.
Qed.

(** On the sample store: nobody has Dave's email, and Alice's password is
    not ["Wr0ngPass"]. *)
Lemma login_refusals_agree_on_sample :
  fst (AuthService.authenticate_user Sample.lib (Sample.env 200 "a")
         (LoginRequestSchema.Build "dave@example.com" "Passw0rd") Sample.db)
  = fst (AuthService.authenticate_user Sample.lib (Sample.env 300 "b")
           (LoginRequestSchema.Build "alice@example.com" "Wr0ngPass") Sample.db).
Proof.
  apply (login_refusals_agree Sample.lib (Sample.env 200 "a") (Sample.env 300 "b")
           Sample.db Sample.db
           (LoginRequestSchema.Build "dave@example.com" "Passw0rd")
           (LoginRequestSchema.Build "alice@example.com" "Wr0ngPass")
           Sample.alice); reflexivity.
Defined.

(** When [check_password] raises, the handler of the service answers with
    the text of the exception and rolls back. *)
Lemma login_when_check_password_raises (L : Lib) (env : Env)
      (login_data : LoginRequestSchema.t) (db : DB) (user : User.t) (e : exn) :
  user_by_email (LoginRequestSchema.email login_data) db = Some user ->
  check_password L user (LoginRequestSchema.password login_data) = inl e ->
  AuthService.authenticate_user L env login_data db
  = (Failure ("Authentication failed: " ++ str e), db).
Proof.
  intros U C. unfold AuthService.authenticate_user. rewrite U. simpl.
  rewrite C. reflexivity.
Qed.

(** C4: login failure is not uniform on every wrong password. With a
    [bcrypt.checkpw] that raises on a password of more than 72 bytes, the
    same wrong password of 73 characters is answered
    ["Invalid email or password"] for Dave's email, which no user has, and
    ["Authentication failed: ..."] for Alice's email, which is stored: the
    two results differ, and the second tells that the email exists. Both
    leave the store as it was and issue no token. *)
Theorem login_failure_tells_stored_email :
  user_by_email "dave@example.com" Sample.db = None
  /\ user_by_email "alice@example.com" Sample.db = Some Sample.alice
  /\ check_password Sample.lib Sample.alice Sample.long_password = inr false
  /\ AuthService.authenticate_user Sample.bcrypt5 (Sample.env 200 "a")
       (LoginRequestSchema.Build "dave@example.com" Sample.long_password) Sample.db
     = (Failure "Invalid email or password", Sample.db)
  /\ AuthService.authenticate_user Sample.bcrypt5 (Sample.env 200 "a")
       (LoginRequestSchema.Build "alice@example.com" Sample.long_password) Sample.db
     = (Failure
          "Authentication failed: password cannot be longer than 72 bytes, truncate manually if necessary (e.g. my_password[:72])",
        Sample.db)
  /\ fst (AuthService.authenticate_user Sample.bcrypt5 (Sample.env 200 "a")
            (LoginRequestSchema.Build "dave@example.com" Sample.long_password)
            Sample.db)
     <> fst (AuthService.authenticate_user Sample.bcrypt5 (Sample.env 200 "a")
               (LoginRequestSchema.Build "alice@example.com" Sample.long_password)
               Sample.db).
Proof.
  split; [reflexivity | ]. split; [reflexivity | ]. split; [reflexivity | ].
  split; [reflexivity | ]. split.
  - rewrite (login_when_check_password_raises Sample.bcrypt5 (Sample.env 200 "a")
               (LoginRequestSchema.Build "alice@example.com" Sample.long_password)
               Sample.db Sample.alice
               (Exception
                  "password cannot be longer than 72 bytes, truncate manually if necessary (e.g. my_password[:72])"));
      reflexivity.
  - vm_compute. discriminate.
Qed.

(** ** Changing a password: what it leaves alone *)

Lemma update_first_split {A} (p : A -> bool) (f : A -> A) (l : list A) (x : A) :
  find p l = Some x ->
  exists pre post,
    l = (pre ++ x :: post)%list
    /\ (forall y, In y pre -> p y = false)
    /\ p x = true
    /\ update_first p f l = (pre ++ f x :: post)%list.
Proof.
  induction l as [|a l IH]; simpl; [discriminate | ].
  destruct (p a) eqn:Pa; intros F.
  - injection F as <-. exists [], l. simpl. repeat split; auto. intros y [].
  - destruct (IH F) as [pre [post [E [N [Px U]]]]].
    exists (a :: pre), post. simpl. rewrite E at 1. rewrite U.
    repeat split; auto. intros y [<-|I]; auto.
Qed.

(** C9: [update_user_password] writes to the users table only. Every
    refresh-token row (and every role and assignment) is as before, whether
    the call succeeds or fails; on any failure, the missing user and the
    incorrect current password among them, the whole store is as before;
    on success one row changed, the first with the given id, and only in
    its password hash and [updated_at]. *)
Theorem update_user_password_frame :
  forall (L : Lib) (env : Env) (user_id current new : string) (db : DB),
    let out := AuthService.update_user_password L env user_id current new db in
    refresh_tokens (snd out) = refresh_tokens db
    /\ roles (snd out) = roles db
    /\ user_roles (snd out) = user_roles db
    /\ (is_success (fst out) = false -> snd out = db)
    /\ (get_user user_id db = None -> out = (Failure "User not found", db))
    /\ (forall user,
           get_user user_id db = Some user ->
           check_password L user current = inr false ->
           out = (Failure "Current password is incorrect", db))
    /\ (is_success (fst out) = true ->
        exists pre user post h,
          users db = (pre ++ user :: post)%list
          /\ User.id user = user_id
          /\ (forall u, In u pre -> User.id u <> user_id)
          /\ check_password L user current = inr true
          /\ bcrypt_hashpw L new (gensalt env) = inr h
          /\ users (snd out)
             = (pre ++ User.with_updated_at (now env) (User.with_password_hash h user)
                    :: post)%list).
Proof.
  intros L env user_id current new db out. subst out.
  unfold AuthService.update_user_password, get_user.
  destruct (find (fun u => User.id u =? user_id) (users db)) as [user|] eqn:F;
    simpl.
  2: { repeat split; auto; try discriminate. }
  destruct (check_password L user current) as [e|[|]] eqn:C; simpl.
  - repeat split; auto; try discriminate. intros u [= <-]. congruence.
  - unfold set_password.
    destruct (bcrypt_hashpw L new (gensalt env)) as [e|h] eqn:H; simpl.
    + repeat split; auto; try discriminate. intros u [= <-]. congruence.
    + repeat split; auto; try discriminate.
      * intros u [= <-]. congruence.
      * intros _.
        destruct (update_first_split _ (fun _ =>
                    User.with_updated_at (now env) (User.with_password_hash h user))
                    _ _ F) as [pre [post [E [N [Px U]]]]].
        exists pre, user, post, h. rewrite U.
        repeat split; auto.
        -- apply String.eqb_eq. exact Px.
        -- intros u I Eu. apply N in I. apply String.eqb_neq in I. auto.
  - repeat split; auto; try discriminate.
Qed.

(** C9 on the sample store: Alice changes her password and her refresh
    token row stays; with a wrong current password nothing changes. *)
Lemma update_user_password_frame_witness :
  refresh_tokens
    (snd (AuthService.update_user_password Sample.lib (Sample.env 500 "p")
            "u-alice" "Passw0rd" "N3wPassw0rd" Sample.db))
  = [Sample.alice_row]
  /\ is_success
       (fst (AuthService.update_user_password Sample.lib (Sample.env 500 "p")
               "u-alice" "Passw0rd" "N3wPassw0rd" Sample.db)) = true
  /\ AuthService.update_user_password Sample.lib (Sample.env 500 "p")
       "u-alice" "Wr0ngPass" "N3wPassw0rd" Sample.db
     = (Failure "Current password is incorrect", Sample.db).
Proof.
  split; [ | split].
  - exact (proj1 (update_user_password_frame Sample.lib (Sample.env 500 "p")
                    "u-alice" "Passw0rd" "N3wPassw0rd" Sample.db)).
  - reflexivity.
  - apply (update_user_password_frame Sample.lib (Sample.env 500 "p")
             "u-alice" "Wr0ngPass" "N3wPassw0rd" Sample.db) with (user := Sample.alice);
      reflexivity.
Defined.

(** ** The admin gate of the role endpoints *)

Lemma no_admin_element (l : list json) :
  ~ In (JStr "admin") l -> existsb (Routes.is_str "admin") l = false.
Proof.
  intros N. apply not_true_is_false. intros E.
  apply existsb_exists in E. destruct E as [j [I S]].
  destruct j; try discriminate S.
  unfold Routes.is_str in S. apply String.eqb_eq in S. subst. auto.
Qed.

Lemma admin_gate_closed (claims : dict) :
  lacks_admin claims ->
  Routes.admin_gate claims
  = inr (Some (Routes.ErrorBody "Insufficient permissions", 403%Z)).
Proof.
  unfold lacks_admin, Routes.admin_gate, Routes.claimed_roles.
  destruct (dict_get "roles" claims) as [[| | | |l|]|]; try contradiction.
  - intros N. simpl. rewrite (no_admin_element l N). reflexivity.
  - reflexivity.
Qed.

Lemma handle_forbidden (env : Env) (claims : dict) (req : Routes.RoleAdminRequest)
      (db : DB) :
  lacks_admin claims ->
  Routes.handle env claims req db
  = ((Routes.ErrorBody "Insufficient permissions", 403%Z), db).
Proof.
  intros N. destruct req; simpl;
    unfold Routes.create_role, Routes.assign_role_to_user,
      Routes.remove_role_from_user;
    rewrite (admin_gate_closed claims N); reflexivity.
Qed.

(** C5: a request to create a role, to assign a role or to remove a role
    whose token claims lack ['admin'] is answered 403 with the store
    untouched, and so is every sequence of such requests: each gets the
    403 and the store at the end is the store at the start, roles and
    assignments included. *)
Theorem non_admin_requests_change_nothing :
  forall (reqs : list (Env * dict * Routes.RoleAdminRequest)) (db : DB),
    Forall (fun r => lacks_admin (snd (fst r))) reqs ->
    Routes.serve reqs db
    = (map (fun _ => (Routes.ErrorBody "Insufficient permissions", 403%Z)) reqs, db).
Proof.
  intros reqs db H. induction H as [|[[env claims] req] reqs N _ IH]; simpl.
  - reflexivity.
  - simpl in N. rewrite (handle_forbidden env claims req db N), IH. reflexivity.
Qed.

(** C5 on the sample store: Bob, who holds the role [user], tries the
    three endpoints. *)
Lemma non_admin_requests_witness :
  Routes.serve Sample.bob_requests Sample.db
  = ([(Routes.ErrorBody "Insufficient permissions", 403%Z);
      (Routes.ErrorBody "Insufficient permissions", 403%Z);
      (Routes.ErrorBody "Insufficient permissions", 403%Z)], Sample.db).
Proof.
  apply (non_admin_requests_change_nothing Sample.bob_requests Sample.db).
  repeat constructor; simpl; intros [E|[]]; discriminate E.
Defined.

(** ** Seeding the default roles *)

Lemma role_by_name_present (name : string) (db : DB) :
  In name (map Role.name (roles db)) -> exists r, role_by_name name db = Some r.
Proof.
  intros I. unfold role_by_name.
  destruct (find (fun r => Role.name r =? name) (roles db)) as [r|] eqn:F; eauto.
  exfalso. apply in_map_iff in I. destruct I as [r [E I]].
  apply (find_none _ _ F) in I. simpl in I. rewrite E, String.eqb_refl in I.
  discriminate.
Qed.

Lemma insert_role_ok (r : Role.t) (db db' : DB) :
  insert_role r db = inr db' ->
  db' = set_roles (roles db ++ [r]) db
  /\ ~ In (Role.name r) (map Role.name (roles db)).
Proof.
  unfold insert_role.
  destruct (existsb (fun x => Role.id x =? Role.id r) (roles db)); [discriminate | ].
  destruct (existsb (fun x => Role.name x =? Role.name r) (roles db)) eqn:E;
    [discriminate | ].
  intros [= <-]. split; [reflexivity | ].
  intros I. apply in_map_iff in I. destruct I as [x [En I]].
  assert (existsb (fun x => Role.name x =? Role.name r) (roles db) = true).
  { apply existsb_exists. exists x. split; [exact I | ]. apply String.eqb_eq. exact En. }
  congruence.
Qed.

(** Every name is there already: the loop adds nothing. *)
Lemma seed_roles_noop (env : Env) (specs : list (string * string * dict)) :
  forall (k : nat) (db : DB),
    (forall spec, In spec specs -> In (fst (fst spec)) (map Role.name (roles db))) ->
    AuthService.seed_roles env k specs db = inr db.
Proof.
  induction specs as [|[[name description] permissions] rest IH]; intros k db H;
    simpl; [reflexivity | ].
  destruct (role_by_name_present name db) as [r ->].
  - apply (H (name, description, permissions)). left. reflexivity.
  - apply IH. intros spec I. apply H. right. exact I.
Qed.

(** What a completed loop leaves: every listed name is stored, unique
    names stay unique, and the other tables are as they were. *)
Lemma seed_roles_done (env : Env) (specs : list (string * string * dict)) :
  forall (k : nat) (db db' : DB),
    AuthService.seed_roles env k specs db = inr db' ->
    (forall n, In n (map Role.name (roles db)) -> In n (map Role.name (roles db')))
    /\ (forall spec, In spec specs -> In (fst (fst spec)) (map Role.name (roles db')))
    /\ (unique_role_names db -> unique_role_names db')
    /\ users db' = users db
    /\ user_roles db' = user_roles db
    /\ refresh_tokens db' = refresh_tokens db.
Proof.
  induction specs as [|[[name description] permissions] rest IH]; intros k db db';
    simpl.
  - intros [= <-]. repeat split; auto. intros spec [].
  - destruct (role_by_name name db) as [r|] eqn:F.
    + intros S. destruct (IH _ _ _ S) as (Keep & All & U & Rest).
      repeat split; auto; try apply Rest.
      intros spec [<-|I]; [ | apply All; exact I]. simpl.
      apply Keep. apply in_map_iff. exists r.
      apply find_some in F. destruct F as [I E]. apply String.eqb_eq in E. auto.
    + destruct (insert_role _ db) as [e|db1] eqn:Ins; simpl; [discriminate | ].
      intros S. destruct (IH _ _ _ S) as (Keep & All & U & Eu & Er & Et).
      apply insert_role_ok in Ins. destruct Ins as [-> Fresh]. simpl in *.
      repeat split; auto.
      * intros n I. apply Keep. rewrite map_app. apply in_or_app. left. exact I.
      * intros spec [<-|I]; [ | apply All; exact I]. simpl.
        apply Keep. rewrite map_app. apply in_or_app. right. simpl. auto.
      * intros N. apply U. unfold unique_role_names in *. simpl.
        rewrite map_app. simpl.
        apply (Permutation_NoDup (l := name :: map Role.name (roles db))).
        -- apply Permutation_cons_append.
        -- constructor; assumption.
Qed.

Lemma str_in_spec (x : string) (xs : list string) :
  Py.str_in x xs = true <-> In x xs.
Proof.
  unfold Py.str_in. rewrite existsb_exists. split.
  - intros [y [I E]]. apply String.eqb_eq in E. subst. exact I.
  - intros I. exists x. split; [exact I | apply String.eqb_refl].
Qed.

(** Selecting rows of a table with unique names keeps the names unique. *)
Lemma unique_names_filter (keep : Role.t -> bool) (rs : list Role.t) :
  NoDup (map Role.name rs) -> NoDup (map Role.name (filter keep rs)).
Proof.
  induction rs as [|r rs IH]; simpl; intros N; [constructor | ].
  inversion N as [|? ? Nr N']; subst.
  destruct (keep r); simpl; auto.
  constructor; auto.
  intros I. apply Nr. apply in_map_iff in I. destruct I as [x [E I]].
  apply filter_In in I. apply in_map_iff. exists x. tauto.
Qed.

(** In a table with unique names, the rows named in a duplicate-free list
    whose names are all stored are as many as the list is long. *)
Lemma count_named_rows (ns : list string) (rs : list Role.t) :
  NoDup ns ->
  NoDup (map Role.name rs) ->
  (forall n, In n ns -> In n (map Role.name rs)) ->
  length (filter (fun r => Py.str_in (Role.name r) ns) rs) = length ns.
Proof.
  intros Nn Nr All.
  rewrite <- (length_map Role.name).
  apply Permutation_length. apply NoDup_Permutation; auto.
  - apply unique_names_filter. exact Nr.
  - intros x. rewrite in_map_iff. split.
    + intros [r [E I]]. apply filter_In in I. destruct I as [_ S].
      apply str_in_spec in S. subst. exact S.
    + intros I. destruct (proj1 (in_map_iff _ _ _) (All x I)) as [r [E Ir]].
      exists r. split; [exact E | ]. apply filter_In. split; [exact Ir | ].
      apply str_in_spec. rewrite E. exact I.
Qed.

Lemma default_role_names_NoDup : NoDup default_role_names.
Proof.
  unfold default_role_names. simpl. distinct_strings.
Qed.

Lemma seed_noop_on_names (env : Env) (db : DB) :
  (forall n, In n default_role_names -> In n (map Role.name (roles db))) ->
  AuthService.create_default_roles env db
  = (Success "Default roles created successfully", db).
Proof.
  intros H. unfold AuthService.create_default_roles.
  rewrite seed_roles_noop; [reflexivity | ].
  intros spec I. apply H. unfold default_role_names.
  apply in_map with (f := fun spec => fst (fst spec)) in I. exact I.
Qed.

(** C6: [create_default_roles] is idempotent. On a store that already
    holds roles named admin, user and analyst it succeeds and returns the
    store as it is: nothing inserted, nothing overwritten. Hence, from a
    store with unique role names, after a first successful run exactly
    three rows carry a default name, and a second run, on that store or on
    one where the roles were edited in between under the same names
    (permissions changed, say), leaves every row as it finds it. *)
Theorem create_default_roles_idempotent :
  (forall (env : Env) (db : DB),
      In "admin" (map Role.name (roles db)) ->
      In "user" (map Role.name (roles db)) ->
      In "analyst" (map Role.name (roles db)) ->
      AuthService.create_default_roles env db
      = (Success "Default roles created successfully", db))
  /\ (forall (env1 env2 : Env) (db edited : DB),
         unique_role_names db ->
         is_success (fst (AuthService.create_default_roles env1 db)) = true ->
         same_role_names (snd (AuthService.create_default_roles env1 db)) edited ->
         length (filter is_default_role
                        (roles (snd (AuthService.create_default_roles env1 db))))
         = 3%nat
         /\ AuthService.create_default_roles env2
              (snd (AuthService.create_default_roles env1 db))
            = (Success "Default roles created successfully",
               snd (AuthService.create_default_roles env1 db))
         /\ AuthService.create_default_roles env2 edited
            = (Success "Default roles created successfully", edited)
         /\ length (filter is_default_role (roles edited)) = 3%nat).
Proof.
  split.
  - intros env db A U N. apply seed_noop_on_names.
    intros n [<-|[<-|[<-|[]]]]; assumption.
  - intros env1 env2 db edited Uniq Ok Same.
    unfold AuthService.create_default_roles in *.
    destruct (AuthService.seed_roles env1 0 AuthService.default_roles db)
      as [e|db1] eqn:S; cbn [fst snd is_success] in *; [discriminate | ].
    destruct (seed_roles_done _ _ _ _ _ S) as (_ & All & U & _).
    assert (Names : forall n, In n default_role_names ->
                              In n (map Role.name (roles db1))).
    { intros n I. unfold default_role_names in I. apply in_map_iff in I.
      destruct I as [spec [<- I]]. apply All. exact I. }
    assert (Count : forall rs,
               NoDup (map Role.name rs) ->
               (forall n, In n default_role_names -> In n (map Role.name rs)) ->
               length (filter is_default_role rs) = 3%nat).
    { intros rs N H.
      exact (count_named_rows default_role_names rs default_role_names_NoDup N H). }
    repeat split.
    + apply Count; auto. apply U. exact Uniq.
    + apply (seed_noop_on_names env2 db1 Names).
    + apply (seed_noop_on_names env2 edited). unfold same_role_names in Same.
      rewrite Same. exact Names.
    + unfold same_role_names in Same. apply Count; rewrite Same; auto.
      apply U. exact Uniq.
Qed.

(** C6 from the empty store: the first run seeds three roles, the second
    run adds none, and the hand-edited permissions of [user] survive a
    run. *)
Lemma create_default_roles_witness :
  length (roles (snd (AuthService.create_default_roles (Sample.env 1 "s")
                        Sample.empty_db))) = 3%nat
  /\ AuthService.create_default_roles (Sample.env 2 "t")
       (snd (AuthService.create_default_roles (Sample.env 1 "s") Sample.empty_db))
     = (Success "Default roles created successfully",
        snd (AuthService.create_default_roles (Sample.env 1 "s") Sample.empty_db))
  /\ AuthService.create_default_roles (Sample.env 2 "t") Sample.edited_seed
     = (Success "Default roles created successfully", Sample.edited_seed).
Proof.
  destruct create_default_roles_idempotent as [_ Twice].
  destruct (Twice (Sample.env 1 "s") (Sample.env 2 "t") Sample.empty_db
                  Sample.edited_seed) as (_ & Again & Edited & _).
  - constructor.
  - reflexivity.
  - reflexivity.
  - split; [reflexivity | ]. split; [exact Again | exact Edited].
Defined.

(** ** Registration *)

Lemma email_or_username_spec (data : UserCreateSchema.t) (u : User.t) :
  AuthService.email_or_username data u = true
  <-> User.email u = UserCreateSchema.email data
      \/ User.username u = UserCreateSchema.username data.
Proof.
  unfold AuthService.email_or_username.
  rewrite orb_true_iff, !String.eqb_eq. tauto.
Qed.

(** The OR-query finds no row exactly when no row satisfies its
    predicate. *)
Lemma first_match_none (data : UserCreateSchema.t) (us : list User.t) :
  AuthService.first_email_or_username data us = None
  <-> find (AuthService.email_or_username data) us = None.
Proof.
  unfold AuthService.first_email_or_username. rewrite find_none_iff. split.
  - destruct (find (fun u => User.email u =? UserCreateSchema.email data) us)
      eqn:E; [discriminate | ].
    intros N x I. unfold AuthService.email_or_username.
    rewrite (find_none _ _ E x I), (find_none _ _ N x I). reflexivity.
  - intros H.
    rewrite (proj2 (find_none_iff _ _)).
    + apply find_none_iff. intros x I. apply H in I.
      apply orb_false_iff in I. tauto.
    + intros x I. apply H in I. apply orb_false_iff in I. tauto.
Qed.




Lemma find_first_match {A} (p : A -> bool) (l : list A) (x : A) :
  In x l -> p x = true -> exists y, find p l = Some y.
Proof.
  intros I P. destruct (find p l) as [y|] eqn:F; eauto.
  rewrite (find_none _ _ F x I) in P. discriminate.
Qed.

Lemma insert_user_ok (u : User.t) (db db' : DB) :
  insert_user u db = inr db' -> db' = set_users (users db ++ [u]) db.
Proof.
  unfold insert_user.
  repeat match goal with
         | |- context [if ?c then _ else _] => destruct c; [discriminate | ]
         end.
  intros [= <-]. reflexivity.
Qed.

Lemma insert_user_role_ok (ur : UserRole.t) (db db' : DB) :
  insert_user_role ur db = inr db' ->
  db' = set_user_roles (user_roles db ++ [ur]) db.
Proof.
  unfold insert_user_role.
  destruct (existsb _ (user_roles db)); [discriminate | ].
  intros [= <-]. reflexivity.
Qed.

(** What a committed registration wrote. *)
Lemma register_session_ok (L : Lib) (env : Env) (data : UserCreateSchema.t)
      (db db2 : DB) (user : User.t) :
  AuthService.register_session L env data db = inr (user, db2) ->
  exists h,
    bcrypt_hashpw L (UserCreateSchema.password data) (gensalt env) = inr h
    /\ user = User.Build (uuid4 env 0) (UserCreateSchema.email data)
                (UserCreateSchema.username data) h
                (UserCreateSchema.first_name data)
                (UserCreateSchema.last_name data) true false (now env) (now env)
    /\ users db2 = (users db ++ [user])%list
    /\ roles db2 = roles db
    /\ refresh_tokens db2 = refresh_tokens db
    /\ user_roles db2
       = match role_by_name "user" db with
         | Some default_role =>
             (user_roles db
                ++ [UserRole.Build (User.id user) (Role.id default_role) (now env)])%list
         | None => user_roles db
         end.
Proof.
  unfold AuthService.register_session, set_password.
  destruct (bcrypt_hashpw L (UserCreateSchema.password data) (gensalt env))
    as [e|h]; simpl; [discriminate | ].
  destruct (insert_user _ db) as [e|db1] eqn:I1; simpl; [discriminate | ].
  apply insert_user_ok in I1. subst db1.
  unfold role_by_name. simpl.
  destruct (find (fun r => Role.name r =? "user") (roles db)) as [r|].
  - destruct (insert_user_role _ _) as [e|db2'] eqn:I2; simpl; [discriminate | ].
    apply insert_user_role_ok in I2. subst db2'.
    intros [= <- <-]. exists h. simpl. repeat split.
  - simpl. intros [= <- <-]. exists h. simpl. repeat split.
Qed.

(** Under the foreign keys, an id no user has is the [user_id] of no
    assignment. *)
Lemma fresh_id_unassigned (db : DB) (i : string) :
  user_roles_resolve db = true ->
  existsb (fun u => User.id u =? i) (users db) = false ->
  forall ur, In ur (user_roles db) -> (UserRole.user_id ur =? i) = false.
Proof.
  intros FK Fresh ur I.
  unfold user_roles_resolve in FK. rewrite forallb_forall in FK.
  apply FK in I. apply andb_true_iff in I. destruct I as [U _].
  destruct (UserRole.user_id ur =? i) eqn:E; [ | reflexivity].
  apply String.eqb_eq in E. rewrite E in U. congruence.
Qed.

Lemma filter_none {A} (p : A -> bool) (l : list A) :
  (forall x, In x l -> p x = false) -> filter p l = [].
Proof.
  induction l as [|a l IH]; simpl; intros H; [reflexivity | ].
  rewrite (H a (or_introl eq_refl)). apply IH. intros x I. apply H. right. exact I.
Qed.

Lemma existsb_none {A} (p : A -> bool) (l : list A) :
  (forall x, In x l -> p x = false) -> existsb p l = false.
Proof.
  intros H. apply not_true_is_false. intros E. apply existsb_exists in E.
  destruct E as [x [I P]]. rewrite (H x I) in P. discriminate.
Qed.




(** ** Creating a role *)

Lemma create_role_conflict (env : Env) (name : string) (description : option string)
      (permissions : option dict) (db : DB) (r : Role.t) :
  In r (roles db) -> Role.name r = name ->
  RoleService.create_role env name description permissions db
  = (Failure "Role already exists", db).
Proof.
  intros I E. unfold RoleService.create_role, role_by_name.
  destruct (find_first_match (fun x => Role.name x =? name) (roles db) r I)
    as [y ->]; [ | reflexivity].
  apply String.eqb_eq. exact E.
Qed.

Lemma validate_lowers_name (data : dict) (role_data : RoleCreateSchema.t) :
  RoleCreateSchema.validate data = Some role_data ->
  exists v, dict_get "name" data = Some (JStr v)
            /\ RoleCreateSchema.name role_data = Py.lower v.
Proof.
  unfold RoleCreateSchema.validate, RoleCreateSchema.field_name.
  destruct (dict_get "name" data) as [[| | |v| |]|]; try discriminate.
  destruct ((1 <=? String.length v)%nat && (String.length v <=? 100)%nat);
    [ | discriminate].
  unfold RoleCreateSchema.validate_name.
  destruct (negb _); [discriminate | ].
  destruct (RoleCreateSchema.field_description data); [ | discriminate].
  destruct (RoleCreateSchema.field_permissions data); [ | discriminate].
  intros [= <-]. exists v. auto.
Qed.

(** C8, as the specification states it, fails: the sample store holds the
    role [admin], and [create_role] given ["Admin"] reports no conflict
    and stores a third role. *)
Lemma create_role_is_case_sensitive :
  In Sample.admin_role (roles Sample.db)
  /\ same_up_to_case (Role.name Sample.admin_role) "Admin"
  /\ is_success (fst (RoleService.create_role (Sample.env 800 "r") "Admin" None None
                        Sample.db)) = true
  /\ map Role.name
         (roles (snd (RoleService.create_role (Sample.env 800 "r") "Admin" None None
                        Sample.db)))
     = ["admin"; "user"; "Admin"].
Proof. simpl. unfold same_up_to_case. simpl. auto. Qed.

(** A stored lower-case name that equals [v] up to case is [v.lower()]. *)
Lemma lowercase_match (db : DB) (v : string) :
  lowercase_role_names db ->
  (exists r, In r (roles db) /\ same_up_to_case (Role.name r) v) ->
  exists r, In r (roles db) /\ Role.name r = Py.lower v.
Proof.
  intros Low [r [I S]]. exists r. split; [exact I | ].
  unfold lowercase_role_names in Low. rewrite Forall_forall in Low.
  rewrite <- (Low r I). exact S.
Qed.

(** C8, amended: [create_role] compares names exactly, letter case
    included. It fails with ["Role already exists"], the store unchanged,
    when a stored role has exactly the given name; otherwise (the drawn id
    being unused) it appends exactly one role with the given name,
    description and permissions, the empty map when none are given, and
    returns it. The comparison is case-insensitive only where the name has
    first gone through [RoleCreateSchema], which lowers it, as in [POST
    /roles], and the stored names are in lower case: then a stored role
    equal to the submitted name up to case is a conflict. *)
Theorem create_role_conflict_on_exact_name :
  forall (env : Env) (name : string) (description : option string)
         (permissions : option dict) (db : DB),
    let out := RoleService.create_role env name description permissions db in
    let role := Role.Build (uuid4 env 0) name description
                           (RoleService.or_empty permissions) (now env) in
    (forall r, In r (roles db) -> Role.name r = name ->
               out = (Failure "Role already exists", db))
    /\ ((forall r, In r (roles db) -> Role.name r <> name) ->
        existsb (fun x => Role.id x =? uuid4 env 0) (roles db) = false ->
        out = (Success (CreatedRole role "Role created successfully"),
               set_roles (roles db ++ [role]) db))
    /\ (RoleService.or_empty None = [])
    /\ (forall v,
           RoleCreateSchema.validate_name v = Some name ->
           lowercase_role_names db ->
           (exists r, In r (roles db) /\ same_up_to_case (Role.name r) v) ->
           out = (Failure "Role already exists", db))
    /\ (forall claims data role_data v,
           Routes.admin_gate claims = inr None ->
           RoleCreateSchema.validate data = Some role_data ->
           dict_get "name" data = Some (JStr v) ->
           lowercase_role_names db ->
           (exists r, In r (roles db) /\ same_up_to_case (Role.name r) v) ->
           Routes.create_role env claims (JDict data) db
           = ((Routes.ErrorBody "Role already exists", 400%Z), db)).
Proof.
  intros env name description permissions db out role. subst out role.
  split; [ | split; [ | split; [reflexivity | split]]].
  - intros r I E. exact (create_role_conflict env name description permissions db r I E).
  - intros New Fresh. unfold RoleService.create_role, role_by_name.
    assert (N : forall r, In r (roles db) -> (Role.name r =? name) = false).
    { intros r I. apply String.eqb_neq. apply New. exact I. }
    rewrite (proj2 (find_none_iff _ _) N).
    unfold insert_role. simpl. rewrite Fresh, (existsb_none _ _ N). reflexivity.
  - intros v V Low Ex. destruct (lowercase_match db v Low Ex) as [r [I E]].
    apply (create_role_conflict env name description permissions db r I).
    unfold RoleCreateSchema.validate_name in V.
    destruct (negb _); [discriminate | ]. injection V as <-. exact E.
  - intros claims data role_data v Gate Val Name Low Ex.
    destruct (lowercase_match db v Low Ex) as [r [I E]].
    destruct (validate_lowers_name data role_data Val) as [v' [Name' Lower]].
    assert (v' = v) by congruence. subst v'.
    unfold Routes.create_role. rewrite Gate. simpl.
    destruct data as [|kv data]; [discriminate | ].
    simpl. unfold dict in *. rewrite Val.
    rewrite (create_role_conflict env (RoleCreateSchema.name role_data) _ _ db r I);
      [reflexivity | congruence].
Qed.

(** C8 amended, run on the sample store: ["admin"] conflicts, ["auditor"]
    is stored with an empty permission map, and ["Admin"] posted by an
    admin through the schema conflicts with the stored [admin]. *)
Lemma create_role_witness :
  RoleService.create_role (Sample.env 800 "r") "admin" None None Sample.db
  = (Failure "Role already exists", Sample.db)
  /\ roles (snd (RoleService.create_role (Sample.env 800 "r") "auditor"
                   (Some "Reads the logs") None Sample.db))
     = (roles Sample.db
          ++ [Role.Build "r0" "auditor" (Some "Reads the logs") [] 800])%list
  /\ Routes.create_role (Sample.env 800 "r") Sample.alice_claims
       (JDict [("name", JStr "Admin")]) Sample.db
     = ((Routes.ErrorBody "Role already exists", 400%Z), Sample.db).
Proof.
  pose proof (create_role_conflict_on_exact_name (Sample.env 800 "r") "admin" None None
                Sample.db) as (Exact & _ & _ & _ & Route).
  pose proof (create_role_conflict_on_exact_name (Sample.env 800 "r") "auditor"
                (Some "Reads the logs") None Sample.db) as (_ & New & _).
  split; [ | split].
  - apply (Exact Sample.admin_role); simpl; auto.
  - rewrite New; [reflexivity | | reflexivity].
    intros r [<-|[<-|[]]]; discriminate.
  - apply (Route Sample.alice_claims [("name", JStr "Admin")]
                 (RoleCreateSchema.Build "admin" None []) "Admin");
      try reflexivity.
    + repeat constructor.
    + exists Sample.admin_role. split; [simpl; auto | reflexivity].
Defined.

(** ** Refresh-token rotation *)

Lemma role_names_resolved (rs : list (option Role.t)) :
  roles_resolve rs -> exists ns, role_names rs = inr ns.
Proof.
  induction 1 as [|r rs [role ->] _ [ns IH]]; simpl.
  - exists []. reflexivity.
  - rewrite IH. simpl. eauto.
Qed.

(** The foreign keys make every role of every user resolve. *)
Lemma foreign_keys_resolve (db : DB) (u : User.t) :
  user_roles_resolve db = true -> roles_resolve (get_roles db u).
Proof.
  intros FK. unfold roles_resolve, get_roles.
  apply Forall_forall. intros r I.
  apply in_map_iff in I. destruct I as [ur [<- I]].
  apply filter_In in I. destruct I as [I _].
  unfold user_roles_resolve in FK. rewrite forallb_forall in FK.
  apply FK in I. apply andb_true_iff in I. destruct I as [_ R].
  apply existsb_exists in R. destruct R as [role [Ir E]].
  unfold get_role.
  destruct (find_first_match (fun x => Role.id x =? UserRole.role_id ur)
                             (roles db) role Ir E) as [y ->].
  eauto.
Qed.

Lemma existsb_update_first {A} (p q : A -> bool) (f : A -> A) (l : list A) :
  (forall x, p (f x) = p x) -> existsb p (update_first q f l) = existsb p l.
Proof.
  intros H. induction l as [|a l IH]; simpl; [reflexivity | ].
  destruct (q a); simpl; [rewrite H; reflexivity | rewrite IH; reflexivity].
Qed.

(** Once the matched row is revoked, every row that carries its hash is
    revoked: the hash is unique. *)
Lemma hash_rows_revoked (user_id h : string) (stored : RefreshToken.t) :
  forall ts : list RefreshToken.t,
    NoDup (map RefreshToken.token_hash ts) ->
    find (AuthService.token_row user_id h) ts = Some stored ->
    forall t,
      In t (update_first (AuthService.token_row user_id h) RefreshToken.revoke ts) ->
      RefreshToken.token_hash t = h ->
      RefreshToken.is_revoked t = true.
Proof.
  induction ts as [|a l IH]; simpl; intros N F t I H; [discriminate | ].
  inversion N as [|? ? Na N']; subst.
  destruct (AuthService.token_row user_id (RefreshToken.token_hash t) a) eqn:M.
  - injection F as <-. destruct I as [<-|I]; [reflexivity | ].
    exfalso. apply Na. apply token_row_spec in M. destruct M as [_ ->].
    apply in_map. exact I.
  - destruct I as [<-|I]; [ | apply (IH N' F t I eq_refl)].
    exfalso. apply Na. apply find_some in F. destruct F as [Is Ms].
    apply token_row_spec in Ms. destruct Ms as [_ <-].
    apply in_map. exact Is.
Qed.

(** A refresh against a store where every row of the token's hash is
    revoked fails and writes nothing. *)
Lemma refresh_fails_when_revoked (L : Lib) (env : Env) (tok : string) (db : DB) :
  (forall t, In t (refresh_tokens db) ->
             RefreshToken.token_hash t = sha256_hexdigest L tok ->
             RefreshToken.is_revoked t = true) ->
  exists error,
    AuthService.refresh_access_token L env tok db = (Failure error, db)
    /\ (forall d, decode_token L (now env) tok = inr d ->
                  error = "Invalid or expired refresh token").
Proof.
  intros Rev. unfold AuthService.refresh_access_token.
  destruct (decode_token L (now env) tok) as [e|d]; simpl.
  - eexists. split; [reflexivity | discriminate].
  - destruct (find _ (refresh_tokens db)) as [t|] eqn:F.
    + apply find_some in F. destruct F as [I M].
      apply token_row_spec in M. destruct M as [_ H].
      rewrite (revoked_not_valid (now env) t (Rev t I H)). simpl.
      eexists. split; [reflexivity | auto].
    + eexists. split; [reflexivity | auto].
Qed.

Lemma find_app_skip {A} (p : A -> bool) (pre l : list A) :
  find p pre = None -> find p (pre ++ l) = find p l.
Proof.
  induction pre as [|a pre IH]; simpl; [reflexivity | ].
  destruct (p a); [discriminate | exact IH].
Qed.

(** C1: rotation is single-use. In a store that meets its schema (unique
    token hashes, resolving foreign keys), let the presented token [T0]
    decode to a subject whose stored row for [T0] is valid and whose user
    is active, and let the id and the token the call draws be new to the
    table. Then the first [refresh_access_token(T0)] succeeds with a
    refresh token [T1] other than [T0], the stored row of [T0] is revoked
    in place and the row of [T1] is appended; and on the resulting store
    every further [refresh_access_token(T0)] fails, with the invalid-token
    error whenever the token still decodes, and writes nothing. *)
Theorem refresh_rotation_is_single_use :
  forall (L : Lib) (env : Env) (db : DB) (T0 : string) (d : DecodedToken)
         (stored : RefreshToken.t) (user : User.t),
    unique_token_hashes db ->
    user_roles_resolve db = true ->
    decode_token L (now env) T0 = inr d ->
    find (AuthService.token_row (sub d) (sha256_hexdigest L T0)) (refresh_tokens db)
    = Some stored ->
    RefreshToken.is_valid (now env) stored = true ->
    get_user (sub d) db = Some user ->
    User.is_active user = true ->
    existsb (fun x => RefreshToken.id x =? uuid4 env 2) (refresh_tokens db) = false ->
    existsb (fun x => RefreshToken.token_hash x
                      =? sha256_hexdigest L
                           (create_refresh_token L (now env) (uuid4 env 1)
                                                 (User.id user)))
            (refresh_tokens db) = false ->
    exists access T1 db1,
      AuthService.refresh_access_token L env T0 db
      = (Success (RefreshTokens access T1 "bearer" 1800), db1)
      /\ T1 <> T0
      /\ users db1 = users db /\ roles db1 = roles db
      /\ user_roles db1 = user_roles db
      /\ refresh_tokens db1
         = (update_first (AuthService.token_row (sub d) (sha256_hexdigest L T0))
                         RefreshToken.revoke (refresh_tokens db)
              ++ [RefreshToken.Build (uuid4 env 2) (User.id user)
                    (sha256_hexdigest L T1) (now env + seven_days)%Z false
                    (now env)])%list
      /\ find (AuthService.token_row (sub d) (sha256_hexdigest L T0))
              (refresh_tokens db1)
         = Some (RefreshToken.revoke stored)
      /\ forall env' : Env,
          exists error,
            AuthService.refresh_access_token L env' T0 db1 = (Failure error, db1)
            /\ (forall d', decode_token L (now env') T0 = inr d' ->
                           error = "Invalid or expired refresh token").
Proof.
  intros L env db T0 d stored user Uniq FK Dec Found Valid User Active FreshId
         FreshTok.
  destruct (role_names_resolved _ (foreign_keys_resolve db user FK)) as [names Names].
  set (T1 := create_refresh_token L (now env) (uuid4 env 1) (User.id user)) in *.
  set (row := AuthService.token_row (sub d) (sha256_hexdigest L T0)) in *.
  set (rotated := update_first row RefreshToken.revoke (refresh_tokens db)).
  set (fresh := RefreshToken.Build (uuid4 env 2) (User.id user)
                  (sha256_hexdigest L T1) (now env + seven_days)%Z false (now env)).
  assert (Run : AuthService.refresh_access_token L env T0 db
                = (Success (RefreshTokens
                              (create_access_token L (now env) (uuid4 env 0)
                                 (User.id user)
                                 (Claims (User.email user) (User.username user) names))
                              T1 "bearer" 1800),
                   set_refresh_tokens (rotated ++ [fresh]) db)).
  { unfold AuthService.refresh_access_token.
    rewrite Dec. simpl. fold row. rewrite Found, Valid. simpl.
    rewrite User, Active. simpl. rewrite Names. simpl.
    unfold insert_refresh_token. simpl. fold T1 rotated.
    unfold rotated. rewrite !existsb_update_first by reflexivity.
    rewrite FreshId, FreshTok. reflexivity. }
  pose proof (find_some _ _ Found) as [InStored Match].
  apply token_row_spec in Match. destruct Match as [Owner Hash].
  destruct (update_first_split row RefreshToken.revoke _ _ Found)
    as [pre [post [Split [NoEarlier [Hit Rot]]]]].
  eexists _, T1, _. split; [exact Run | ].
  split; [ | simpl; repeat split].
  - intros Same.
    assert (E : existsb (fun x => RefreshToken.token_hash x =? sha256_hexdigest L T1)
                        (refresh_tokens db) = true).
    { apply existsb_exists. exists stored. split; [exact InStored | ].
      apply String.eqb_eq. rewrite Hash, Same. reflexivity. }
    congruence.
  - fold rotated. unfold rotated. rewrite Rot, <- app_assoc. simpl.
    rewrite find_app_skip.
    + simpl. unfold row in *. simpl.
      change (AuthService.token_row (sub d) (sha256_hexdigest L T0)
                                    (RefreshToken.revoke stored))
        with (AuthService.token_row (sub d) (sha256_hexdigest L T0) stored).
      rewrite Hit. reflexivity.
    + apply find_none_iff. exact NoEarlier.
  - intros env'. apply refresh_fails_when_revoked. simpl.
    intros t I H. apply in_app_or in I. destruct I as [I|[<-|[]]].
    + exact (hash_rows_revoked (sub d) (sha256_hexdigest L T0) stored
               (refresh_tokens db) Uniq Found t I H).
    + exfalso. simpl in H.
      assert (E : existsb (fun x => RefreshToken.token_hash x
                                    =? sha256_hexdigest L T1)
                          (refresh_tokens db) = true).
      { apply existsb_exists. exists stored. split; [exact InStored | ].
        apply String.eqb_eq. congruence. }
      congruence.
Qed.

(** C1 on the sample store: Alice's token is exchanged at time 200, and
    replayed at time 300 against the store the exchange left. *)
Lemma refresh_rotation_witness :
  unique_token_hashes Sample.db
  /\ user_roles_resolve Sample.db = true
  /\ RefreshToken.is_valid 200 Sample.alice_row = true
  /\ is_success (fst (AuthService.refresh_access_token Sample.lib
                        (Sample.env 200 "a") Sample.alice_token Sample.db)) = true
  /\ AuthService.refresh_access_token Sample.lib (Sample.env 300 "b")
       Sample.alice_token
       (snd (AuthService.refresh_access_token Sample.lib (Sample.env 200 "a")
               Sample.alice_token Sample.db))
     = (Failure "Invalid or expired refresh token",
        snd (AuthService.refresh_access_token Sample.lib (Sample.env 200 "a")
               Sample.alice_token Sample.db)).
Proof.
  assert (U : unique_token_hashes Sample.db).
  { unfold unique_token_hashes. simpl. distinct_strings. }
  split; [exact U | ]. split; [reflexivity | ]. split; [reflexivity | ].
  destruct (refresh_rotation_is_single_use Sample.lib (Sample.env 200 "a") Sample.db
              Sample.alice_token {| sub := "u-alice" |} Sample.alice_row Sample.alice
              U eq_refl eq_refl eq_refl eq_refl eq_refl eq_refl eq_refl eq_refl)
    as (access & T1 & db1 & Run & _ & _ & _ & _ & _ & _ & Replay).
  rewrite Run. simpl. split; [reflexivity | ].
  destruct (Replay (Sample.env 300 "b")) as (error & Fails & Message).
  rewrite Fails. rewrite (Message {| sub := "u-alice" |} eq_refl). reflexivity.
Defined.

(** * Further properties of the services and routes *)

(** ** Logout *)

Lemma update_first_idem {A} (p : A -> bool) (f : A -> A) (l : list A) :
  (forall x, p (f x) = p x) -> (forall x, f (f x) = f x) ->
  update_first p f (update_first p f l) = update_first p f l.
Proof.
  intros Hp Hf. induction l as [|a l IH]; simpl; [reflexivity | ].
  destruct (p a) eqn:Pa; simpl.
  - rewrite Hp, Pa, Hf. reflexivity.
  - rewrite Pa, IH. reflexivity.
Qed.

Lemma map_update_first {A B} (key : A -> B) (p : A -> bool) (f : A -> A)
      (l : list A) :
  (forall x, key (f x) = key x) -> map key (update_first p f l) = map key l.
Proof.
  intros H. induction l as [|a l IH]; simpl; [reflexivity | ].
  destruct (p a); simpl; [rewrite H | rewrite IH]; reflexivity.
Qed.

Lemma find_update_first {A} (p : A -> bool) (f : A -> A) (l : list A) :
  (forall x, p (f x) = p x) ->
  find p (update_first p f l) = option_map f (find p l).
Proof.
  intros H. induction l as [|a l IH]; simpl; [reflexivity | ].
  destruct (p a) eqn:Pa; simpl.
  - rewrite H, Pa. reflexivity.
  - rewrite Pa. exact IH.
Qed.

(** An unrevoked row of the updated table was an unrevoked row before. *)
Lemma unrevoked_after_revoke (p : RefreshToken.t -> bool) (ts : list RefreshToken.t)
      (t : RefreshToken.t) :
  In t (update_first p RefreshToken.revoke ts) ->
  RefreshToken.is_revoked t = false -> In t ts.
Proof.
  induction ts as [|a l IH]; simpl; [tauto | ].
  destruct (p a); simpl.
  - intros [<-|I] R; [discriminate | auto].
  - intros [<-|I] R; auto.
Qed.

(** [logout_user] on a token that encodes: the body of its [try]. *)
Lemma logout_user_encodable (L : Lib) (tok : string) (db : DB) :
  utf8_encodable tok = true ->
  AuthService.logout_user L tok db
  = match find (fun t => RefreshToken.token_hash t =? sha256_hexdigest L tok)
               (refresh_tokens db) with
    | Some _ =>
        (Success "Logged out successfully",
         set_refresh_tokens
           (update_first (fun t => RefreshToken.token_hash t =? sha256_hexdigest L tok)
                         RefreshToken.revoke (refresh_tokens db)) db)
    | None => (Success "Logged out successfully", db)
    end.
Proof.
  intros E. unfold AuthService.logout_user, encode. rewrite E. simpl.
  destruct (find _ (refresh_tokens db)); reflexivity.
Qed.

(** [logout_user] on a token that does not: the handler answers. *)
Lemma logout_user_unencodable (L : Lib) (tok : string) (db : DB) :
  utf8_encodable tok = false ->
  AuthService.logout_user L tok db
  = (Failure
       "Logout failed: 'utf-8' codec can't encode character: surrogates not allowed",
     db).
Proof.
  intros E. unfold AuthService.logout_user, encode. rewrite E. reflexivity.
Qed.

(** X2: [logout_user]. On a token that UTF-8 does not encode, one with a
    lone surrogate, [refresh_token.encode()] raises: the service answers
    its failure ["Logout failed: ..."] and writes nothing. On every other
    token it answers its success, a row carrying the token or not. It
    writes to the refresh-token table only, and there it adds and removes
    nothing: ids, owners, hashes and expiries stay row by row; a row that
    is unrevoked afterwards was there, unrevoked, before. A token that no
    row carries leaves the store as it is, and a second logout with the
    same token changes nothing more. *)
Theorem logout_user_revokes_in_place :
  forall (L : Lib) (tok : string) (db : DB),
    let out := AuthService.logout_user L tok db in
    (utf8_encodable tok = false ->
     exists error, out = (Failure ("Logout failed: " ++ error), db))
    /\ (utf8_encodable tok = true ->
        fst out = Success "Logged out successfully"
        /\ users (snd out) = users db
        /\ roles (snd out) = roles db
        /\ user_roles (snd out) = user_roles db
        /\ map RefreshToken.id (refresh_tokens (snd out))
           = map RefreshToken.id (refresh_tokens db)
        /\ map RefreshToken.user_id (refresh_tokens (snd out))
           = map RefreshToken.user_id (refresh_tokens db)
        /\ map RefreshToken.token_hash (refresh_tokens (snd out))
           = map RefreshToken.token_hash (refresh_tokens db)
        /\ map RefreshToken.expires_at (refresh_tokens (snd out))
           = map RefreshToken.expires_at (refresh_tokens db)
        /\ (forall t, In t (refresh_tokens (snd out)) ->
                      RefreshToken.is_revoked t = false -> In t (refresh_tokens db))
        /\ ((forall t, In t (refresh_tokens db) ->
                       RefreshToken.token_hash t <> sha256_hexdigest L tok) ->
            snd out = db)
        /\ AuthService.logout_user L tok (snd out) = out).
Proof.
  intros L tok db out. subst out. split.
  { intros E. rewrite (logout_user_unencodable L tok db E). eexists. reflexivity. }
  intros E. rewrite (logout_user_encodable L tok db E).
  set (by_hash := fun t => RefreshToken.token_hash t =? sha256_hexdigest L tok).
  destruct (find by_hash (refresh_tokens db)) as [row|] eqn:F; simpl.
  - repeat split; try (apply map_update_first; reflexivity).
    + intros t. apply unrevoked_after_revoke.
    + intros None. apply find_some in F. destruct F as [I H].
      apply String.eqb_eq in H. exfalso. exact (None row I H).
    + rewrite (logout_user_encodable L tok _ E). simpl. fold by_hash.
      rewrite find_update_first by reflexivity. rewrite F. simpl.
      rewrite update_first_idem by reflexivity. reflexivity.
  - repeat split; auto. rewrite (logout_user_encodable L tok db E).
    fold by_hash. rewrite F. reflexivity.
Qed.

(** Logout on the sample store: Alice's row is revoked in place, a token
    nobody holds changes nothing, a lone surrogate is refused. *)
Lemma logout_user_witness :
  refresh_tokens (snd (AuthService.logout_user Sample.lib Sample.alice_token Sample.db))
  = [RefreshToken.revoke Sample.alice_row]
  /\ snd (AuthService.logout_user Sample.lib "u-bob|refresh|none" Sample.db)
     = Sample.db
  /\ exists error,
      AuthService.logout_user Sample.lib lone_surrogate Sample.db
      = (Failure ("Logout failed: " ++ error), Sample.db).
Proof.
  split; [reflexivity | ]. split.
  - apply (logout_user_revokes_in_place Sample.lib "u-bob|refresh|none" Sample.db).
    + reflexivity.
    + simpl. intros t [<-|[]]. discriminate.
  - apply (logout_user_revokes_in_place Sample.lib lone_surrogate Sample.db).
    reflexivity.
Defined.

(** With the hash unique, revoking the first row of a hash revokes every
    row of that hash. *)
Lemma hash_rows_revoked_by_logout (h : string) :
  forall ts : list RefreshToken.t,
    NoDup (map RefreshToken.token_hash ts) ->
    forall t,
      In t (update_first (fun x => RefreshToken.token_hash x =? h)
                         RefreshToken.revoke ts) ->
      RefreshToken.token_hash t = h ->
      RefreshToken.is_revoked t = true.
Proof.
  induction ts as [|a l IH]; simpl; intros N t I H; [contradiction | ].
  inversion N as [|? ? Na N']; subst.
  destruct (RefreshToken.token_hash a =? RefreshToken.token_hash t) eqn:M.
  - destruct I as [<-|I]; [reflexivity | ].
    exfalso. apply Na. apply String.eqb_eq in M. rewrite M.
    apply in_map. exact I.
  - destruct I as [<-|I]; [ | apply (IH N' t I eq_refl)].
    rewrite String.eqb_refl in M. discriminate.
Qed.

(** After the logout of a token that encodes, every row of its hash is
    revoked. *)
Lemma logout_revokes_hash_rows (L : Lib) (tok : string) (db : DB) :
  unique_token_hashes db ->
  utf8_encodable tok = true ->
  forall t, In t (refresh_tokens (snd (AuthService.logout_user L tok db))) ->
            RefreshToken.token_hash t = sha256_hexdigest L tok ->
            RefreshToken.is_revoked t = true.
Proof.
  intros U E. rewrite (logout_user_encodable L tok db E).
  destruct (find _ (refresh_tokens db)) as [row|] eqn:F; simpl.
  - intros t I H. exact (hash_rows_revoked_by_logout _ _ U t I H).
  - intros t I H. apply (find_none _ _ F) in I. simpl in I.
    rewrite H, String.eqb_refl in I. discriminate.
Qed.

(** A token that does not encode is refused by [decode_token]. *)
Lemma refresh_unencodable (L : Lib) (env : Env) (tok : string) (db : DB) :
  utf8_encodable tok = false ->
  exists error,
    AuthService.refresh_access_token L env tok db = (Failure error, db)
    /\ (forall d, decode_token L (now env) tok = inr d ->
                  error = "Invalid or expired refresh token").
Proof.
  intros E. unfold AuthService.refresh_access_token, decode_token. rewrite E.
  simpl. eexists. split; [reflexivity | discriminate].
Qed.

(** X3: After [logout_user(tok)], on a store with unique token hashes, every
    [refresh_access_token(tok)] fails, with the invalid-token error as long
    as the token decodes, and writes nothing: a logged-out token cannot be
    exchanged. *)
Theorem logout_then_refresh_fails :
  forall (L : Lib) (env : Env) (tok : string) (db : DB),
    unique_token_hashes db ->
    let db1 := snd (AuthService.logout_user L tok db) in
    exists error,
      AuthService.refresh_access_token L env tok db1 = (Failure error, db1)
      /\ (forall d, decode_token L (now env) tok = inr d ->
                    error = "Invalid or expired refresh token").
Proof.
  intros L env tok db U db1. destruct (utf8_encodable tok) eqn:E.
  - apply refresh_fails_when_revoked. subst db1.
    exact (logout_revokes_hash_rows L tok db U E).
  - subst db1. rewrite (logout_user_unencodable L tok db E).
    exact (refresh_unencodable L env tok db E).
Qed.

(** Alice logs out and her token is then refused. *)
Lemma logout_then_refresh_witness :
  unique_token_hashes Sample.db
  /\ AuthService.refresh_access_token Sample.lib (Sample.env 200 "a")
       Sample.alice_token
       (snd (AuthService.logout_user Sample.lib Sample.alice_token Sample.db))
     = (Failure "Invalid or expired refresh token",
        snd (AuthService.logout_user Sample.lib Sample.alice_token Sample.db)).
Proof.
  assert (U : unique_token_hashes Sample.db).
  { unfold unique_token_hashes. simpl. distinct_strings. }
  split; [exact U | ].
  destruct (logout_then_refresh_fails Sample.lib (Sample.env 200 "a")
              Sample.alice_token Sample.db U) as (error & Fails & Message).
  rewrite Fails. rewrite (Message {| sub := "u-alice" |} eq_refl). reflexivity.
Defined.

(** ** Assigning and removing roles *)

Lemma same_assignment_spec (user_id role_id : string) (ur : UserRole.t) :
  same_assignment user_id role_id ur = true
  <-> UserRole.user_id ur = user_id /\ UserRole.role_id ur = role_id.
Proof.
  unfold same_assignment. rewrite andb_true_iff, !String.eqb_eq. tauto.
Qed.

Lemma set_user_roles_same (db : DB) : set_user_roles (user_roles db) db = db.
Proof. destruct db. reflexivity. Qed.

Lemma delete_first_last {A} (p : A -> bool) (l : list A) (x : A) :
  find p l = None -> p x = true -> delete_first p (l ++ [x]) = l.
Proof.
  induction l as [|a l IH]; simpl; intros F P.
  - rewrite P. reflexivity.
  - destruct (p a); [discriminate | ]. rewrite (IH F P). reflexivity.
Qed.

(** The outcome of an assignment that passes the two lookups and finds no
    earlier assignment. *)
Lemma assign_role_succeeds (env : Env) (user_id role_id : string) (db : DB)
      (user : User.t) (role : Role.t) :
  get_user user_id db = Some user ->
  get_role role_id db = Some role ->
  find (same_assignment user_id role_id) (user_roles db) = None ->
  RoleService.assign_role_to_user env user_id role_id db
  = (Success "Role assigned successfully",
     set_user_roles (user_roles db ++ [UserRole.Build user_id role_id (now env)]) db).
Proof.
  intros U R F. unfold RoleService.assign_role_to_user. rewrite U, R, F.
  unfold insert_user_role. simpl.
  rewrite (existsb_none _ _ (find_none _ _ F)). reflexivity.
Qed.

(** X10: [assign_role_to_user] answers, in this order of precedence, ["User not
    found"] when no user has the id (whatever the role id), ["Role not
    found"] when no role has the id, ["User already has this role"] when
    the pair is assigned already; each of these leaves the store as it is.
    Otherwise it succeeds and appends exactly the one assignment, and a
    repeated call on the resulting store is refused with ["User already has
    this role"]. *)
Theorem assign_role_outcomes :
  forall (env env' : Env) (user_id role_id : string) (db : DB),
    let out := RoleService.assign_role_to_user env user_id role_id db in
    (get_user user_id db = None -> out = (Failure "User not found", db))
    /\ (forall user, get_user user_id db = Some user ->
                     get_role role_id db = None ->
                     out = (Failure "Role not found", db))
    /\ (forall user role ur,
           get_user user_id db = Some user -> get_role role_id db = Some role ->
           In ur (user_roles db) ->
           UserRole.user_id ur = user_id -> UserRole.role_id ur = role_id ->
           out = (Failure "User already has this role", db))
    /\ (is_success (fst out) = true ->
        out = (Success "Role assigned successfully",
               set_user_roles
                 (user_roles db ++ [UserRole.Build user_id role_id (now env)]) db)
        /\ RoleService.assign_role_to_user env' user_id role_id (snd out)
           = (Failure "User already has this role", snd out))
    /\ (is_success (fst out) = false -> snd out = db).
Proof.
  intros env env' user_id role_id db out. subst out.
  unfold RoleService.assign_role_to_user.
  destruct (get_user user_id db) as [user|] eqn:U.
  2: { repeat split; intros; try discriminate; auto. }
  destruct (get_role role_id db) as [role|] eqn:R.
  2: { repeat split; intros; try discriminate; auto. }
  destruct (find (same_assignment user_id role_id) (user_roles db)) as [ur|] eqn:F.
  { repeat split; intros; try discriminate; auto. }
  unfold insert_user_role. simpl.
  rewrite (existsb_none _ _ (find_none _ _ F)). simpl.
  split; [discriminate | ]. split; [discriminate | ]. split.
  - intros user' role' ur _ _ I Eu Er. apply (find_none _ _ F) in I.
    assert (same_assignment user_id role_id ur = true)
      by (apply same_assignment_spec; auto).
    congruence.
  - split; [ | discriminate]. intros _. split; [reflexivity | ].
    unfold get_user, get_role in *. simpl. rewrite U, R.
    rewrite find_app_skip by exact F. simpl.
    unfold same_assignment at 1. simpl. rewrite !String.eqb_refl. reflexivity.
Qed.

(** An admin gives Bob the admin role; giving it again is refused; a
    missing user is reported before a missing role. *)
Lemma assign_role_witness :
  RoleService.assign_role_to_user (Sample.env 2 "q") "u-bob" "r-admin"
    (snd (RoleService.assign_role_to_user (Sample.env 1 "p") "u-bob" "r-admin"
            Sample.db))
  = (Failure "User already has this role",
     snd (RoleService.assign_role_to_user (Sample.env 1 "p") "u-bob" "r-admin"
            Sample.db))
  /\ RoleService.assign_role_to_user (Sample.env 1 "p") "u-nobody" "r-nothing"
       Sample.db
     = (Failure "User not found", Sample.db).
Proof.
  pose proof (assign_role_outcomes (Sample.env 1 "p") (Sample.env 2 "q")
                "u-bob" "r-admin" Sample.db) as (_ & _ & _ & Ok & _).
  pose proof (assign_role_outcomes (Sample.env 1 "p") (Sample.env 2 "q")
                "u-nobody" "r-nothing" Sample.db) as (Missing & _).
  split.
  - exact (proj2 (Ok eq_refl)).
  - exact (Missing eq_refl).
Defined.

(** X11: Assigning a role and removing it again gives back the very store the
    assignment started from. *)
Theorem assign_then_remove_restores :
  forall (env : Env) (user_id role_id : string) (db : DB),
    is_success (fst (RoleService.assign_role_to_user env user_id role_id db)) = true ->
    RoleService.remove_role_from_user user_id role_id
      (snd (RoleService.assign_role_to_user env user_id role_id db))
    = (Success "Role removed successfully", db).
Proof.
  intros env user_id role_id db.
  unfold RoleService.assign_role_to_user.
  destruct (get_user user_id db) as [user|]; [ | discriminate].
  destruct (get_role role_id db) as [role|]; [ | discriminate].
  destruct (find (same_assignment user_id role_id) (user_roles db)) as [ur|] eqn:F;
    [discriminate | ].
  unfold insert_user_role. simpl.
  rewrite (existsb_none _ _ (find_none _ _ F)). simpl. intros _.
  assert (Hit : same_assignment user_id role_id
                  (UserRole.Build user_id role_id (now env)) = true).
  { unfold same_assignment. simpl. rewrite !String.eqb_refl. reflexivity. }
  unfold RoleService.remove_role_from_user. simpl.
  rewrite find_app_skip by exact F. simpl. rewrite Hit.
  rewrite (delete_first_last _ _ _ F Hit).
  destruct db. reflexivity.
Qed.

(** Bob gets the admin role and loses it again: the sample store is back. *)
Lemma assign_then_remove_witness :
  RoleService.remove_role_from_user "u-bob" "r-admin"
    (snd (RoleService.assign_role_to_user (Sample.env 1 "p") "u-bob" "r-admin"
            Sample.db))
  = (Success "Role removed successfully", Sample.db).
Proof.
  apply (assign_then_remove_restores (Sample.env 1 "p") "u-bob" "r-admin" Sample.db).
  reflexivity.
Defined.

Lemma assignment_key_spec (user_id role_id : string) (ur : UserRole.t) :
  same_assignment user_id role_id ur = true <-> assignment_key ur = (user_id, role_id).
Proof.
  rewrite same_assignment_spec. unfold assignment_key. split.
  - intros [-> ->]. reflexivity.
  - intros [= -> ->]. auto.
Qed.

(** Under the composite key, deleting the first row of a pair deletes every
    row of that pair and no other. *)
Lemma delete_assignment (user_id role_id : string) :
  forall urs : list UserRole.t,
    NoDup (map assignment_key urs) ->
    forall ur,
      In ur (delete_first (same_assignment user_id role_id) urs)
      <-> In ur urs /\ assignment_key ur <> (user_id, role_id).
Proof.
  induction urs as [|a l IH]; simpl; intros N ur; [tauto | ].
  inversion N as [|? ? Na N']; subst.
  destruct (same_assignment user_id role_id a) eqn:M.
  - apply assignment_key_spec in M. split.
    + intros I. split; [auto | ]. intros E. apply Na. rewrite M, <- E.
      apply in_map. exact I.
    + intros [[<-|I] D]; [contradiction | exact I].
  - simpl. rewrite (IH N' ur). split.
    + intros [<-|[I D]]; [ | tauto]. split; [auto | ].
      intros E. apply assignment_key_spec in E. congruence.
    + intros [[<-|I] D]; auto.
Qed.

(** X12: [remove_role_from_user] answers ["User does not have this role"], the
    store unchanged, when the pair is not assigned. On a store that keeps
    the composite key of [user_roles], a successful removal leaves users,
    roles and tokens alone, keeps every assignment of another pair and none
    of this one, and a second removal of the pair is refused. *)
Theorem remove_role_outcomes :
  forall (user_id role_id : string) (db : DB),
    NoDup (map assignment_key (user_roles db)) ->
    let out := RoleService.remove_role_from_user user_id role_id db in
    ((forall ur, In ur (user_roles db) -> assignment_key ur <> (user_id, role_id)) ->
     out = (Failure "User does not have this role", db))
    /\ (is_success (fst out) = false -> snd out = db)
    /\ (is_success (fst out) = true ->
        users (snd out) = users db
        /\ roles (snd out) = roles db
        /\ refresh_tokens (snd out) = refresh_tokens db
        /\ (forall ur, In ur (user_roles (snd out))
                       <-> In ur (user_roles db)
                           /\ assignment_key ur <> (user_id, role_id))
        /\ RoleService.remove_role_from_user user_id role_id (snd out)
           = (Failure "User does not have this role", snd out)).
Proof.
  intros user_id role_id db N out. subst out.
  unfold RoleService.remove_role_from_user.
  destruct (find (same_assignment user_id role_id) (user_roles db)) as [ur|] eqn:F;
    simpl.
  - split; [ | split; [discriminate | ]].
    + intros None. apply find_some in F. destruct F as [I M].
      apply assignment_key_spec in M. exfalso. exact (None ur I M).
    + intros _. split; [reflexivity | ]. split; [reflexivity | ].
      split; [reflexivity | ].
      split; [exact (delete_assignment user_id role_id _ N) | ].
      rewrite (proj2 (find_none_iff _ _)); [reflexivity | ].
      intros x I. apply (delete_assignment user_id role_id _ N) in I.
      destruct I as [_ D].
      destruct (same_assignment user_id role_id x) eqn:M; [ | reflexivity].
      apply assignment_key_spec in M. contradiction.
  - split; [reflexivity | split; [reflexivity | discriminate]].
Qed.

(** Alice loses the admin role; Bob's assignment stays; a second removal
    is refused. *)
Lemma remove_role_witness :
  NoDup (map assignment_key (user_roles Sample.db))
  /\ user_roles (snd (RoleService.remove_role_from_user "u-alice" "r-admin" Sample.db))
     = [UserRole.Build "u-bob" "r-user" 20]
  /\ RoleService.remove_role_from_user "u-alice" "r-admin"
       (snd (RoleService.remove_role_from_user "u-alice" "r-admin" Sample.db))
     = (Failure "User does not have this role",
        snd (RoleService.remove_role_from_user "u-alice" "r-admin" Sample.db)).
Proof.
  assert (N : NoDup (map assignment_key (user_roles Sample.db))).
  { simpl. repeat constructor; simpl; intuition discriminate. }
  split; [exact N | ]. split; [reflexivity | ].
  destruct (remove_role_outcomes "u-alice" "r-admin" Sample.db N) as (_ & _ & Ok).
  exact (proj2 (proj2 (proj2 (proj2 (Ok eq_refl))))).
Defined.

(** ** Holding a role *)

Lemma any_role_named_resolved (n : string) (rs : list (option Role.t)) :
  roles_resolve rs ->
  any_role_named n rs
  = inr (existsb (fun r => match r with
                           | Some role => Role.name role =? n
                           | None => false
                           end) rs).
Proof.
  induction 1 as [|r rs [role ->] _ IH]; simpl; [reflexivity | ].
  destruct (Role.name role =? n); [reflexivity | exact IH].
Qed.

Lemma get_roles_after_assign (db : DB) (u : User.t) (ur : UserRole.t) :
  get_roles (set_user_roles (user_roles db ++ [ur]) db) u
  = (get_roles db u
       ++ if UserRole.user_id ur =? User.id u
          then [get_role (UserRole.role_id ur) db] else [])%list.
Proof.
  unfold get_roles, get_role. simpl. rewrite filter_app, map_app. simpl.
  destruct (UserRole.user_id ur =? User.id u); reflexivity.
Qed.

(** X13: After a successful [assign_role_to_user], on a store whose assignments
    resolve, the user holds the role: the user's roles are the earlier ones
    and the assigned one, in whatever order the database lists them,
    [has_role] answers [True] for its name and [has_permission] for every
    key of its permission map; every other user has the roles held
    before. *)
Theorem assigned_role_is_held :
  forall (env : Env) (user_id role_id : string) (db : DB) (user : User.t)
         (role : Role.t),
    user_roles_resolve db = true ->
    get_user user_id db = Some user ->
    get_role role_id db = Some role ->
    is_success (fst (RoleService.assign_role_to_user env user_id role_id db)) = true ->
    let db' := snd (RoleService.assign_role_to_user env user_id role_id db) in
    Permutation (get_roles db' user) (Some role :: get_roles db user)
    /\ has_role db' user (Role.name role) = inr true
    /\ (forall p v, In (p, v) (Role.permissions role) ->
                    has_permission db' user p = inr true)
    /\ (forall other, User.id other <> user_id ->
                      Permutation (get_roles db' other) (get_roles db other)).
Proof.
  intros env user_id role_id db user role FK U R Ok db'.
  assert (Id : User.id user = user_id).
  { unfold get_user in U. apply find_some in U. apply String.eqb_eq. tauto. }
  assert (Shape : db' = set_user_roles
                          (user_roles db
                             ++ [UserRole.Build user_id role_id (now env)]) db).
  { subst db'. revert Ok. unfold RoleService.assign_role_to_user. rewrite U, R.
    destruct (find (same_assignment user_id role_id) (user_roles db)) eqn:F;
      [discriminate | ].
    unfold insert_user_role. simpl.
    rewrite (existsb_none _ _ (find_none _ _ F)). reflexivity. }
  assert (Roles : get_roles db' user = (get_roles db user ++ [Some role])%list).
  { rewrite Shape, get_roles_after_assign. simpl.
    rewrite Id, String.eqb_refl, R. reflexivity. }
  assert (Res : roles_resolve (get_roles db' user)).
  { rewrite Roles. apply Forall_app. split.
    - exact (foreign_keys_resolve db user FK).
    - repeat constructor. eauto. }
  split; [rewrite Roles; symmetry; apply Permutation_cons_append | ].
  split; [ | split].
  - unfold has_role. rewrite (any_role_named_resolved _ _ Res). f_equal.
    apply existsb_exists. exists (Some role). split.
    + rewrite Roles. apply in_or_app. right. simpl. auto.
    + apply String.eqb_refl.
  - intros p v I. unfold has_permission.
    rewrite (has_permission_loop_resolved _ _ Res). f_equal.
    apply existsb_exists. exists (Some role). split.
    + rewrite Roles. apply in_or_app. right. simpl. auto.
    + apply dict_contains_spec. eauto.
  - intros other D. rewrite Shape, get_roles_after_assign. simpl.
    destruct (user_id =? User.id other) eqn:E.
    + apply String.eqb_eq in E. congruence.
    + rewrite app_nil_r. apply Permutation_refl.
Qed.

(** Bob is given the admin role: he then has it, and with it the
    permission key ["system"]; Alice's roles are untouched. *)
Lemma assigned_role_witness :
  has_role (snd (RoleService.assign_role_to_user (Sample.env 1 "p") "u-bob" "r-admin"
                   Sample.db)) Sample.bob "admin" = inr true
  /\ has_permission
       (snd (RoleService.assign_role_to_user (Sample.env 1 "p") "u-bob" "r-admin"
               Sample.db)) Sample.bob "system" = inr true
  /\ has_role Sample.db Sample.bob "admin" = inr false.
Proof.
  destruct (assigned_role_is_held (Sample.env 1 "p") "u-bob" "r-admin" Sample.db
              Sample.bob Sample.admin_role eq_refl eq_refl eq_refl eq_refl)
    as (_ & Has & Perm & _).
  split; [exact Has | ]. split; [ | reflexivity].
  apply (Perm "system" (JList [JStr "manage"; JStr "configure"])).
  simpl. auto.
Defined.

(** ** Registration, continued *)

Lemma insert_user_fresh (u : User.t) (db db' : DB) :
  insert_user u db = inr db' ->
  existsb (fun x => User.id x =? User.id u) (users db) = false
  /\ existsb (fun x => User.email x =? User.email u) (users db) = false
  /\ existsb (fun x => User.username x =? User.username u) (users db) = false.
Proof.
  unfold insert_user.
  destruct (existsb (fun x => User.id x =? User.id u) (users db)); [discriminate | ].
  destruct (existsb (fun x => User.email x =? User.email u) (users db));
    [discriminate | ].
  destruct (existsb (fun x => User.username x =? User.username u) (users db));
    [discriminate | ].
  auto.
Qed.

Lemma register_session_fresh (L : Lib) (env : Env) (data : UserCreateSchema.t)
      (db db2 : DB) (user : User.t) :
  AuthService.register_session L env data db = inr (user, db2) ->
  existsb (fun u => User.id u =? uuid4 env 0) (users db) = false.
Proof.
  unfold AuthService.register_session, set_password.
  destruct (bcrypt_hashpw L (UserCreateSchema.password data) (gensalt env))
    as [e|h]; simpl; [discriminate | ].
  destruct (insert_user _ db) as [e|db1] eqn:I1; simpl; [discriminate | ].
  apply insert_user_fresh in I1. simpl in I1. tauto.
Qed.

(** The roles of the user a registration committed: the default role, or
    none. *)
Lemma registered_roles (L : Lib) (env : Env) (data : UserCreateSchema.t)
      (db db2 : DB) (user : User.t) :
  user_roles_resolve db = true ->
  AuthService.register_session L env data db = inr (user, db2) ->
  get_roles db2 user
  = match role_by_name "user" db with
    | Some default_role => [get_role (Role.id default_role) db]
    | None => []
    end.
Proof.
  intros FK S.
  pose proof (register_session_fresh _ _ _ _ _ _ S) as Fresh.
  pose proof (fresh_id_unassigned db (uuid4 env 0) FK Fresh) as Un.
  destruct (register_session_ok _ _ _ _ _ _ S) as [h (_ & -> & _ & Rs & _ & Urs)].
  unfold get_roles, get_role. rewrite Urs, Rs. simpl.
  destruct (role_by_name "user" db) as [r|].
  - rewrite filter_app, (filter_none _ _ Un). simpl.
    rewrite String.eqb_refl. reflexivity.
  - rewrite (filter_none _ _ Un). reflexivity.
Qed.

Lemma find_by_unique_key {A} (key : A -> string) (l : list A) (x : A) :
  NoDup (map key l) -> In x l -> find (fun y => key y =? key x) l = Some x.
Proof.
  induction l as [|a l IH]; simpl; intros N I; [contradiction | ].
  inversion N as [|? ? Na N']; subst.
  destruct I as [->|I]; [rewrite String.eqb_refl; reflexivity | ].
  destruct (key a =? key x) eqn:E; [ | exact (IH N' I)].
  exfalso. apply Na. apply String.eqb_eq in E. rewrite E. apply in_map. exact I.
Qed.

(** X9: On a store whose assignments resolve, [register_user] is all or
    nothing: whenever it answers a failure the store is exactly as before.
    On a store where, besides, role ids are unique, the user a success
    returns carries the submitted email and username, is active and not
    verified, and has the roles [["user"]] when the default role exists
    and no role when it does not. *)
Theorem register_user_atomic_and_default_role :
  forall (L : Lib) (env : Env) (data : UserCreateSchema.t) (db : DB),
    user_roles_resolve db = true ->
    NoDup (map Role.id (roles db)) ->
    let out := AuthService.register_user L env data db in
    (is_success (fst out) = false -> snd out = db)
    /\ (is_success (fst out) = true ->
        exists d,
          fst out = Success (RegisteredUser d "User registered successfully")
          /\ d_id d = uuid4 env 0
          /\ d_email d = UserCreateSchema.email data
          /\ d_username d = UserCreateSchema.username data
          /\ d_is_active d = true
          /\ d_is_verified d = false
          /\ d_roles d = match role_by_name "user" db with
                         | Some _ => ["user"]
                         | None => []
                         end).
Proof.
  intros L env data db FK Ids out. subst out.
  unfold AuthService.register_user.
  destruct (AuthService.first_email_or_username data (users db)) as [y|].
  { destruct (User.email y =? UserCreateSchema.email data);
      (split; [reflexivity | discriminate]). }
  destruct (AuthService.register_session L env data db) as [e|[user db2]] eqn:S.
  { split; [reflexivity | discriminate]. }
  pose proof (registered_roles L env data db db2 user FK S) as Roles.
  destruct (register_session_ok _ _ _ _ _ _ S) as [h (_ & User & _)].
  unfold to_dict. rewrite Roles. clear Roles.
  destruct (role_by_name "user" db) as [r|] eqn:R.
  - unfold role_by_name in R. apply find_some in R. destruct R as [I N].
    apply String.eqb_eq in N.
    unfold get_role. rewrite (find_by_unique_key Role.id (roles db) r Ids I).
    simpl. split; [discriminate | ]. intros _. eexists. split; [reflexivity | ].
    subst user. simpl. rewrite N. repeat split.
  - simpl. split; [discriminate | ]. intros _. eexists. split; [reflexivity | ].
    subst user. simpl. repeat split.
Qed.

(** Carol registers on the sample store and comes back with the role
    [user]; a registration with a taken email changes nothing. *)
Lemma register_user_default_role_witness :
  (exists d,
      fst (AuthService.register_user Sample.lib (Sample.env 700 "n") Sample.carol
             Sample.db)
      = Success (RegisteredUser d "User registered successfully")
      /\ d_roles d = ["user"])
  /\ snd (AuthService.register_user Sample.lib (Sample.env 700 "n")
            Sample.bob_name_alice_email Sample.db) = Sample.db.
Proof.
  assert (Ids : NoDup (map Role.id (roles Sample.db))).
  { simpl. distinct_strings. }
  pose proof (register_user_atomic_and_default_role Sample.lib (Sample.env 700 "n")
                Sample.carol Sample.db eq_refl Ids) as (_ & Ok).
  pose proof (register_user_atomic_and_default_role Sample.lib (Sample.env 700 "n")
                Sample.bob_name_alice_email Sample.db eq_refl Ids) as (Fail & _).
  split.
  - destruct (Ok eq_refl) as (d & E & _ & _ & _ & _ & _ & Roles).
    exists d. split; [exact E | exact Roles].
  - exact (Fail eq_refl).
Defined.

(** ** Login *)

Lemma insert_refresh_token_inv (t : RefreshToken.t) (db db' : DB) :
  insert_refresh_token t db = inr db' ->
  db' = set_refresh_tokens (refresh_tokens db ++ [t]) db
  /\ existsb (fun x => RefreshToken.id x =? RefreshToken.id t) (refresh_tokens db)
     = false
  /\ existsb (fun x => RefreshToken.token_hash x =? RefreshToken.token_hash t)
             (refresh_tokens db) = false.
Proof.
  unfold insert_refresh_token.
  destruct (existsb (fun x => RefreshToken.id x =? RefreshToken.id t)
                    (refresh_tokens db)); [discriminate | ].
  destruct (existsb (fun x => RefreshToken.token_hash x =? RefreshToken.token_hash t)
                    (refresh_tokens db)); [discriminate | ].
  intros [= <-]. auto.
Qed.

Lemma insert_refresh_token_fresh (t : RefreshToken.t) (db : DB) :
  existsb (fun x => RefreshToken.id x =? RefreshToken.id t) (refresh_tokens db)
  = false ->
  existsb (fun x => RefreshToken.token_hash x =? RefreshToken.token_hash t)
          (refresh_tokens db) = false ->
  insert_refresh_token t db = inr (set_refresh_tokens (refresh_tokens db ++ [t]) db).
Proof. intros I H. unfold insert_refresh_token. rewrite I, H. reflexivity. Qed.

(** X4: [authenticate_user] writes only when it succeeds: every failure, the
    deactivated account after a correct password among them, leaves the
    store as it is. A success means the first user with the email passed
    [check_password] and is active; it answers a bearer pair with
    [expires_in] 1800 and the user's role names, and appends exactly one
    refresh-token row: owned by that user, holding the SHA-256 of the
    returned refresh token, unrevoked, expiring seven days after the
    clock reading. *)
Theorem authenticate_user_effect :
  forall (L : Lib) (env : Env) (login : LoginRequestSchema.t) (db : DB),
    let out := AuthService.authenticate_user L env login db in
    (is_success (fst out) = false -> snd out = db)
    /\ (forall user,
           user_by_email (LoginRequestSchema.email login) db = Some user ->
           check_password L user (LoginRequestSchema.password login) = inr true ->
           User.is_active user = false ->
           out = (Failure "Account is deactivated", db))
    /\ (is_success (fst out) = true ->
        exists user names d,
          let T := create_refresh_token L (now env) (uuid4 env 1) (User.id user) in
          user_by_email (LoginRequestSchema.email login) db = Some user
          /\ check_password L user (LoginRequestSchema.password login) = inr true
          /\ User.is_active user = true
          /\ role_names (get_roles db user) = inr names
          /\ fst out
             = Success
                 (LoginTokens
                    (create_access_token L (now env) (uuid4 env 0) (User.id user)
                       (Claims (User.email user) (User.username user) names))
                    T "bearer" 1800 d)
          /\ d_id d = User.id user
          /\ d_roles d = names
          /\ snd out
             = set_refresh_tokens
                 (refresh_tokens db
                    ++ [RefreshToken.Build (uuid4 env 2) (User.id user)
                          (sha256_hexdigest L T) (now env + seven_days)%Z false
                          (now env)]) db).
Proof.
  intros L env login db out. subst out. unfold AuthService.authenticate_user.
  destruct (user_by_email (LoginRequestSchema.email login) db) as [user|]; simpl.
  2: { split; [reflexivity | split; [discriminate | discriminate]]. }
  destruct (check_password L user (LoginRequestSchema.password login))
    as [e|[|]] eqn:Chk; simpl.
  1,3: (split; [reflexivity
               | split; [intros u [= <-] C; congruence | discriminate]]).
  destruct (User.is_active user) eqn:A; simpl.
  2: { split; [reflexivity | ]. split; [ | discriminate].
       intros u [= <-] _ _. reflexivity. }
  destruct (role_names (get_roles db user)) as [e|names] eqn:N; simpl.
  { split; [reflexivity | ]. split; [ | discriminate].
    intros u [= <-] _ Inactive. congruence. }
  destruct (insert_refresh_token _ db) as [e|db1] eqn:I; simpl.
  { split; [reflexivity | ]. split; [ | discriminate].
    intros u [= <-] _ Inactive. congruence. }
  apply insert_refresh_token_inv in I. destruct I as [-> _].
  unfold to_dict.
  change (get_roles (set_refresh_tokens _ db) user) with (get_roles db user).
  rewrite N. simpl.
  split; [discriminate | ]. split.
  - intros u [= <-] _ Inactive. congruence.
  - intros _. exists user, names. eexists. simpl.
    split; [reflexivity | ]. split; [exact Chk | ]. split; [exact A | ].
    split; [exact N | ]. split; [reflexivity | ]. split; [reflexivity | ].
    split; reflexivity.
Qed.

(** Alice logs in on the sample store: one row is appended for her new
    token. With the wrong password nothing is written. *)
Lemma authenticate_user_witness :
  refresh_tokens
    (snd (AuthService.authenticate_user Sample.lib (Sample.env 300 "c")
            (LoginRequestSchema.Build "alice@example.com" "Passw0rd") Sample.db))
  = [Sample.alice_row;
     RefreshToken.Build "c2" "u-alice" "sha256:u-alice|refresh|c1"
                        (300 + seven_days) false 300]
  /\ snd (AuthService.authenticate_user Sample.lib (Sample.env 300 "c")
            (LoginRequestSchema.Build "alice@example.com" "Wr0ngPass") Sample.db)
     = Sample.db.
Proof.
  pose proof (authenticate_user_effect Sample.lib (Sample.env 300 "c")
                (LoginRequestSchema.Build "alice@example.com" "Passw0rd") Sample.db)
    as (_ & _ & Ok).
  pose proof (authenticate_user_effect Sample.lib (Sample.env 300 "c")
                (LoginRequestSchema.Build "alice@example.com" "Wr0ngPass") Sample.db)
    as (Fail & _).
  split.
  - destruct (Ok eq_refl) as (user & names & d & Found & _ & _ & _ & _ & _ & _ & Db).
    injection Found as <-. rewrite Db. reflexivity.
  - exact (Fail eq_refl).
Defined.

(** ** Refresh: the ways it fails, and login followed by refresh *)

(** The exchange, when every check passes and the insert finds the id and
    the hash unused. *)
Lemma refresh_exchanges (L : Lib) (env : Env) (tok : string) (db : DB)
      (d : DecodedToken) (stored : RefreshToken.t) (user : User.t)
      (names : list string) :
  decode_token L (now env) tok = inr d ->
  find (AuthService.token_row (sub d) (sha256_hexdigest L tok)) (refresh_tokens db)
  = Some stored ->
  RefreshToken.is_valid (now env) stored = true ->
  get_user (sub d) db = Some user ->
  User.is_active user = true ->
  role_names (get_roles db user) = inr names ->
  existsb (fun x => RefreshToken.id x =? uuid4 env 2) (refresh_tokens db) = false ->
  existsb (fun x => RefreshToken.token_hash x
                    =? sha256_hexdigest L
                         (create_refresh_token L (now env) (uuid4 env 1)
                                               (User.id user)))
          (refresh_tokens db) = false ->
  AuthService.refresh_access_token L env tok db
  = (Success (RefreshTokens
                (create_access_token L (now env) (uuid4 env 0) (User.id user)
                   (Claims (User.email user) (User.username user) names))
                (create_refresh_token L (now env) (uuid4 env 1) (User.id user))
                "bearer" 1800),
     set_refresh_tokens
       (update_first (AuthService.token_row (sub d) (sha256_hexdigest L tok))
                     RefreshToken.revoke (refresh_tokens db)
          ++ [RefreshToken.Build (uuid4 env 2) (User.id user)
                (sha256_hexdigest L
                   (create_refresh_token L (now env) (uuid4 env 1) (User.id user)))
                (now env + seven_days)%Z false (now env)]) db).
Proof.
  intros Dec Found Valid User Active Names FreshId FreshTok.
  unfold AuthService.refresh_access_token.
  rewrite Dec. simpl. rewrite Found, Valid. simpl.
  rewrite User, Active. simpl. rewrite Names. simpl.
  unfold insert_refresh_token. simpl.
  rewrite !existsb_update_first by reflexivity.
  rewrite FreshId, FreshTok. reflexivity.
Qed.

(** X5: [refresh_access_token] writes only when it succeeds. A token the JWT
    library refuses is answered ["Token refresh failed: "] followed by the
    library's text; a stored row past its expiry, revoked or not, the
    invalid-token error; a valid row whose user is gone or deactivated,
    ["User not found or inactive"]. In each case the store is as before:
    in particular the presented row is not revoked by a failed attempt. *)
Theorem refresh_failures_write_nothing :
  forall (L : Lib) (env : Env) (tok : string) (db : DB),
    let out := AuthService.refresh_access_token L env tok db in
    (is_success (fst out) = false -> snd out = db)
    /\ (forall e, decode_token L (now env) tok = inl e ->
                  out = (Failure ("Token refresh failed: " ++ str e), db))
    /\ (forall d stored,
           decode_token L (now env) tok = inr d ->
           find (AuthService.token_row (sub d) (sha256_hexdigest L tok))
                (refresh_tokens db) = Some stored ->
           (now env > RefreshToken.expires_at stored)%Z ->
           out = (Failure "Invalid or expired refresh token", db))
    /\ (forall d stored,
           decode_token L (now env) tok = inr d ->
           find (AuthService.token_row (sub d) (sha256_hexdigest L tok))
                (refresh_tokens db) = Some stored ->
           RefreshToken.is_valid (now env) stored = true ->
           get_user (sub d) db = None ->
           out = (Failure "User not found or inactive", db))
    /\ (forall d stored user,
           decode_token L (now env) tok = inr d ->
           find (AuthService.token_row (sub d) (sha256_hexdigest L tok))
                (refresh_tokens db) = Some stored ->
           RefreshToken.is_valid (now env) stored = true ->
           get_user (sub d) db = Some user ->
           User.is_active user = false ->
           out = (Failure "User not found or inactive", db)).
Proof.
  intros L env tok db out. subst out.
  unfold AuthService.refresh_access_token.
  destruct (decode_token L (now env) tok) as [e|d] eqn:Dec; simpl.
  { split; [reflexivity | ]. split; [intros e' [= <-]; reflexivity | ].
    repeat split; intros; discriminate. }
  split.
  - destruct (find _ (refresh_tokens db)) as [stored|]; [ | reflexivity].
    destruct (RefreshToken.is_valid (now env) stored); [ | reflexivity]. simpl.
    destruct (get_user (sub d) db) as [user|]; [ | reflexivity].
    destruct (User.is_active user); [ | reflexivity]. simpl.
    destruct (role_names (get_roles db user)); [reflexivity | ]. simpl.
    destruct (insert_refresh_token _ _); simpl; [reflexivity | discriminate].
  - split; [discriminate | ]. split; [ | split].
    + intros d' stored [= <-] F Late. rewrite F.
      assert (V : RefreshToken.is_valid (now env) stored = false).
      { unfold RefreshToken.is_valid.
        rewrite (proj2 (is_expired_spec (now env) stored) Late).
        apply andb_false_r. }
      rewrite V. reflexivity.
    + intros d' stored [= <-] F V U. rewrite F, V. simpl. rewrite U. reflexivity.
    + intros d' stored user [= <-] F V U A. rewrite F, V. simpl. rewrite U, A.
      reflexivity.
Qed.

(** On the sample store: eight days after issue Alice's token is refused
    and her row is still unrevoked; a token without a bar does not decode. *)
Lemma refresh_failures_witness :
  AuthService.refresh_access_token Sample.lib
    (Sample.env (100 + seven_days + 1) "a") Sample.alice_token Sample.db
  = (Failure "Invalid or expired refresh token", Sample.db)
  /\ AuthService.refresh_access_token Sample.lib (Sample.env 200 "a") "garbage"
       Sample.db
     = (Failure "Token refresh failed: Not enough segments", Sample.db).
Proof.
  pose proof (refresh_failures_write_nothing Sample.lib
                (Sample.env (100 + seven_days + 1) "a") Sample.alice_token Sample.db)
    as (_ & _ & Late & _).
  pose proof (refresh_failures_write_nothing Sample.lib (Sample.env 200 "a")
                "garbage" Sample.db) as (_ & Bad & _).
  split.
  - apply (Late {| sub := "u-alice" |} Sample.alice_row); reflexivity.
  - exact (Bad (Exception "Not enough segments") eq_refl).
Defined.

(** What a successful login found and wrote. *)
Lemma login_success (L : Lib) (env : Env) (login : LoginRequestSchema.t) (db : DB) :
  is_success (fst (AuthService.authenticate_user L env login db)) = true ->
  exists user names,
    let row :=
      RefreshToken.Build (uuid4 env 2) (User.id user)
        (sha256_hexdigest L
           (create_refresh_token L (now env) (uuid4 env 1) (User.id user)))
        (now env + seven_days)%Z false (now env) in
    user_by_email (LoginRequestSchema.email login) db = Some user
    /\ check_password L user (LoginRequestSchema.password login) = inr true
    /\ User.is_active user = true
    /\ role_names (get_roles db user) = inr names
    /\ snd (AuthService.authenticate_user L env login db)
       = set_refresh_tokens (refresh_tokens db ++ [row]) db
    /\ existsb (fun x => RefreshToken.id x =? RefreshToken.id row)
               (refresh_tokens db) = false
    /\ existsb (fun x => RefreshToken.token_hash x =? RefreshToken.token_hash row)
               (refresh_tokens db) = false.
Proof.
  unfold AuthService.authenticate_user.
  destruct (user_by_email (LoginRequestSchema.email login) db) as [user|]; simpl;
    [ | discriminate].
  destruct (check_password L user (LoginRequestSchema.password login))
    as [e|[|]] eqn:Chk; simpl; try discriminate.
  destruct (User.is_active user) eqn:A; simpl; [ | discriminate].
  destruct (role_names (get_roles db user)) as [e|names] eqn:N; simpl;
    [discriminate | ].
  destruct (insert_refresh_token _ db) as [e|db1] eqn:I; simpl; [discriminate | ].
  apply insert_refresh_token_inv in I. destruct I as (-> & FreshId & FreshHash).
  intros _. exists user, names. simpl.
  split; [reflexivity | ]. split; [exact Chk | ]. split; [exact A | ].
  split; [exact N | ]. split; [ | split; assumption].
  unfold to_dict.
  change (get_roles (set_refresh_tokens _ db) user) with (get_roles db user).
  rewrite N. reflexivity.
Qed.

(** X6: Login, then refresh. On a store with unique user ids, the refresh
    token a successful login returned is accepted by
    [refresh_access_token] at any later reading of the clock up to seven
    days after the login, provided the JWT library decodes it to the
    user's id and the id and token drawn by the refresh are unused. *)
Theorem login_token_is_refreshable :
  forall (L : Lib) (env env' : Env) (login : LoginRequestSchema.t) (db : DB)
         (user : User.t) (d : DecodedToken),
    NoDup (map User.id (users db)) ->
    is_success (fst (AuthService.authenticate_user L env login db)) = true ->
    user_by_email (LoginRequestSchema.email login) db = Some user ->
    let T := create_refresh_token L (now env) (uuid4 env 1) (User.id user) in
    let db1 := snd (AuthService.authenticate_user L env login db) in
    decode_token L (now env') T = inr d ->
    sub d = User.id user ->
    (now env' <= now env + seven_days)%Z ->
    existsb (fun x => RefreshToken.id x =? uuid4 env' 2) (refresh_tokens db1) = false ->
    existsb (fun x => RefreshToken.token_hash x
                      =? sha256_hexdigest L
                           (create_refresh_token L (now env') (uuid4 env' 1)
                                                 (User.id user)))
            (refresh_tokens db1) = false ->
    is_success (fst (AuthService.refresh_access_token L env' T db1)) = true.
Proof.
  intros L env env' login db user d Ids Ok Found T db1 Dec Sub Time FreshId FreshTok.
  destruct (login_success L env login db Ok)
    as (user' & names & Found' & _ & Active & Names & Db & _ & NoHash).
  assert (user' = user) by congruence. subst user'. simpl in *.
  fold T in Db, NoHash. fold db1 in Db.
  set (row := RefreshToken.Build (uuid4 env 2) (User.id user) (sha256_hexdigest L T)
                (now env + seven_days)%Z false (now env)) in *.
  assert (InUser : In user (users db)).
  { unfold user_by_email in Found. apply find_some in Found. tauto. }
  assert (Row : find (AuthService.token_row (sub d) (sha256_hexdigest L T))
                     (refresh_tokens db1) = Some row).
  { rewrite Db. simpl. rewrite find_app_skip.
    - simpl. unfold AuthService.token_row. simpl.
      rewrite Sub, !String.eqb_refl. reflexivity.
    - apply find_none_iff. intros x I.
      unfold AuthService.token_row.
      assert (H : (RefreshToken.token_hash x =? sha256_hexdigest L T) = false).
      { destruct (RefreshToken.token_hash x =? sha256_hexdigest L T) eqn:E;
          [ | reflexivity].
        assert (existsb (fun x => RefreshToken.token_hash x =? sha256_hexdigest L T)
                        (refresh_tokens db) = true).
        { apply existsb_exists. eauto. }
        congruence. }
      rewrite H. apply andb_false_r. }
  assert (Valid : RefreshToken.is_valid (now env') row = true).
  { unfold RefreshToken.is_valid, RefreshToken.is_expired. simpl.
    rewrite Z.gtb_ltb. apply negb_true_iff. apply Z.ltb_ge. exact Time. }
  assert (User : get_user (sub d) db1 = Some user).
  { rewrite Db, Sub. unfold get_user. simpl.
    exact (find_by_unique_key User.id (users db) user Ids InUser). }
  assert (Names1 : role_names (get_roles db1 user) = inr names).
  { rewrite Db. exact Names. }
  rewrite (refresh_exchanges L env' T db1 d row user names
             Dec Row Valid User Active Names1 FreshId FreshTok).
  reflexivity.
Qed.

(** Alice logs in at 300 and exchanges the token she got at 400. *)
Lemma login_token_is_refreshable_witness :
  is_success
    (fst (AuthService.refresh_access_token Sample.lib (Sample.env 400 "d")
            "u-alice|refresh|c1"
            (snd (AuthService.authenticate_user Sample.lib (Sample.env 300 "c")
                    (LoginRequestSchema.Build "alice@example.com" "Passw0rd")
                    Sample.db)))) = true.
Proof.
  apply (login_token_is_refreshable Sample.lib (Sample.env 300 "c")
           (Sample.env 400 "d")
           (LoginRequestSchema.Build "alice@example.com" "Passw0rd") Sample.db
           Sample.alice {| sub := "u-alice" |}); try reflexivity.
  - simpl. distinct_strings.
  - simpl. discriminate.
Defined.

(** ** Registration followed by login *)

(** X8: Register, then log in. After a successful registration on a store
    whose assignments resolve, a login with the registered email finds the
    new user: it succeeds with the registered password when bcrypt verifies
    it against the hash it made (the id and token the login draws being
    unused), and it is refused with the generic error for any password
    bcrypt does not verify, writing nothing. *)
Theorem registered_user_can_log_in :
  forall (L : Lib) (env env' : Env) (data : UserCreateSchema.t) (db : DB)
         (h : string),
    user_roles_resolve db = true ->
    is_success (fst (AuthService.register_user L env data db)) = true ->
    bcrypt_hashpw L (UserCreateSchema.password data) (gensalt env) = inr h ->
    let db1 := snd (AuthService.register_user L env data db) in
    (bcrypt_checkpw L (UserCreateSchema.password data) h = inr true ->
     existsb (fun x => RefreshToken.id x =? uuid4 env' 2) (refresh_tokens db1) = false ->
     existsb (fun x => RefreshToken.token_hash x
                       =? sha256_hexdigest L
                            (create_refresh_token L (now env') (uuid4 env' 1)
                                                  (uuid4 env 0)))
             (refresh_tokens db1) = false ->
     is_success
       (fst (AuthService.authenticate_user L env'
               (LoginRequestSchema.Build (UserCreateSchema.email data)
                                         (UserCreateSchema.password data)) db1))
     = true)
    /\ (forall wrong,
           bcrypt_checkpw L wrong h = inr false ->
           AuthService.authenticate_user L env'
             (LoginRequestSchema.Build (UserCreateSchema.email data) wrong) db1
           = (Failure "Invalid email or password", db1)).
Proof.
  intros L env env' data db h FK Ok H db1.
  assert (Shape : exists user,
             AuthService.register_session L env data db = inr (user, db1)
             /\ find (AuthService.email_or_username data) (users db) = None).
  { subst db1. revert Ok. unfold AuthService.register_user.
    destruct (AuthService.first_email_or_username data (users db)) as [y|] eqn:F.
    { destruct (User.email y =? UserCreateSchema.email data); discriminate. }
    apply first_match_none in F.
    destruct (AuthService.register_session L env data db) as [e|[user db2]];
      [discriminate | ].
    destruct (to_dict db2 user); [discriminate | ]. simpl. eauto. }
  destruct Shape as (user & S & NoMatch).
  pose proof (registered_roles L env data db db1 user FK S) as Roles.
  destruct (register_session_ok _ _ _ _ _ _ S) as [h' (H' & User & Us & Rs & Ts & _)].
  assert (h' = h) by congruence. subst h'.
  assert (Found : forall pw,
             user_by_email
               (LoginRequestSchema.email
                  (LoginRequestSchema.Build (UserCreateSchema.email data) pw)) db1
             = Some user).
  { intros pw. unfold user_by_email. rewrite Us. simpl. rewrite find_app_skip.
    - simpl. rewrite User. simpl. rewrite String.eqb_refl. reflexivity.
    - apply find_none_iff. intros x I. apply (find_none _ _ NoMatch) in I.
      apply orb_false_iff in I. tauto. }
  assert (Hash : User.password_hash user = h) by (rewrite User; reflexivity).
  assert (Id : User.id user = uuid4 env 0) by (rewrite User; reflexivity).
  assert (Active : User.is_active user = true) by (rewrite User; reflexivity).
  split.
  - intros Chk FreshId FreshTok.
    unfold AuthService.authenticate_user. rewrite Found. simpl.
    unfold check_password. rewrite Hash, Chk. simpl. rewrite Active. simpl.
    assert (Names : exists names, role_names (get_roles db1 user) = inr names).
    { rewrite Roles. destruct (role_by_name "user" db) as [r|] eqn:R.
      - unfold role_by_name in R. apply find_some in R. destruct R as [I _].
        unfold get_role.
        destruct (find_first_match (fun x => Role.id x =? Role.id r) (roles db) r I
                                   (String.eqb_refl _)) as [r' ->].
        simpl. eauto.
      - simpl. eauto. }
    destruct Names as [names Names]. rewrite Names. simpl.
    rewrite insert_refresh_token_fresh; simpl; rewrite ?Id; try assumption.
    simpl. unfold to_dict.
    change (get_roles (set_refresh_tokens _ db1) user) with (get_roles db1 user).
    rewrite Names. reflexivity.
  - intros wrong Chk. unfold AuthService.authenticate_user. rewrite Found. simpl.
    unfold check_password. rewrite Hash, Chk. reflexivity.
Qed.

(** Carol registers and logs in with her password; ["Wr0ngPass"] is
    refused. *)
Lemma registered_user_can_log_in_witness :
  is_success
    (fst (AuthService.authenticate_user Sample.lib (Sample.env 800 "m")
            (LoginRequestSchema.Build "carol@example.com" "Passw0rd")
            (snd (AuthService.register_user Sample.lib (Sample.env 700 "n")
                    Sample.carol Sample.db)))) = true
  /\ fst (AuthService.authenticate_user Sample.lib (Sample.env 800 "m")
            (LoginRequestSchema.Build "carol@example.com" "Wr0ngPass")
            (snd (AuthService.register_user Sample.lib (Sample.env 700 "n")
                    Sample.carol Sample.db)))
     = Failure "Invalid email or password".
Proof.
  destruct (registered_user_can_log_in Sample.lib (Sample.env 700 "n")
              (Sample.env 800 "m") Sample.carol Sample.db "$2b$Passw0rd"
              eq_refl eq_refl eq_refl) as [Right Wrong].
  split.
  - apply Right; reflexivity.
  - exact (f_equal fst (Wrong "Wr0ngPass" eq_refl)).
Defined.

(** ** The services keep the schema *)

Lemma key_stored {A} (key : A -> string) (k : string) (l : list A) :
  existsb (fun x => key x =? k) l = true <-> In k (map key l).
Proof.
  rewrite existsb_exists, in_map_iff. split.
  - intros [x [I E]]. apply String.eqb_eq in E. eauto.
  - intros [x [E I]]. exists x. split; [exact I | ]. apply String.eqb_eq. exact E.
Qed.

Lemma key_unused {A} (key : A -> string) (k : string) (l : list A) :
  existsb (fun x => key x =? k) l = false -> ~ In k (map key l).
Proof.
  intros E I. apply key_stored in I. congruence.
Qed.

Lemma NoDup_snoc {A} (l : list A) (x : A) :
  NoDup l -> ~ In x l -> NoDup (l ++ [x]).
Proof.
  intros N I. apply (Permutation_NoDup (l := x :: l)).
  - apply Permutation_cons_append.
  - constructor; assumption.
Qed.

Lemma user_roles_resolve_spec (db : DB) :
  user_roles_resolve db = true
  <-> forall ur, In ur (user_roles db) ->
                 In (UserRole.user_id ur) (map User.id (users db))
                 /\ In (UserRole.role_id ur) (map Role.id (roles db)).
Proof.
  unfold user_roles_resolve. rewrite forallb_forall.
  split; intros H ur I; specialize (H ur I).
  - apply andb_true_iff in H. rewrite !key_stored in H. exact H.
  - apply andb_true_iff. rewrite !key_stored. exact H.
Qed.

Lemma tokens_resolve_spec (db : DB) :
  tokens_resolve db = true
  <-> forall t, In t (refresh_tokens db) ->
                In (RefreshToken.user_id t) (map User.id (users db)).
Proof.
  unfold tokens_resolve. rewrite forallb_forall.
  split; intros H t I; specialize (H t I).
  - apply key_stored in H. exact H.
  - apply key_stored. exact H.
Qed.

Lemma schema_insert_user (u : User.t) (db db' : DB) :
  schema_ok db -> insert_user u db = inr db' -> schema_ok db'.
Proof.
  intros [A B C D E F G H I J] Ins.
  pose proof (insert_user_fresh _ _ _ Ins) as (Fi & Fe & Fu).
  apply insert_user_ok in Ins. subst db'.
  constructor; simpl; auto.
  - rewrite map_app. apply NoDup_snoc; [exact A | ]. apply key_unused. exact Fi.
  - rewrite map_app. apply NoDup_snoc; [exact B | ]. apply key_unused. exact Fe.
  - rewrite map_app. apply NoDup_snoc; [exact C | ]. apply key_unused. exact Fu.
  - apply user_roles_resolve_spec. simpl. intros ur Iu.
    destruct (proj1 (user_roles_resolve_spec db) I ur Iu) as [Hu Hr].
    split; [ | exact Hr]. rewrite map_app. apply in_or_app. auto.
  - apply tokens_resolve_spec. simpl. intros t It.
    rewrite map_app. apply in_or_app. left.
    exact (proj1 (tokens_resolve_spec db) J t It).
Qed.

Lemma schema_insert_role (r : Role.t) (db db' : DB) :
  schema_ok db -> insert_role r db = inr db' -> schema_ok db'.
Proof.
  intros [A B C D E F G H I J] Ins.
  assert (Fi : existsb (fun x => Role.id x =? Role.id r) (roles db) = false).
  { unfold insert_role in Ins.
    destruct (existsb (fun x => Role.id x =? Role.id r) (roles db));
      [discriminate | reflexivity]. }
  apply insert_role_ok in Ins. destruct Ins as [-> Fn].
  constructor; simpl; auto.
  - rewrite map_app. apply NoDup_snoc; [exact D | ]. apply key_unused. exact Fi.
  - unfold unique_role_names. simpl. rewrite map_app.
    apply NoDup_snoc; [exact E | exact Fn].
  - apply user_roles_resolve_spec. simpl. intros ur Iu.
    destruct (proj1 (user_roles_resolve_spec db) I ur Iu) as [Hu Hr].
    split; [exact Hu | ]. rewrite map_app. apply in_or_app. auto.
Qed.

Lemma schema_insert_user_role (ur : UserRole.t) (db db' : DB) :
  schema_ok db ->
  In (UserRole.user_id ur) (map User.id (users db)) ->
  In (UserRole.role_id ur) (map Role.id (roles db)) ->
  insert_user_role ur db = inr db' -> schema_ok db'.
Proof.
  intros [A B C D E F G H I J] Hu Hr Ins.
  assert (Fresh : ~ In (assignment_key ur) (map assignment_key (user_roles db))).
  { unfold insert_user_role in Ins.
    destruct (existsb _ (user_roles db)) eqn:X; [discriminate | ].
    intros In'. apply in_map_iff in In'. destruct In' as [x [K Ix]].
    assert (existsb (same_assignment (UserRole.user_id ur) (UserRole.role_id ur))
                    (user_roles db) = true).
    { apply existsb_exists. exists x. split; [exact Ix | ].
      apply assignment_key_spec. exact K. }
    congruence. }
  apply insert_user_role_ok in Ins. subst db'.
  constructor; simpl; auto.
  - rewrite map_app. apply NoDup_snoc; assumption.
  - apply user_roles_resolve_spec. simpl. intros x Ix.
    apply in_app_or in Ix. destruct Ix as [Ix|[<-|[]]]; [ | auto].
    exact (proj1 (user_roles_resolve_spec db) I x Ix).
Qed.

Lemma schema_insert_refresh_token (t : RefreshToken.t) (db db' : DB) :
  schema_ok db ->
  In (RefreshToken.user_id t) (map User.id (users db)) ->
  insert_refresh_token t db = inr db' -> schema_ok db'.
Proof.
  intros [A B C D E F G H I J] Hu Ins.
  apply insert_refresh_token_inv in Ins. destruct Ins as (-> & Fi & Fh).
  constructor; simpl; auto.
  - rewrite map_app. apply NoDup_snoc; [exact G | ]. apply key_unused. exact Fi.
  - unfold unique_token_hashes. simpl. rewrite map_app.
    apply NoDup_snoc; [exact H | ]. apply key_unused. exact Fh.
  - apply tokens_resolve_spec. simpl. intros x Ix.
    apply in_app_or in Ix. destruct Ix as [Ix|[<-|[]]]; [ | exact Hu].
    exact (proj1 (tokens_resolve_spec db) J x Ix).
Qed.

Lemma in_update_first {A} (p : A -> bool) (f : A -> A) (l : list A) (y : A) :
  In y (update_first p f l) -> In y l \/ exists x, In x l /\ y = f x.
Proof.
  induction l as [|a l IH]; simpl; [tauto | ].
  destruct (p a); simpl.
  - intros [<-|I]; [right; eauto | auto].
  - intros [<-|I]; [auto | ]. destruct (IH I) as [|[x [Ix E]]]; [auto | ].
    right. eauto.
Qed.

Lemma schema_revoke (p : RefreshToken.t -> bool) (db : DB) :
  schema_ok db ->
  schema_ok (set_refresh_tokens
               (update_first p RefreshToken.revoke (refresh_tokens db)) db).
Proof.
  intros [A B C D E F G H I J].
  constructor; simpl; auto.
  - rewrite map_update_first by reflexivity. exact G.
  - unfold unique_token_hashes. simpl.
    rewrite map_update_first by reflexivity. exact H.
  - apply tokens_resolve_spec. simpl. intros t It.
    apply in_update_first in It. destruct It as [It|[x [Ix ->]]].
    + exact (proj1 (tokens_resolve_spec db) J t It).
    + exact (proj1 (tokens_resolve_spec db) J x Ix).
Qed.

Lemma map_replace_first {A B} (key : A -> B) (p : A -> bool) (l : list A) (x y : A) :
  find p l = Some x -> key y = key x ->
  map key (update_first p (fun _ => y) l) = map key l.
Proof.
  induction l as [|a l IH]; simpl; [discriminate | ].
  destruct (p a); simpl.
  - intros [= <-] K. rewrite K. reflexivity.
  - intros F K. rewrite (IH F K). reflexivity.
Qed.

Lemma schema_replace_user (p : User.t -> bool) (db : DB) (x y : User.t) :
  schema_ok db ->
  find p (users db) = Some x ->
  User.id y = User.id x -> User.email y = User.email x ->
  User.username y = User.username x ->
  schema_ok (set_users (update_first p (fun _ => y) (users db)) db).
Proof.
  intros [A B C D E F G H I J] Fx Ki Ke Ku.
  constructor; simpl; auto.
  - rewrite (map_replace_first User.id p _ x y Fx Ki). exact A.
  - rewrite (map_replace_first User.email p _ x y Fx Ke). exact B.
  - rewrite (map_replace_first User.username p _ x y Fx Ku). exact C.
  - apply user_roles_resolve_spec. simpl.
    rewrite (map_replace_first User.id p _ x y Fx Ki).
    exact (proj1 (user_roles_resolve_spec db) I).
  - apply tokens_resolve_spec. simpl.
    rewrite (map_replace_first User.id p _ x y Fx Ki).
    exact (proj1 (tokens_resolve_spec db) J).
Qed.

Lemma in_delete_first {A} (p : A -> bool) (l : list A) (y : A) :
  In y (delete_first p l) -> In y l.
Proof.
  induction l as [|a l IH]; simpl; [tauto | ].
  destruct (p a); simpl; [auto | ]. intros [<-|I]; auto.
Qed.

Lemma NoDup_map_delete_first {A B} (key : A -> B) (p : A -> bool) (l : list A) :
  NoDup (map key l) -> NoDup (map key (delete_first p l)).
Proof.
  induction l as [|a l IH]; simpl; intros N; [constructor | ].
  inversion N as [|? ? Na N']; subst.
  destruct (p a); simpl; [exact N' | ].
  constructor; [ | exact (IH N')].
  intros I. apply Na. apply in_map_iff in I. destruct I as [x [K Ix]].
  apply in_map_iff. exists x. split; [exact K | ].
  exact (in_delete_first p l x Ix).
Qed.

Lemma schema_delete_assignment (p : UserRole.t -> bool) (db : DB) :
  schema_ok db ->
  schema_ok (set_user_roles (delete_first p (user_roles db)) db).
Proof.
  intros [A B C D E F G H I J].
  constructor; simpl; auto.
  - apply NoDup_map_delete_first. exact F.
  - apply user_roles_resolve_spec. simpl. intros ur Iu.
    apply in_delete_first in Iu.
    exact (proj1 (user_roles_resolve_spec db) I ur Iu).
Qed.

Lemma found_user_id (p : User.t -> bool) (db : DB) (user : User.t) :
  find p (users db) = Some user -> In (User.id user) (map User.id (users db)).
Proof. intros F. apply find_some in F. apply in_map. tauto. Qed.

Lemma schema_seed_roles (env : Env) (specs : list (string * string * dict)) :
  forall (k : nat) (db db' : DB),
    schema_ok db -> AuthService.seed_roles env k specs db = inr db' -> schema_ok db'.
Proof.
  induction specs as [|[[name description] permissions] rest IH]; intros k db db' Ok;
    simpl.
  - intros [= <-]. exact Ok.
  - destruct (role_by_name name db); [apply IH; exact Ok | ].
    destruct (insert_role _ db) as [e|db1] eqn:Ins; simpl; [discriminate | ].
    apply IH. exact (schema_insert_role _ _ _ Ok Ins).
Qed.

Lemma schema_register (L : Lib) (env : Env) (data : UserCreateSchema.t) (db : DB) :
  schema_ok db -> schema_ok (snd (AuthService.register_user L env data db)).
Proof.
  intros Ok. unfold AuthService.register_user.
  destruct (AuthService.first_email_or_username data (users db)) as [y|].
  { destruct (User.email y =? UserCreateSchema.email data); exact Ok. }
  destruct (AuthService.register_session L env data db) as [e|[user db2]] eqn:S;
    [exact Ok | ].
  assert (Ok2 : schema_ok db2).
  { revert S. unfold AuthService.register_session, set_password.
    destruct (bcrypt_hashpw L (UserCreateSchema.password data) (gensalt env))
      as [e|h]; simpl; [discriminate | ].
    destruct (insert_user _ db) as [e|db1] eqn:I1; simpl; [discriminate | ].
    pose proof (schema_insert_user _ _ _ Ok I1) as Ok1.
    apply insert_user_ok in I1.
    destruct (role_by_name "user" db1) as [r|] eqn:R.
    - destruct (insert_user_role _ db1) as [e|db2'] eqn:I2; simpl; [discriminate | ].
      intros [= _ <-]. apply (schema_insert_user_role _ _ _ Ok1) in I2; auto.
      + simpl. subst db1. simpl. rewrite map_app. apply in_or_app. right.
        simpl. auto.
      + simpl. unfold role_by_name in R. apply find_some in R.
        apply in_map. tauto.
    - simpl. intros [= _ <-]. exact Ok1. }
  destruct (to_dict db2 user); exact Ok2.
Qed.

Lemma schema_login (L : Lib) (env : Env) (login : LoginRequestSchema.t) (db : DB) :
  schema_ok db -> schema_ok (snd (AuthService.authenticate_user L env login db)).
Proof.
  intros Ok. unfold AuthService.authenticate_user.
  destruct (user_by_email (LoginRequestSchema.email login) db) as [user|] eqn:U;
    simpl; [ | exact Ok].
  destruct (check_password L user _) as [e|[|]]; simpl; try exact Ok.
  destruct (User.is_active user); simpl; [ | exact Ok].
  destruct (role_names (get_roles db user)); simpl; [exact Ok | ].
  destruct (insert_refresh_token _ db) as [e|db1] eqn:I; simpl; [exact Ok | ].
  assert (Ok1 : schema_ok db1).
  { apply (schema_insert_refresh_token _ _ _ Ok) in I; [exact I | ].
    simpl. exact (found_user_id _ db user U). }
  destruct (to_dict db1 user); exact Ok1.
Qed.

Lemma schema_refresh (L : Lib) (env : Env) (tok : string) (db : DB) :
  schema_ok db -> schema_ok (snd (AuthService.refresh_access_token L env tok db)).
Proof.
  intros Ok. unfold AuthService.refresh_access_token.
  destruct (decode_token L (now env) tok) as [e|d]; simpl; [exact Ok | ].
  destruct (find _ (refresh_tokens db)) as [stored|]; [ | exact Ok].
  destruct (RefreshToken.is_valid (now env) stored); simpl; [ | exact Ok].
  destruct (get_user (sub d) db) as [user|] eqn:U; [ | exact Ok].
  destruct (User.is_active user); simpl; [ | exact Ok].
  destruct (role_names (get_roles db user)); simpl; [exact Ok | ].
  destruct (insert_refresh_token _ _) as [e|db2] eqn:I; simpl; [exact Ok | ].
  apply (schema_insert_refresh_token _ _ _ (schema_revoke _ db Ok)) in I;
    [exact I | ].
  simpl. exact (found_user_id _ db user U).
Qed.

Lemma schema_logout (L : Lib) (tok : string) (db : DB) :
  schema_ok db -> schema_ok (snd (AuthService.logout_user L tok db)).
Proof.
  intros Ok. destruct (utf8_encodable tok) eqn:E.
  - rewrite (logout_user_encodable L tok db E).
    destruct (find _ (refresh_tokens db)); simpl; [ | exact Ok].
    apply schema_revoke. exact Ok.
  - rewrite (logout_user_unencodable L tok db E). exact Ok.
Qed.

Lemma schema_update_password (L : Lib) (env : Env) (user_id current new : string)
      (db : DB) :
  schema_ok db ->
  schema_ok (snd (AuthService.update_user_password L env user_id current new db)).
Proof.
  intros Ok. unfold AuthService.update_user_password.
  destruct (get_user user_id db) as [user|] eqn:U; simpl; [ | exact Ok].
  destruct (check_password L user current) as [e|[|]]; simpl; try exact Ok.
  unfold set_password.
  destruct (bcrypt_hashpw L new (gensalt env)) as [e|h]; simpl; [exact Ok | ].
  apply (schema_replace_user _ db user); auto.
Qed.

Lemma schema_create_role (env : Env) (name : string) (description : option string)
      (permissions : option dict) (db : DB) :
  schema_ok db ->
  schema_ok (snd (RoleService.create_role env name description permissions db)).
Proof.
  intros Ok. unfold RoleService.create_role.
  destruct (role_by_name name db); [exact Ok | ].
  destruct (insert_role _ db) as [e|db'] eqn:I; simpl; [exact Ok | ].
  exact (schema_insert_role _ _ _ Ok I).
Qed.

Lemma schema_assign (env : Env) (user_id role_id : string) (db : DB) :
  schema_ok db ->
  schema_ok (snd (RoleService.assign_role_to_user env user_id role_id db)).
Proof.
  intros Ok. unfold RoleService.assign_role_to_user.
  destruct (get_user user_id db) as [user|] eqn:U; [ | exact Ok].
  destruct (get_role role_id db) as [role|] eqn:R; [ | exact Ok].
  destruct (find _ (user_roles db)); [exact Ok | ].
  destruct (insert_user_role _ db) as [e|db'] eqn:I; simpl; [exact Ok | ].
  apply (schema_insert_user_role _ _ _ Ok) in I; [exact I | | ]; simpl.
  - unfold get_user in U. apply find_some in U. destruct U as [Iu E].
    apply String.eqb_eq in E. rewrite <- E. apply in_map. exact Iu.
  - unfold get_role in R. apply find_some in R. destruct R as [Ir E].
    apply String.eqb_eq in E. rewrite <- E. apply in_map. exact Ir.
Qed.

Lemma schema_perform (L : Lib) (env : Env) (call : Call) (db : DB) :
  schema_ok db -> schema_ok (perform L env call db).
Proof.
  intros Ok. destruct call; simpl.
  - apply schema_register. exact Ok.
  - apply schema_login. exact Ok.
  - apply schema_refresh. exact Ok.
  - apply schema_logout. exact Ok.
  - apply schema_update_password. exact Ok.
  - unfold AuthService.create_default_roles.
    destruct (AuthService.seed_roles env 0 AuthService.default_roles db)
      as [e|db'] eqn:S; simpl; [exact Ok | ].
    exact (schema_seed_roles _ _ _ _ _ Ok S).
  - apply schema_create_role. exact Ok.
  - apply schema_assign. exact Ok.
  - unfold RoleService.remove_role_from_user.
    destruct (find _ (user_roles db)); simpl; [ | exact Ok].
    apply schema_delete_assignment. exact Ok.
Qed.

(** X1: The services keep the schema. From a store in which ids, emails,
    usernames, role ids, role names, assignment pairs, token ids and token
    hashes are unique and every assignment and token names a stored user
    (and role), any sequence of calls to register, login, refresh, logout,
    change of password, seeding, role creation, assignment and removal,
    whatever each one answers and whatever the clock, [uuid4] and the
    libraries return, ends in a store that has all those properties again:
    the unique columns through the checks every insert undergoes, the
    foreign keys, which nothing enforces, through the lookups the services
    make before they write and through never deleting a user or a role. *)
Theorem services_keep_schema :
  forall (L : Lib) (calls : list (Env * Call)) (db : DB),
    schema_ok db -> schema_ok (perform_all L calls db).
Proof.
  intros L calls. induction calls as [|[env call] rest IH]; intros db Ok; simpl.
  - exact Ok.
  - apply IH. apply schema_perform. exact Ok.
Qed.

Lemma sample_schema_ok : schema_ok Sample.db.
Proof.
  constructor; try reflexivity; unfold unique_role_names, unique_token_hashes;
    simpl; distinct_strings.
Qed.

(** The sample calls run, each one writes, and the schema holds at the
    end. *)
Lemma services_keep_schema_witness :
  schema_ok (perform_all Sample.lib sample_calls Sample.db)
  /\ map User.username (users (perform_all Sample.lib sample_calls Sample.db))
     = ["alice"; "bob"; "carol"]
  /\ map Role.name (roles (perform_all Sample.lib sample_calls Sample.db))
     = ["admin"; "user"; "analyst"; "auditor"]
  /\ map assignment_key (user_roles (perform_all Sample.lib sample_calls Sample.db))
     = [("u-bob", "r-user"); ("n0", "r-user"); ("n0", "r0")]
  /\ map RefreshToken.is_revoked
         (refresh_tokens (perform_all Sample.lib sample_calls Sample.db))
     = [true; false; true].
Proof.
  split.
  - exact (services_keep_schema Sample.lib sample_calls Sample.db sample_schema_ok).
  - repeat split.
Defined.

(** ** Seeding, continued *)

Lemma seed_roles_appends (env : Env) (specs : list (string * string * dict)) :
  forall (k : nat) (db db' : DB),
    AuthService.seed_roles env k specs db = inr db' ->
    exists added,
      roles db' = (roles db ++ added)%list
      /\ Forall (fun r => seeded_from env specs r
                          /\ ~ In (Role.name r) (map Role.name (roles db))) added.
Proof.
  induction specs as [|[[name description] permissions] rest IH]; intros k db db';
    simpl.
  - intros [= <-]. exists []. rewrite app_nil_r. auto.
  - destruct (role_by_name name db).
    + intros S. destruct (IH _ _ _ S) as [added [E F]]. exists added.
      split; [exact E | ]. eapply Forall_impl; [ | exact F].
      intros r [(k' & n & d & p & I & ->) N]. split; [ | exact N].
      exists k', n, d, p. simpl. auto.
    + destruct (insert_role _ db) as [e|db1] eqn:Ins; simpl; [discriminate | ].
      apply insert_role_ok in Ins. destruct Ins as [-> Fresh]. simpl in Fresh.
      intros S. destruct (IH _ _ _ S) as [added [E F]]. simpl in E.
      eexists (_ :: added). split.
      * rewrite E, <- app_assoc. reflexivity.
      * constructor.
        -- split; [ | exact Fresh]. exists k, name, description, permissions.
           simpl. auto.
        -- eapply Forall_impl; [ | exact F].
           intros r [(k' & n & d & p & I & ->) N]. simpl in *. split.
           ++ exists k', n, d, p. simpl. auto.
           ++ intros I'. apply N. rewrite map_app. apply in_or_app. auto.
Qed.

(** X14: [create_default_roles] only appends. A failure leaves the store as it
    is (a run that stops half-way inserts nothing). A success keeps every
    stored role, in place and unchanged, and adds behind them only listed
    defaults whose names were missing, each with the description and the
    permission map of the list; afterwards the three names are all there.
    Users, assignments and tokens are never touched. *)
Theorem create_default_roles_only_appends :
  forall (env : Env) (db : DB),
    let out := AuthService.create_default_roles env db in
    users (snd out) = users db
    /\ user_roles (snd out) = user_roles db
    /\ refresh_tokens (snd out) = refresh_tokens db
    /\ (is_success (fst out) = false -> snd out = db)
    /\ (is_success (fst out) = true ->
        (forall n, In n default_role_names -> In n (map Role.name (roles (snd out))))
        /\ exists added,
            roles (snd out) = (roles db ++ added)%list
            /\ Forall (fun r => seeded_from env AuthService.default_roles r
                                /\ ~ In (Role.name r) (map Role.name (roles db)))
                      added).
Proof.
  intros env db out. subst out. unfold AuthService.create_default_roles.
  destruct (AuthService.seed_roles env 0 AuthService.default_roles db)
    as [e|db'] eqn:S; cbn [fst snd is_success].
  - split; [reflexivity | ]. split; [reflexivity | ]. split; [reflexivity | ].
    split; [reflexivity | discriminate].
  - destruct (seed_roles_done _ _ _ _ _ S) as (_ & All & _ & Us & Urs & Ts).
    split; [exact Us | ]. split; [exact Urs | ]. split; [exact Ts | ].
    split; [discriminate | ]. intros _. split.
    + intros n I. unfold default_role_names in I. apply in_map_iff in I.
      destruct I as [spec [<- I]]. apply All. exact I.
    + exact (seed_roles_appends _ _ _ _ _ S).
Qed.

(** On a store that holds only the role [user], edited by hand, a run adds
    [admin] and [analyst] behind it and leaves the edited row as it is. *)
Lemma create_default_roles_appends_witness :
  roles (snd (AuthService.create_default_roles (Sample.env 5 "s")
                (set_roles [Role.Build "s9" "user" None [("profile", JList [])] 1]
                           Sample.empty_db)))
  = [Role.Build "s9" "user" None [("profile", JList [])] 1;
     Role.Build "s0" "admin" (Some "Administrator with full system access")
       [("users", JList [JStr "create"; JStr "read"; JStr "update"; JStr "delete"]);
        ("roles", JList [JStr "create"; JStr "read"; JStr "update"; JStr "delete"]);
        ("system", JList [JStr "manage"; JStr "configure"])] 5;
     Role.Build "s1" "analyst" (Some "Data analyst with analytics access")
       [("profile", JList [JStr "read"; JStr "update"]);
        ("analytics", JList [JStr "create"; JStr "read"; JStr "update"; JStr "delete"]);
        ("reports", JList [JStr "create"; JStr "read"; JStr "update"; JStr "delete"])]
       5]
  /\ users (snd (AuthService.create_default_roles (Sample.env 5 "s") Sample.db))
     = users Sample.db.
Proof.
  split; [reflexivity | ].
  exact (proj1 (create_default_roles_only_appends (Sample.env 5 "s") Sample.db)).
Defined.

(** ** The session routes *)

Lemma dict_get_contains (key : string) (d : dict) (v : json) :
  dict_get key d = Some v -> dict_contains key d = true.
Proof.
  unfold dict_get, dict_contains.
  destruct (find (fun kv => key =? fst kv) d) as [kv|] eqn:F; [ | discriminate].
  intros _. apply find_some in F. apply existsb_exists. eauto.
Qed.

Lemma dict_get_truthy (key : string) (d : dict) (v : json) :
  dict_get key d = Some v -> truthy (JDict d) = true.
Proof. destruct d; [discriminate | reflexivity]. Qed.

Lemma has_refresh_token (d : dict) (v : json) :
  dict_get "refresh_token" d = Some v ->
  SessionRoutes.lacks_refresh_token (JDict d) = inr false.
Proof.
  intros G. unfold SessionRoutes.lacks_refresh_token.
  rewrite (dict_get_truthy _ _ _ G). simpl.
  unfold dict in *. rewrite (dict_get_contains _ _ _ G). reflexivity.
Qed.

(** X17: Logout, then refresh, through the routes. For a body that carries
    under ["refresh_token"] a string that UTF-8 encodes, [POST
    /auth/logout] answers 200 with the same message whether a row carries
    the token or not, and writes what [logout_user] writes; on a store
    with unique token hashes, [POST /auth/refresh] with that body is then
    answered 401 and writes nothing. For a string with a lone surrogate,
    on which [encode()] raises inside the service, logout answers 400 and
    writes nothing. *)
Theorem logout_route_then_refresh_route :
  forall (L : Lib) (env : Env) (d : dict) (tok : string) (db : DB),
    unique_token_hashes db ->
    dict_get "refresh_token" d = Some (JStr tok) ->
    (utf8_encodable tok = true ->
     let db1 := snd (AuthService.logout_user L tok db) in
     SessionRoutes.logout L (JDict d) db
     = ((SessionRoutes.MessageBody "Logged out successfully", 200%Z), db1)
     /\ exists error,
         SessionRoutes.refresh L env (JDict d) db1
         = ((SessionRoutes.ErrorBody error, 401%Z), db1))
    /\ (utf8_encodable tok = false ->
        exists error,
          SessionRoutes.logout L (JDict d) db
          = ((SessionRoutes.ErrorBody error, 400%Z), db)).
Proof.
  intros L env d tok db U G. split.
  - intros Enc db1. split.
    + unfold SessionRoutes.logout. rewrite (has_refresh_token d _ G). simpl.
      unfold dict in *. rewrite G. simpl.
      subst db1. rewrite (logout_user_encodable L tok db Enc).
      destruct (find _ (refresh_tokens db)); reflexivity.
    + unfold SessionRoutes.refresh. rewrite (has_refresh_token d _ G). simpl.
      unfold TokenRefreshSchema.validate. unfold dict in *. rewrite G.
      destruct (refresh_fails_when_revoked L env tok db1
                  (logout_revokes_hash_rows L tok db U Enc))
        as (error & Fails & _).
      simpl. rewrite Fails. simpl. exists error. reflexivity.
  - intros Enc. unfold SessionRoutes.logout. rewrite (has_refresh_token d _ G).
    simpl. unfold dict in *. rewrite G. simpl.
    rewrite (logout_user_unencodable L tok db Enc).
    eexists. reflexivity.
Qed.

(** Alice logs out through the route and her token is then answered 401; a
    token made of the bytes of the lone surrogate U+D800 is answered
    400. *)
Lemma logout_route_witness :
  SessionRoutes.logout Sample.lib
    (JDict [("refresh_token", JStr Sample.alice_token)]) Sample.db
  = ((SessionRoutes.MessageBody "Logged out successfully", 200%Z),
     set_refresh_tokens [RefreshToken.revoke Sample.alice_row] Sample.db)
  /\ snd (fst (SessionRoutes.refresh Sample.lib (Sample.env 200 "a")
                 (JDict [("refresh_token", JStr Sample.alice_token)])
                 (set_refresh_tokens [RefreshToken.revoke Sample.alice_row]
                                     Sample.db)))
     = 401%Z
  /\ snd (fst (SessionRoutes.logout Sample.lib
                 (JDict [("refresh_token", JStr lone_surrogate)]) Sample.db))
     = 400%Z.
Proof.
  assert (U : unique_token_hashes Sample.db).
  { unfold unique_token_hashes. simpl. distinct_strings. }
  destruct (logout_route_then_refresh_route Sample.lib (Sample.env 200 "a")
              [("refresh_token", JStr Sample.alice_token)] Sample.alice_token
              Sample.db U eq_refl) as (Encodable & _).
  destruct (Encodable eq_refl) as (Out & error & Refused).
  destruct (logout_route_then_refresh_route Sample.lib (Sample.env 200 "a")
              [("refresh_token", JStr lone_surrogate)] lone_surrogate
              Sample.db U eq_refl) as (_ & Surrogate).
  destruct (Surrogate eq_refl) as (error' & Bad).
  split; [exact Out | split].
  - exact (f_equal (fun r => snd (fst r)) Refused).
  - exact (f_equal (fun r => snd (fst r)) Bad).
Defined.

(** X18: What the session routes do with a parsed body they cannot use.
    For the JSON body [null], for an empty dict, or for a dict that lacks
    ["refresh_token"], refresh and logout answer 400 ["Refresh token
    required"]. When the value under the key is not a string, refresh
    answers the 400 of the schema and logout the 400 of the service, whose
    own handler caught the error. A list that holds the string
    ["refresh_token"] passes the presence test of both and is answered
    500. None of these writes. (A request whose body [get_json()] cannot
    parse is not among these: there [get_json()] itself raises.) *)
Theorem session_routes_on_malformed_bodies :
  forall (L : Lib) (env : Env) (db : DB),
    (forall data,
        data = JNull \/ data = JDict [] ->
        SessionRoutes.refresh L env data db
        = ((SessionRoutes.ErrorBody "Refresh token required", 400%Z), db)
        /\ SessionRoutes.logout L data db
           = ((SessionRoutes.ErrorBody "Refresh token required", 400%Z), db))
    /\ (forall d,
           d <> [] -> dict_get "refresh_token" d = None ->
           SessionRoutes.refresh L env (JDict d) db
           = ((SessionRoutes.ErrorBody "Refresh token required", 400%Z), db)
           /\ SessionRoutes.logout L (JDict d) db
              = ((SessionRoutes.ErrorBody "Refresh token required", 400%Z), db))
    /\ (forall d v,
           dict_get "refresh_token" d = Some v ->
           (forall s, v <> JStr s) ->
           SessionRoutes.refresh L env (JDict d) db
           = ((SessionRoutes.ValidationBody, 400%Z), db)
           /\ SessionRoutes.logout L (JDict d) db
              = ((SessionRoutes.ErrorBody
                    ("Logout failed: '" ++ SessionRoutes.type_name v
                     ++ "' object has no attribute 'encode'"), 400%Z), db))
    /\ (forall l,
           In (JStr "refresh_token") l ->
           snd (fst (SessionRoutes.refresh L env (JList l) db)) = 500%Z
           /\ snd (SessionRoutes.refresh L env (JList l) db) = db
           /\ snd (fst (SessionRoutes.logout L (JList l) db)) = 500%Z
           /\ snd (SessionRoutes.logout L (JList l) db) = db).
Proof.
  intros L env db. split; [ | split; [ | split]].
  - intros data [-> | ->]; split; reflexivity.
  - intros d NE G.
    assert (C : dict_contains "refresh_token" d = false).
    { apply not_true_is_false. intros C. apply dict_contains_spec in C.
      destruct C as [v I]. unfold dict_get in G.
      destruct (find (fun kv => "refresh_token" =? fst kv) d) eqn:F;
        [discriminate | ].
      apply (find_none _ _ F) in I. simpl in I. discriminate. }
    unfold SessionRoutes.refresh, SessionRoutes.logout,
      SessionRoutes.lacks_refresh_token.
    destruct d as [|kv d]; [contradiction | ]. simpl truthy. simpl negb.
    cbv iota. unfold Routes.str_in_json. unfold dict in *. rewrite C.
    split; reflexivity.
  - intros d v G NotStr.
    unfold SessionRoutes.refresh, SessionRoutes.logout.
    rewrite (has_refresh_token d _ G). simpl.
    unfold TokenRefreshSchema.validate. unfold dict in *. rewrite G. simpl.
    destruct v; try (split; reflexivity).
    exfalso. exact (NotStr s eq_refl).
  - intros l I.
    assert (P : existsb (Routes.is_str "refresh_token") l = true).
    { apply existsb_exists. exists (JStr "refresh_token"). split; [exact I | ].
      reflexivity. }
    unfold SessionRoutes.refresh, SessionRoutes.logout,
      SessionRoutes.lacks_refresh_token.
    destruct l as [|j l]; [contradiction | ]. simpl truthy. simpl negb.
    cbv iota. unfold Routes.str_in_json. rewrite P. simpl.
    repeat split.
Qed.

(** The bodies [{"refresh_token": 7}] and [["refresh_token"]] on the
    sample store. *)
Lemma session_routes_malformed_witness :
  SessionRoutes.logout Sample.lib (JDict [("refresh_token", JNum 7)]) Sample.db
  = ((SessionRoutes.ErrorBody
        "Logout failed: 'int' object has no attribute 'encode'", 400%Z), Sample.db)
  /\ snd (fst (SessionRoutes.refresh Sample.lib (Sample.env 200 "a")
                 (JList [JStr "refresh_token"]) Sample.db)) = 500%Z.
Proof.
  pose proof (session_routes_on_malformed_bodies Sample.lib (Sample.env 200 "a")
                Sample.db) as (_ & _ & NotStr & InList).
  split.
  - apply (NotStr [("refresh_token", JNum 7)] (JNum 7) eq_refl). discriminate.
  - apply (InList [JStr "refresh_token"]). simpl. auto.
Defined.

(** ** Role names through the schema and [POST /roles] *)

Lemma lower_char_idem (c : ascii) : Py.lower_char (Py.lower_char c) = Py.lower_char c.
Proof. destruct c as [[] [] [] [] [] [] [] []]; reflexivity. Qed.

Lemma lower_char_alnum (c : ascii) : Py.is_alnum (Py.lower_char c) = Py.is_alnum c.
Proof. destruct c as [[] [] [] [] [] [] [] []]; reflexivity. Qed.

Lemma lower_char_name_char (c : ascii) : name_char (Py.lower_char c) = name_char c.
Proof. destruct c as [[] [] [] [] [] [] [] []]; reflexivity. Qed.

Lemma lower_idem (s : string) : Py.lower (Py.lower s) = Py.lower s.
Proof.
  induction s as [|c s IH]; simpl; [reflexivity | ].
  rewrite lower_char_idem, IH. reflexivity.
Qed.

Lemma well_formed_lower (s : string) :
  well_formed_name (Py.lower s) = well_formed_name s.
Proof.
  unfold well_formed_name. f_equal.
  - induction s as [|c s IH]; simpl; [reflexivity | ].
    rewrite lower_char_name_char, IH. reflexivity.
  - induction s as [|c s IH]; simpl; [reflexivity | ].
    rewrite lower_char_alnum, IH. reflexivity.
Qed.

(** The name without its underscores and hyphens. *)
Lemma stripped_all_alnum (v : string) :
  Py.all_chars Py.is_alnum (Py.remove_char "-" (Py.remove_char "_" v))
  = Py.all_chars name_char v.
Proof.
  induction v as [|c v IH]; simpl; [reflexivity | ].
  unfold name_char at 1.
  destruct (Ascii.eqb c "_") eqn:U.
  - rewrite IH, orb_true_r. reflexivity.
  - simpl. destruct (Ascii.eqb c "-") eqn:H.
    + rewrite IH, orb_true_r. reflexivity.
    + simpl. rewrite IH, !orb_false_r. reflexivity.
Qed.

Lemma stripped_nonempty (v : string) :
  Py.all_chars name_char v = true ->
  match Py.remove_char "-" (Py.remove_char "_" v) with
  | EmptyString => false
  | _ => true
  end = PasswordChangeSchema.any_char Py.is_alnum v.
Proof.
  induction v as [|c v IH]; simpl; [reflexivity | ].
  intros A. apply andb_true_iff in A. destruct A as [Nc A].
  destruct (Ascii.eqb c "_") eqn:U.
  - apply Ascii.eqb_eq in U. subst c. simpl. exact (IH A).
  - simpl. destruct (Ascii.eqb c "-") eqn:H.
    + apply Ascii.eqb_eq in H. subst c. simpl. exact (IH A).
    + unfold name_char in Nc. rewrite U, H, !orb_false_r in Nc.
      rewrite Nc. reflexivity.
Qed.

Lemma validate_name_eq (v : string) :
  RoleCreateSchema.validate_name v
  = if well_formed_name v then Some (Py.lower v) else None.
Proof.
  unfold RoleCreateSchema.validate_name, well_formed_name, Py.isalnum.
  pose proof (stripped_all_alnum v) as A.
  pose proof (stripped_nonempty v) as N.
  destruct (Py.all_chars name_char v) eqn:W.
  - specialize (N eq_refl).
    destruct (Py.remove_char "-" (Py.remove_char "_" v)) as [|c s] eqn:G.
    + rewrite <- N. reflexivity.
    + rewrite <- N. rewrite A. reflexivity.
  - destruct (Py.remove_char "-" (Py.remove_char "_" v)) as [|c s] eqn:G.
    + reflexivity.
    + rewrite A. reflexivity.
Qed.

(** X15: On ASCII text, [RoleCreateSchema.validate_name] accepts exactly the
    names made of letters, digits, underscores and hyphens with a letter or
    digit among them (so not the empty name, and not ["_"] or ["-_-"]),
    and returns the name in lower case. What it returns it accepts again
    unchanged: the normal form is a fixed point. *)
Theorem validate_name_normal_form :
  forall v : string,
    ascii_text v = true ->
    RoleCreateSchema.validate_name v
    = (if well_formed_name v then Some (Py.lower v) else None)
    /\ (forall n, RoleCreateSchema.validate_name v = Some n ->
                  Py.lower n = n /\ RoleCreateSchema.validate_name n = Some n).
Proof.
  intros v _. split; [apply validate_name_eq | ].
  intros n. rewrite validate_name_eq.
  destruct (well_formed_name v) eqn:W; [ | discriminate].
  intros [= <-]. split; [apply lower_idem | ].
  rewrite validate_name_eq, well_formed_lower, W, lower_idem. reflexivity.
Qed.

(** ["Data-Analyst_2"] becomes ["data-analyst_2"]; ["-_-"] and ["a b"]
    are refused. *)
Lemma validate_name_witness :
  RoleCreateSchema.validate_name "Data-Analyst_2" = Some "data-analyst_2"
  /\ RoleCreateSchema.validate_name "data-analyst_2" = Some "data-analyst_2"
  /\ RoleCreateSchema.validate_name "-_-" = None
  /\ RoleCreateSchema.validate_name "a b" = None.
Proof.
  split; [reflexivity | ]. split; [ | split; reflexivity].
  exact (proj2 (proj2 (validate_name_normal_form "Data-Analyst_2" eq_refl)
                  "data-analyst_2" eq_refl)).
Defined.





(** ** [POST /auth/change-password] *)

Lemma field_new_password_eq (d : dict) (v : string) :
  dict_get "new_password" d = Some (JStr v) ->
  PasswordChangeSchema.field_new_password d
  = if strong_password v then Some v else None.
Proof.
  intros G. unfold PasswordChangeSchema.field_new_password, strong_password,
              PasswordChangeSchema.validate_new_password.
  unfold dict in *. rewrite G.
  destruct ((8 <=? String.length v)%nat && (String.length v <=? 128)%nat);
    [ | reflexivity].
  destruct (PasswordChangeSchema.any_char Py.is_upper v); [ | reflexivity].
  destruct (PasswordChangeSchema.any_char Py.is_lower v); [ | reflexivity].
  destruct (PasswordChangeSchema.any_char Py.is_digit v); reflexivity.
Qed.

Lemma update_password_cases (L : Lib) (env : Env) (user_id current new : string)
      (db : DB) :
  refresh_tokens (snd (AuthService.update_user_password L env user_id current new db))
  = refresh_tokens db
  /\ ((exists error,
          AuthService.update_user_password L env user_id current new db
          = (Failure error, db))
      \/ exists message,
          fst (AuthService.update_user_password L env user_id current new db)
          = Success message).
Proof.
  unfold AuthService.update_user_password.
  destruct (get_user user_id db) as [user|]; simpl; [ | eauto].
  destruct (check_password L user current) as [e|[|]]; simpl; eauto.
  unfold set_password.
  destruct (bcrypt_hashpw L new (gensalt env)); simpl; eauto.
Qed.

Lemma value_error_eq (d : dict) (v : string) :
  dict_get "new_password" d = Some (JStr v) ->
  PasswordChangeSchema.value_error d
  = allowed_length v && negb (strong_password v).
Proof.
  intros G. unfold PasswordChangeSchema.value_error, allowed_length,
              strong_password, PasswordChangeSchema.validate_new_password.
  unfold dict in *. rewrite G.
  destruct ((8 <=? String.length v)%nat && (String.length v <=? 128)%nat);
    [ | reflexivity].
  destruct (PasswordChangeSchema.any_char Py.is_upper v); [ | reflexivity].
  destruct (PasswordChangeSchema.any_char Py.is_lower v); [ | reflexivity].
  destruct (PasswordChangeSchema.any_char Py.is_digit v); reflexivity.
Qed.

Lemma validate_passwords (d : dict) (password_data : PasswordChangeSchema.t) :
  PasswordChangeSchema.validate d = Some password_data ->
  dict_get "current_password" d
  = Some (JStr (PasswordChangeSchema.current_password password_data))
  /\ dict_get "new_password" d
     = Some (JStr (PasswordChangeSchema.new_password password_data))
  /\ strong_password (PasswordChangeSchema.new_password password_data) = true.
Proof.
  unfold PasswordChangeSchema.validate,
    PasswordChangeSchema.field_current_password.
  destruct (dict_get "current_password" d) as [[| | |current| |]|];
    try discriminate.
  destruct (dict_get "new_password" d) as [[| | |new| |]|] eqn:N;
    try (unfold PasswordChangeSchema.field_new_password; unfold dict in *;
         rewrite N; discriminate).
  rewrite (field_new_password_eq d new N).
  destruct (strong_password new) eqn:S; [ | discriminate].
  intros [= <-]. simpl. auto.
Qed.

(** The route on a non-empty dict, by the outcome of the schema. *)
Lemma change_password_on_dict (L : Lib) (env : Env) (user_id : string) (d : dict)
      (db : DB) :
  d <> [] ->
  SessionRoutes.change_password L env user_id (JDict d) db
  = match PasswordChangeSchema.validate d with
    | None =>
        if PasswordChangeSchema.value_error d
        then ((SessionRoutes.ErrorBody
                 "Password change failed: Object of type ValueError is not JSON serializable",
               500%Z), db)
        else ((SessionRoutes.ValidationBody, 400%Z), db)
    | Some password_data =>
        match AuthService.update_user_password L env user_id
                (PasswordChangeSchema.current_password password_data)
                (PasswordChangeSchema.new_password password_data) db with
        | (Success message, db') => ((SessionRoutes.MessageBody message, 200%Z), db')
        | (Failure error, db') => ((SessionRoutes.ErrorBody error, 400%Z), db')
        end
    end.
Proof.
  intros NE. destruct d as [|kv d]; [contradiction | ].
  unfold SessionRoutes.change_password. cbn [truthy negb].
  unfold SessionRoutes.unpack, bind, ret. cbv beta iota.
  destruct (PasswordChangeSchema.validate (kv :: d)) as [password_data|].
  - destruct (AuthService.update_user_password L env user_id _ _ db) as [[m|e] db'];
      reflexivity.
  - destruct (PasswordChangeSchema.value_error (kv :: d)); reflexivity.
Qed.

(** X19: [POST /auth/change-password], for a new password in ASCII,
    answers 200, 400 or 500 and writes only with a 200. A new password
    that breaks the rule of the schema is refused before the current
    password is looked at: with the 400 of the schema when it is shorter
    than 8 or longer than 128 characters, and with a 500 when its length
    is allowed and it lacks an uppercase letter, a lowercase letter or a
    digit, because the response cannot carry the [ValueError] of the
    validator. A 200 means the body gave both passwords as strings, the
    new one met the rule and [update_user_password] succeeded. No answer
    touches a refresh-token row: the sessions of the user survive the
    change. *)
Theorem change_password_route_effect :
  forall (L : Lib) (env : Env) (user_id : string) (data : json) (db : DB),
    (forall d v, data = JDict d -> dict_get "new_password" d = Some (JStr v) ->
                 ascii_text v = true) ->
    let out := SessionRoutes.change_password L env user_id data db in
    In (snd (fst out)) [200; 400; 500]%Z
    /\ (snd (fst out) <> 200%Z -> snd out = db)
    /\ refresh_tokens (snd out) = refresh_tokens db
    /\ (forall d v,
           data = JDict d -> d <> [] ->
           dict_get "new_password" d = Some (JStr v) ->
           strong_password v = false ->
           (allowed_length v = false ->
            out = ((SessionRoutes.ValidationBody, 400%Z), db))
           /\ (allowed_length v = true ->
               exists error,
                 out = ((SessionRoutes.ErrorBody
                           ("Password change failed: " ++ error), 500%Z), db)))
    /\ (snd (fst out) = 200%Z ->
        exists d current new,
          data = JDict d
          /\ dict_get "current_password" d = Some (JStr current)
          /\ dict_get "new_password" d = Some (JStr new)
          /\ strong_password new = true
          /\ is_success
               (fst (AuthService.update_user_password L env user_id current new db))
             = true
          /\ snd out
             = snd (AuthService.update_user_password L env user_id current new db)).
Proof.
  intros L env user_id data db _ out. subst out.
  destruct data as [|b|n|s|l|d].
  1-5: (unfold SessionRoutes.change_password; simpl; try destruct (negb _); simpl;
        (split; [tauto | ]; split; [reflexivity | ]; split; [reflexivity | ];
         split; [intros; congruence | discriminate])).
  destruct d as [|kv d].
  { simpl. split; [tauto | ]. split; [reflexivity | ]. split; [reflexivity | ].
    split; [intros d v [= <-] NE; contradiction | discriminate]. }
  set (body := kv :: d).
  assert (NE : body <> []) by discriminate.
  rewrite (change_password_on_dict L env user_id body db NE).
  destruct (PasswordChangeSchema.validate body) as [password_data|] eqn:V.
  - destruct (validate_passwords body password_data V) as (C & N & S).
    set (current := PasswordChangeSchema.current_password password_data) in *.
    set (new := PasswordChangeSchema.new_password password_data) in *.
    destruct (update_password_cases L env user_id current new db)
      as [Tokens [[error E] | [message E]]].
    + rewrite E. simpl. split; [tauto | ]. split; [reflexivity | ].
      split; [reflexivity | ]. split; [ | discriminate].
      intros d' v [= <-] _ G W. unfold dict in *. congruence.
    + destruct (AuthService.update_user_password L env user_id current new db)
        as [r db'] eqn:U. simpl in E, Tokens. subst r. simpl.
      split; [tauto | ]. split; [intros X; contradiction | ].
      split; [exact Tokens | ]. split.
      * intros d' v [= <-] _ G W. unfold dict in *. congruence.
      * intros _. exists body, current, new. rewrite U. simpl.
        repeat split; auto.
  - destruct (PasswordChangeSchema.value_error body) eqn:E; simpl.
    + split; [tauto | ]. split; [reflexivity | ]. split; [reflexivity | ].
      split; [ | discriminate].
      intros d' v [= <-] _ G W. rewrite (value_error_eq body v G), W in E.
      rewrite andb_true_r in E. split; [congruence | ].
      intros _. eexists. reflexivity.
    + split; [tauto | ]. split; [reflexivity | ]. split; [reflexivity | ].
      split; [ | discriminate].
      intros d' v [= <-] _ G W. rewrite (value_error_eq body v G), W in E.
      rewrite andb_true_r in E. split; [reflexivity | congruence].
Qed.

(** Alice posts, with her right current password, a new password without
    a digit: 500; a new password of three characters: 400 from the schema.
    With ["N3wPassw0rd"] she gets 200 and her refresh-token row stays. *)
Lemma change_password_route_witness :
  (exists error,
      SessionRoutes.change_password Sample.lib (Sample.env 500 "p") "u-alice"
        (JDict [("current_password", JStr "Passw0rd");
                ("new_password", JStr "NoDigitsHere")]) Sample.db
      = ((SessionRoutes.ErrorBody ("Password change failed: " ++ error), 500%Z),
         Sample.db))
  /\ SessionRoutes.change_password Sample.lib (Sample.env 500 "p") "u-alice"
       (JDict [("current_password", JStr "Passw0rd");
               ("new_password", JStr "Ab1")]) Sample.db
     = ((SessionRoutes.ValidationBody, 400%Z), Sample.db)
  /\ snd (fst (SessionRoutes.change_password Sample.lib (Sample.env 500 "p")
                 "u-alice"
                 (JDict [("current_password", JStr "Passw0rd");
                         ("new_password", JStr "N3wPassw0rd")]) Sample.db))
     = 200%Z
  /\ refresh_tokens
       (snd (SessionRoutes.change_password Sample.lib (Sample.env 500 "p")
               "u-alice"
               (JDict [("current_password", JStr "Passw0rd");
                       ("new_password", JStr "N3wPassw0rd")]) Sample.db))
     = [Sample.alice_row].
Proof.
  split; [ | split; [ | split; [reflexivity | ]]].
  - apply (change_password_route_effect Sample.lib (Sample.env 500 "p") "u-alice"
             (JDict [("current_password", JStr "Passw0rd");
                     ("new_password", JStr "NoDigitsHere")]) Sample.db)
      with (v := "NoDigitsHere")
           (d := [("current_password", JStr "Passw0rd");
                  ("new_password", JStr "NoDigitsHere")]);
      try reflexivity; try discriminate.
    intros d v [= <-] [= <-]. reflexivity.
  - apply (change_password_route_effect Sample.lib (Sample.env 500 "p") "u-alice"
             (JDict [("current_password", JStr "Passw0rd");
                     ("new_password", JStr "Ab1")]) Sample.db)
      with (v := "Ab1")
           (d := [("current_password", JStr "Passw0rd");
                  ("new_password", JStr "Ab1")]);
      try reflexivity; try discriminate.
    intros d v [= <-] [= <-]. reflexivity.
  - apply (change_password_route_effect Sample.lib (Sample.env 500 "p") "u-alice"
             (JDict [("current_password", JStr "Passw0rd");
                     ("new_password", JStr "N3wPassw0rd")]) Sample.db).
    intros d v [= <-] [= <-]. reflexivity.
Defined.

(** ** The username validator *)

Lemma contains_char_app (c : ascii) (a b : string) :
  UserCreateValidators.contains_char c (a ++ String c b) = true.
Proof.
  induction a as [|d a IH]; simpl.
  - rewrite Ascii.eqb_refl. reflexivity.
  - rewrite IH. apply orb_true_r.
Qed.

(** X20: The username validator lets through every name that holds an
    underscore, whatever its other characters (spaces and punctuation
    included): the two tests are joined by [and], so a name is refused
    only when it fails both. A name in ASCII without an underscore is
    accepted exactly when it is non-empty and alphanumeric. An accepted
    name is returned as it is. *)
Theorem validate_username_lets_underscored_names_through :
  (forall a b : string,
      UserCreateValidators.validate_username (a ++ String "_" b)
      = Some (a ++ String "_" b))
  /\ (forall v : string,
         ascii_text v = true ->
         UserCreateValidators.contains_char "_" v = false ->
         UserCreateValidators.validate_username v
         = if Py.isalnum v then Some v else None)
  /\ (forall v n, UserCreateValidators.validate_username v = Some n -> n = v).
Proof.
  split; [ | split].
  - intros a b. unfold UserCreateValidators.validate_username.
    rewrite contains_char_app. simpl. rewrite andb_false_r. reflexivity.
  - intros v _ U. unfold UserCreateValidators.validate_username. rewrite U.
    destruct (Py.isalnum v); reflexivity.
  - intros v n. unfold UserCreateValidators.validate_username.
    destruct (_ && _); [discriminate | ]. intros [= <-]. reflexivity.
Qed.

(** ["bob smith_!"] passes, ["bob smith"] does not. *)
Lemma validate_username_witness :
  UserCreateValidators.validate_username "bob smith_!" = Some "bob smith_!"
  /\ UserCreateValidators.validate_username "bob smith" = None.
Proof.
  destruct validate_username_lets_underscored_names_through as (Under & Plain & _).
  split.
  - exact (Under "bob smith" "!").
  - exact (Plain "bob smith" eq_refl eq_refl).
Defined.

(** ** Rotation, continued *)

Lemma update_first_keeps {A} (p : A -> bool) (f : A -> A) (l : list A) (x : A) :
  In x l -> p x = false -> In x (update_first p f l).
Proof.
  induction l as [|a l IH]; simpl; [tauto | ].
  intros [->|I] P.
  - rewrite P. simpl. auto.
  - destruct (p a); simpl; auto.
Qed.

(** What a successful refresh found and wrote. *)
Lemma refresh_success (L : Lib) (env : Env) (tok : string) (db : DB) :
  is_success (fst (AuthService.refresh_access_token L env tok db)) = true ->
  exists d user,
    let row :=
      RefreshToken.Build (uuid4 env 2) (User.id user)
        (sha256_hexdigest L
           (create_refresh_token L (now env) (uuid4 env 1) (User.id user)))
        (now env + seven_days)%Z false (now env) in
    decode_token L (now env) tok = inr d
    /\ get_user (sub d) db = Some user
    /\ User.is_active user = true
    /\ (exists names, role_names (get_roles db user) = inr names)
    /\ snd (AuthService.refresh_access_token L env tok db)
       = set_refresh_tokens
           (update_first (AuthService.token_row (sub d) (sha256_hexdigest L tok))
                         RefreshToken.revoke (refresh_tokens db) ++ [row]) db
    /\ existsb (fun x => RefreshToken.token_hash x =? RefreshToken.token_hash row)
               (refresh_tokens db) = false.
Proof.
  unfold AuthService.refresh_access_token.
  destruct (decode_token L (now env) tok) as [e|d]; simpl; [discriminate | ].
  destruct (find _ (refresh_tokens db)) as [stored|]; [ | discriminate].
  destruct (RefreshToken.is_valid (now env) stored); simpl; [ | discriminate].
  destruct (get_user (sub d) db) as [user|] eqn:U; [ | discriminate].
  destruct (User.is_active user) eqn:A; simpl; [ | discriminate].
  destruct (role_names (get_roles db user)) as [e|names] eqn:N; simpl;
    [discriminate | ].
  destruct (insert_refresh_token _ _) as [e|db2] eqn:I; simpl; [discriminate | ].
  apply insert_refresh_token_inv in I. destruct I as (-> & _ & FreshHash).
  simpl in FreshHash. rewrite existsb_update_first in FreshHash by reflexivity.
  intros _. exists d, user. simpl.
  split; [reflexivity | ]. split; [exact U | ]. split; [exact A | ].
  split; [eauto | ]. split; [reflexivity | exact FreshHash].
Qed.

(** X7: A refresh ends one session and opens one. After a successful
    [refresh_access_token(tok)], every stored row whose hash is not that
    of [tok] is still there, unchanged (other devices stay logged in), and
    the refresh token the call returned is itself accepted by a later
    refresh, up to seven days after it was issued, provided the JWT
    library decodes it to the user's id and the id and token drawn then
    are unused. *)
Theorem refresh_rotates_one_session :
  forall (L : Lib) (env env' : Env) (tok : string) (db : DB)
         (d d' : DecodedToken) (user : User.t),
    decode_token L (now env) tok = inr d ->
    get_user (sub d) db = Some user ->
    is_success (fst (AuthService.refresh_access_token L env tok db)) = true ->
    let T1 := create_refresh_token L (now env) (uuid4 env 1) (User.id user) in
    let db1 := snd (AuthService.refresh_access_token L env tok db) in
    (forall t, In t (refresh_tokens db) ->
               RefreshToken.token_hash t <> sha256_hexdigest L tok ->
               In t (refresh_tokens db1))
    /\ (decode_token L (now env') T1 = inr d' ->
        sub d' = User.id user ->
        (now env' <= now env + seven_days)%Z ->
        existsb (fun x => RefreshToken.id x =? uuid4 env' 2) (refresh_tokens db1)
        = false ->
        existsb (fun x => RefreshToken.token_hash x
                          =? sha256_hexdigest L
                               (create_refresh_token L (now env') (uuid4 env' 1)
                                                     (User.id user)))
                (refresh_tokens db1) = false ->
        is_success (fst (AuthService.refresh_access_token L env' T1 db1)) = true).
Proof.
  intros L env env' tok db d d' user Dec U Ok T1 db1.
  destruct (refresh_success L env tok db Ok)
    as (d0 & user0 & Dec0 & U0 & Active & [names Names] & Db & NoHash).
  assert (d0 = d) by congruence. subst d0.
  assert (user0 = user) by congruence. subst user0.
  simpl in *. fold T1 in Db, NoHash. fold db1 in Db.
  set (row := RefreshToken.Build (uuid4 env 2) (User.id user) (sha256_hexdigest L T1)
                (now env + seven_days)%Z false (now env)) in *.
  set (rotated := update_first
                    (AuthService.token_row (sub d) (sha256_hexdigest L tok))
                    RefreshToken.revoke (refresh_tokens db)) in *.
  split.
  - intros t I H. rewrite Db. simpl. apply in_or_app. left.
    apply update_first_keeps; [exact I | ].
    unfold AuthService.token_row.
    apply String.eqb_neq in H. rewrite H. apply andb_false_r.
  - intros Dec' Sub Time FreshId FreshTok.
    assert (Id : User.id user = sub d).
    { unfold get_user in U. apply find_some in U. apply String.eqb_eq. tauto. }
    assert (NoHash' : existsb (fun x => RefreshToken.token_hash x
                                        =? sha256_hexdigest L T1) rotated = false).
    { unfold rotated. rewrite existsb_update_first by reflexivity. exact NoHash. }
    assert (Row : find (AuthService.token_row (sub d') (sha256_hexdigest L T1))
                       (refresh_tokens db1) = Some row).
    { rewrite Db. simpl. rewrite find_app_skip.
      - simpl. unfold AuthService.token_row. simpl.
        rewrite Sub, !String.eqb_refl. reflexivity.
      - apply find_none_iff. intros x I. unfold AuthService.token_row.
        assert (H : (RefreshToken.token_hash x =? sha256_hexdigest L T1) = false).
        { destruct (RefreshToken.token_hash x =? sha256_hexdigest L T1) eqn:E;
            [ | reflexivity].
          assert (existsb (fun x => RefreshToken.token_hash x
                                    =? sha256_hexdigest L T1) rotated = true).
          { apply existsb_exists. eauto. }
          congruence. }
        rewrite H. apply andb_false_r. }
    assert (Valid : RefreshToken.is_valid (now env') row = true).
    { unfold RefreshToken.is_valid, RefreshToken.is_expired. simpl.
      rewrite Z.gtb_ltb. apply negb_true_iff. apply Z.ltb_ge. exact Time. }
    assert (User1 : get_user (sub d') db1 = Some user).
    { rewrite Db, Sub, Id. exact U. }
    assert (Names1 : role_names (get_roles db1 user) = inr names).
    { rewrite Db. exact Names. }
    rewrite (refresh_exchanges L env' T1 db1 d' row user names
               Dec' Row Valid User1 Active Names1 FreshId FreshTok).
    reflexivity.
Qed.

(** Alice exchanges her token at 200 and the new one at 300. *)
Lemma refresh_rotates_witness :
  is_success
    (fst (AuthService.refresh_access_token Sample.lib (Sample.env 300 "b")
            "u-alice|refresh|a1"
            (snd (AuthService.refresh_access_token Sample.lib (Sample.env 200 "a")
                    Sample.alice_token Sample.db)))) = true.
Proof.
  destruct (refresh_rotates_one_session Sample.lib (Sample.env 200 "a")
              (Sample.env 300 "b") Sample.alice_token Sample.db
              {| sub := "u-alice" |} {| sub := "u-alice" |} Sample.alice
              eq_refl eq_refl eq_refl) as [_ Next].
  apply Next; try reflexivity. simpl. discriminate.
Defined.
